(** * rurl: the rule matcher and the URL preprocessor

    A shallow embedding of the routing core of rurl:

    - [internal/config]     : [Rule], [Profile], [ShortenerService], [Config],
                              [FindProfileByID];
    - [internal/rules]      : [getMatchString], [ApplyRules];
    - [internal/urlhandler] : [ProcessURL], [ResolveShortenedURL];
    - [internal/cli]        : the routing part of [runRootCmd].

    Go strings are byte strings, modelled by [string]; [len] is [String.length].
    The packages of the Go standard library the code calls ([net/url],
    [regexp], [sort], [net/http]) are interfaces here (type classes with no
    laws); what a theorem needs of them is a visible hypothesis.  Reference
    instances of the interfaces are given in [Module Ref]; the closed examples
    run on them. *)

From Stdlib Require Import String Ascii List Bool Arith ZArith Lia.
From Stdlib Require Import Permutation Sorted.
Import ListNotations.

Local Open Scope list_scope.
Local Open Scope string_scope.

(** ** Results of fallible calls *)

Inductive result (E A : Type) : Type :=
| Ok (a : A)
| Err (e : E).
Arguments Ok {E A} a.
Arguments Err {E A} e.

(** ** package config *)

Module config.

(** [type RuleScope string] *)
Definition RuleScope := string.
Definition ScopeURL : RuleScope := "url".
Definition ScopeDomain : RuleScope := "domain".
Definition ScopePath : RuleScope := "path".

Record Profile := mkProfile {
  ID : string;
  ProfileName : string;
  BrowserID : string;
  ProfileDir : string }.

Record Rule := mkRule {
  RuleID : string;
  Name : string;
  Pattern : string;
  Scope : RuleScope;
  ProfileID : string;
  Incognito : bool }.

Record ShortenerService := mkShortener {
  Domain : string;
  IsSafelink : bool }.

(** The [Browsers] field is not read by the routing core and is left out. *)
Record Config := mkConfig {
  DefaultProfileID : string;
  Profiles : list Profile;
  Rules : list Rule;
  Shorteners : list ShortenerService;
  ManualShorteners : list ShortenerService }.

(** The loop of [FindProfileByID], over the profile slice. *)
Fixpoint findProfile (ps : list Profile) (id : string) : option Profile :=
  match ps with
  | [] => None
  | p :: ps' => if (ID p =? id)%string then Some p else findProfile ps' id
  end.

(** The method [FindProfileByID] of [Config]: the profile with that id, or
    the error "profile with ID '<id>' not found". *)
Definition FindProfileByID (c : Config) (id : string) : result string Profile :=
  match findProfile (Profiles c) id with
  | Some p => Ok p
  | None => Err ("profile with ID '" ++ id ++ "' not found")
  end.

End config.
Import config.

(** ** The standard-library interfaces *)

(** [net/url]: the fields of [url.URL] that the code and the methods it
    calls read. *)
Record URL := mkURL {
  Scheme : string;
  Opaque : string;
  Host : string;
  Path : string;
  RawQuery : string;
  Fragment : string }.

(** [parsedURL.Host = h; parsedURL.Path = p] *)
Definition setHostPath (u : URL) (h p : string) : URL :=
  mkURL (Scheme u) (Opaque u) h p (RawQuery u) (Fragment u).

(** [url.Parse] and the methods [Hostname], [ResolveReference] and [String]
    of [url.URL].  [Hostname] reads the [Host] field of its receiver. *)
Class NetURL := {
  Parse : string -> result string URL;
  Hostname : URL -> string;
  ResolveReference : URL -> URL -> URL;
  URLString : URL -> string }.

(** [regexp.Compile] and the method [MatchString] of a compiled pattern. *)
Class Regexp := {
  Regex : Type;
  Compile : string -> result string Regex;
  MatchString : Regex -> string -> bool }.

(** [sort.Slice(x, less)]: the slice after the call, from the slice before
    it. *)
Class Sort := {
  Slice : forall A : Type, (A -> A -> bool) -> list A -> list A }.
Arguments Slice {_ A} less x.

(** The contract of [sort.Slice] for a [less] that is a strict weak order:
    the result is a rearrangement of the slice in which no element is less
    than an earlier one.  Stability is not promised. *)
Definition SliceContract `{Sort} {A : Type} (less : A -> A -> bool) : Prop :=
  forall x : list A,
    Permutation (Slice less x) x /\
    StronglySorted (fun a b => less b a = false) (Slice less x).

(** [net/http]: the method of a request, and what the code reads of a
    response ([resp.StatusCode] and [resp.Header.Get("Location")], which is
    empty when the header is absent). *)
Inductive Method := HEAD | GET.

Record Response := mkResponse {
  StatusCode : Z;
  Location : string }.

(** [client.Do(req)] for the client of [ResolveShortenedURL], which never
    follows a redirect by itself ([CheckRedirect] returns
    [http.ErrUseLastResponse]) and gives up after 10 seconds.  [World] is the
    state of the network; a call returns a response or a transport error (a
    timeout is one) and the state after the exchange. *)
Class HTTPClient := {
  World : Type;
  Do : World -> Method -> string -> result string Response * World }.

(** ** package rules *)

Module rules.

Record MatchResult := mkMatchResult {
  Rule : option config.Rule;
  ProfileID : string;
  Incognito : bool }.

(** The errors [ApplyRules] returns, one constructor per [fmt.Errorf]. *)
Inductive Error :=
| ErrNilConfig
| ErrParseURL (inputURL cause : string)
| ErrRuleProfileNotFound (profileID ruleName : string)
| ErrNoDefaultProfile
| ErrDefaultProfileNotFound (defaultProfileID : string).

(** The text of each error, as the format strings build it. *)
Definition errorMessage (e : Error) : string :=
  match e with
  | ErrNilConfig => "configuration is nil"
  | ErrParseURL inputURL cause =>
      "failed to parse URL '" ++ inputURL ++ "': " ++ cause
  | ErrRuleProfileNotFound profileID ruleName =>
      "profile '" ++ profileID ++ "' specified in rule '" ++ ruleName
        ++ "' not found"
  | ErrNoDefaultProfile =>
      "no matching rule found and no default profile is configured"
  | ErrDefaultProfileNotFound id => "default profile '" ++ id ++ "' not found"
  end.

Section Matcher.
Context {U : NetURL} {RE : Regexp} {S : Sort}.

(** [getMatchString(parsedURL, scope)]: the part of the URL a rule of
    that scope is matched against.  The [switch] compares [scope] with
    the two constants and defaults to the URL form. *)
Definition getMatchString (parsedURL : URL) (scope : RuleScope) : string :=
  if (scope =? ScopeDomain)%string then Hostname parsedURL
  else if (scope =? ScopePath)%string then Path parsedURL
  else
    let matchStr :=
      if negb (Scheme parsedURL =? "")%string
      then Scheme parsedURL ++ "://" ++ Host parsedURL ++ Path parsedURL
      else Host parsedURL ++ Path parsedURL in
    if negb (RawQuery parsedURL =? "")%string
    then matchStr ++ "?" ++ RawQuery parsedURL
    else matchStr.

(** Lines 66-73 of [ApplyRules]: a URL that parsed to a bare path is
    parsed again behind "http://" and takes the host and path of that. *)
Definition recoverHost (inputURL : string) (parsedURL : URL) : URL :=
  if (Scheme parsedURL =? "")%string && (Host parsedURL =? "")%string
     && negb (Path parsedURL =? "")%string
  then match Parse ("http://" ++ inputURL) with
       | Ok tmpURL => setHostPath parsedURL (Host tmpURL) (Path tmpURL)
       | Err _ => parsedURL
       end
  else parsedURL.

(** The comparison handed to [sort.Slice]:
    [len(rulesToSort[i].Pattern) > len(rulesToSort[j].Pattern)]. *)
Definition lessRule (a b : config.Rule) : bool :=
  (String.length (Pattern b) <? String.length (Pattern a))%nat.

(** The [for i := range rulesToSort] loop, lines 94-148.  [None] is the
    loop running to its end; [Some r] is a [return r] from its body. *)
Fixpoint scanRules (cfg : Config) (parsedURL : URL)
         (rulesToSort : list config.Rule)
  : option (result Error MatchResult) :=
  match rulesToSort with
  | [] => None
  | rule :: rest =>
      match Compile (Pattern rule) with
      | Err _ => scanRules cfg parsedURL rest          (* continue *)
      | Ok re =>
          let matchString := getMatchString parsedURL (Scope rule) in
          if MatchString re matchString then
            match FindProfileByID cfg (config.ProfileID rule) with
            | Err _ =>
                Some (Err (ErrRuleProfileNotFound (config.ProfileID rule)
                                                  (Name rule)))
            | Ok _ =>
                Some (Ok (mkMatchResult (Some rule) (config.ProfileID rule)
                                        (config.Incognito rule)))
            end
          else scanRules cfg parsedURL rest
      end
  end.

(** Lines 150-169: no rule matched. *)
Definition defaultProfile (cfg : Config) : result Error MatchResult :=
  if (DefaultProfileID cfg =? "")%string then Err ErrNoDefaultProfile
  else match FindProfileByID cfg (DefaultProfileID cfg) with
       | Err _ => Err (ErrDefaultProfileNotFound (DefaultProfileID cfg))
       | Ok _ => Ok (mkMatchResult None (DefaultProfileID cfg) false)
       end.

(** [ApplyRules(cfg, inputURL)]; a nil [cfg] is [None]. *)
Definition ApplyRules (cfg : option Config) (inputURL : string)
  : result Error MatchResult :=
  match cfg with
  | None => Err ErrNilConfig
  | Some cfg =>
      match Parse inputURL with
      | Err e => Err (ErrParseURL inputURL e)
      | Ok parsedURL =>
          let parsedURL := recoverHost inputURL parsedURL in
          let rulesToSort := Slice lessRule (Rules cfg) in
          match scanRules cfg parsedURL rulesToSort with
          | Some r => r
          | None => defaultProfile cfg
          end
      end
  end.

(** *** Notions the properties of [ApplyRules] are stated with *)

(** The pattern of the rule compiles. *)
Definition compiles (rule : config.Rule) : bool :=
  match Compile (Pattern rule) with
  | Ok _ => true
  | Err _ => false
  end.

(** The rule matches the URL: its pattern compiles, and the compiled
    pattern matches the part of the URL that the scope of the rule
    selects. *)
Definition ruleMatches (parsedURL : URL) (rule : config.Rule) : bool :=
  match Compile (Pattern rule) with
  | Ok re => MatchString re (getMatchString parsedURL (Scope rule))
  | Err _ => false
  end.

(** What the call returns when [rule] is the rule that won: the match
    result of the rule, or the error that names its missing profile. *)
Definition ruleOutcome (cfg : Config) (rule : config.Rule)
  : result Error MatchResult :=
  match findProfile (Profiles cfg) (config.ProfileID rule) with
  | Some _ =>
      Ok (mkMatchResult (Some rule) (config.ProfileID rule)
                        (config.Incognito rule))
  | None =>
      Err (ErrRuleProfileNotFound (config.ProfileID rule) (Name rule))
  end.

(** The length of the pattern of a rule, the sort key. *)
Definition patternLen (rule : config.Rule) : nat :=
  String.length (Pattern rule).

End Matcher.

End rules.

(** ** package urlhandler *)

Module urlhandler.

(** The errors of [ResolveShortenedURL], one constructor per [fmt.Errorf]. *)
Inductive ResolveError :=
| ErrCreateRequest (currentURL cause : string)
| ErrPerformRequest (currentURL cause : string)
| ErrNoLocation (currentURL : string) (status : Z)
| ErrParseLocation (location cause : string)
| ErrTooManyRedirects (shortURL : string)
| ErrUnexpectedStatus (status : Z) (currentURL : string)
| ErrUnexpectedState (shortURL : string).

(** The error of [ProcessURL]: "failed to parse input URL: <cause>". *)
Inductive Error :=
| ErrParseInput (cause : string).

Definition errorMessage (e : Error) : string :=
  match e with
  | ErrParseInput cause => "failed to parse input URL: " ++ cause
  end.

(** The four results of [ProcessURL]; a nil [err] is [None]. *)
Record Processed := mkProcessed {
  urlForMatching : string;
  originalURL : string;
  isSafelink : bool;
  err : option Error }.

(** What one pass through the body of the redirect loop ends in: the loop
    goes on with a new [currentURL], or the function returns. *)
Inductive hopOutcome :=
| Redirected (currentURL : string)
| Returned (r : result ResolveError string).

Definition maxRedirects : nat := 5.

(** [for i := range cfg.ManualShorteners { if ... .Domain == hostname ... break }],
    and the same loop over [cfg.Shorteners]. *)
Fixpoint matchDomain (shorteners : list ShortenerService) (hostname : string)
  : option ShortenerService :=
  match shorteners with
  | [] => None
  | s :: rest =>
      if (Domain s =? hostname)%string then Some s else matchDomain rest hostname
  end.

(** Lines 37-53 of [ProcessURL]: the manual list first, then the built-in
    one. *)
Definition matchedShortener (cfg : Config) (hostname : string)
  : option ShortenerService :=
  match matchDomain (ManualShorteners cfg) hostname with
  | Some s => Some s
  | None => matchDomain (Shorteners cfg) hostname
  end.

Section Handler.
Context {U : NetURL} {H : HTTPClient}.

(** Lines 90-126 and 131-136: the body of the loop of
    [ResolveShortenedURL] at index [i], without the test of the hop limit.
    [http.NewRequest] parses [currentURL] with [url.Parse] and fails when
    that fails, so the parse of line 124 is the same one. *)
Definition hop (i : nat) (w : World) (currentURL : string)
  : hopOutcome * World :=
  match Parse currentURL with
  | Err e => (Returned (Err (ErrCreateRequest currentURL e)), w)
  | Ok baseReqURL =>
      let '(resp, w) := Do w HEAD currentURL in
      let '(resp, w) :=
        match resp with
        | Err e => if (i =? 0)%nat then Do w GET currentURL else (Err e, w)
        | Ok r => (Ok r, w)
        end in
      match resp with
      | Err e => (Returned (Err (ErrPerformRequest currentURL e)), w)
      | Ok resp =>
          if (300 <=? StatusCode resp)%Z && (StatusCode resp <? 400)%Z then
            let location := Location resp in
            if (location =? "")%string
            then (Returned (Err (ErrNoLocation currentURL (StatusCode resp))), w)
            else match Parse location with
                 | Err e => (Returned (Err (ErrParseLocation location e)), w)
                 | Ok redirectURL =>
                     (Redirected
                        (URLString (ResolveReference baseReqURL redirectURL)),
                      w)
                 end
          else if (200 <=? StatusCode resp)%Z && (StatusCode resp <? 300)%Z
          then (Returned (Ok currentURL), w)
          else (Returned (Err (ErrUnexpectedStatus (StatusCode resp)
                                                   currentURL)), w)
      end
  end.

(** [for i := 0; i < maxRedirects; i++ { ... }] with [n = maxRedirects - i]
    iterations left, and the [return] after the loop. *)
Fixpoint resolveLoop (n i : nat) (shortURL : string) (w : World)
         (currentURL : string) : result ResolveError string * World :=
  match n with
  | O => (Err (ErrUnexpectedState shortURL), w)
  | S n' =>
      let '(o, w) := hop i w currentURL in
      match o with
      | Returned r => (r, w)
      | Redirected next =>
          if (i =? maxRedirects - 1)%nat
          then (Err (ErrTooManyRedirects shortURL), w)
          else resolveLoop n' (S i) shortURL w next
      end
  end.

(** [ResolveShortenedURL(shortURL)] *)
Definition ResolveShortenedURL (shortURL : string) (w : World)
  : result ResolveError string * World :=
  resolveLoop maxRedirects 0 shortURL w shortURL.

(** [ProcessURL(cfg, inputURL)], for a [cfg] that is not nil. *)
Definition ProcessURL (cfg : Config) (inputURL : string) (w : World)
  : Processed * World :=
  let originalURL := inputURL in
  match Parse inputURL with
  | Err e => (mkProcessed inputURL originalURL false (Some (ErrParseInput e)), w)
  | Ok parsedURL =>
      let hostname := Hostname parsedURL in
      let unchanged := (mkProcessed inputURL originalURL false None, w) in
      if (Scheme parsedURL =? "http")%string
         || (Scheme parsedURL =? "https")%string
      then
        match matchedShortener cfg hostname with
        | Some s =>
            let '(r, w) := ResolveShortenedURL inputURL w in
            match r with
            | Err _ => (mkProcessed inputURL originalURL false None, w)
            | Ok resolved =>
                (mkProcessed resolved originalURL (IsSafelink s) None, w)
            end
        | None => unchanged
        end
      else unchanged
  end.

(** *** Notions the properties of the resolver are stated with *)

(** The first [n] passes through the loop, from index [i] on, all end in
    a redirect that can be followed: no pass returns. *)
Fixpoint redirectChain (n i : nat) (w : World) (currentURL : string) : bool :=
  match n with
  | O => true
  | S n' =>
      match hop i w currentURL with
      | (Redirected next, w') => redirectChain n' (S i) w' next
      | (Returned _, _) => false
      end
  end.

End Handler.

End urlhandler.

(** ** package cli *)

Module cli.

Definition newline : string := String (Ascii.ascii_of_nat 10) EmptyString.

(** How [runRootCmd] ends: [log.Fatal], the help text and [os.Exit(0)],
    a message on standard error and [os.Exit(1)], or the call
    [launcher.Launch(cfg, profileID, urlToLaunch, incognito)]. *)
Inductive Outcome :=
| Fatal (msg : string)
| Help
| Exit1 (stderr : string)
| Launch (cfg : Config) (profileID urlToLaunch : string) (incognito : bool).

Section Root.
Context {U : NetURL} {RE : Regexp} {S : Sort} {H : HTTPClient}.

(** [runRootCmd(cmd, args)] up to the call of the launcher; [cfg] is the
    package variable of that name. *)
Definition runRootCmd (cfg : option Config) (args : list string) (w : World)
  : Outcome * World :=
  match cfg with
  | None => (Fatal "Configuration not loaded (should not happen)", w)
  | Some cfg =>
      match args with
      | [] => (Help, w)
      | urlInput :: _ =>
          let '(p, w) := urlhandler.ProcessURL cfg urlInput w in
          match urlhandler.err p with
          | Some e =>
              (Exit1 ("Error processing URL: " ++ urlhandler.errorMessage e
                        ++ newline), w)
          | None =>
              let resolvedURL := urlhandler.urlForMatching p in
              let urlToLaunch :=
                if urlhandler.isSafelink p then urlhandler.originalURL p
                else resolvedURL in
              match rules.ApplyRules (Some cfg) resolvedURL with
              | Err e =>
                  (Exit1 ("Error applying rules: " ++ rules.errorMessage e
                            ++ newline), w)
              | Ok matchResult =>
                  (Launch cfg (rules.ProfileID matchResult) urlToLaunch
                          (rules.Incognito matchResult), w)
              end
          end
      end
  end.

End Root.

End cli.

(** ** Reference instances of the standard-library interfaces

    Small executable models of the library calls, on which the closed
    examples of this file run.  Each one follows the Go implementation on
    the inputs its comment describes. *)

Module Ref.

(** *** Strings *)

Definition dquote : string := String (Ascii.ascii_of_nat 34) EmptyString.

Definition inRange (lo hi c : ascii) : bool :=
  (nat_of_ascii lo <=? nat_of_ascii c)%nat
  && (nat_of_ascii c <=? nat_of_ascii hi)%nat.

Definition isAlpha (c : ascii) : bool :=
  inRange "a" "z" c || inRange "A" "Z" c.

Definition isDigit (c : ascii) : bool := inRange "0" "9" c.

Definition isCTL (c : ascii) : bool :=
  (nat_of_ascii c <? 32)%nat || (nat_of_ascii c =? 127)%nat.

Fixpoint allChars (p : ascii -> bool) (s : string) : bool :=
  match s with
  | EmptyString => true
  | String c s' => p c && allChars p s'
  end.

Definition anyChar (p : ascii -> bool) (s : string) : bool :=
  negb (allChars (fun c => negb (p c)) s).

Definition contains (c : ascii) (s : string) : bool := anyChar (Ascii.eqb c) s.

Definition hasPrefix (pre s : string) : bool := String.prefix pre s.

(** [strings.Cut(s, c)]: the text before and after the first [c]. *)
Fixpoint cut (c : ascii) (s : string) : option (string * string) :=
  match s with
  | EmptyString => None
  | String a s' =>
      if Ascii.eqb a c then Some (EmptyString, s')
      else match cut c s' with
           | Some (before, after) => Some (String a before, after)
           | None => None
           end
  end.

(** The text before and after the last [c]. *)
Fixpoint cutLast (c : ascii) (s : string) : option (string * string) :=
  match s with
  | EmptyString => None
  | String a s' =>
      match cutLast c s' with
      | Some (before, after) => Some (String a before, after)
      | None => if Ascii.eqb a c then Some (EmptyString, s') else None
      end
  end.

Definition toLowerChar (c : ascii) : ascii :=
  if inRange "A" "Z" c then ascii_of_nat (nat_of_ascii c + 32) else c.

Fixpoint toLower (s : string) : string :=
  match s with
  | EmptyString => EmptyString
  | String c s' => String (toLowerChar c) (toLower s')
  end.

(** *** net/url

    [parse] follows [url.Parse] on URLs without user information, IPv6
    literals and percent-escapes, and reports an error of its own outside
    that fragment.  [resolveReference] and [urlString] do not normalise
    paths: they follow the library when no path has a dot segment and the
    URL has a host or no scheme. *)

Definition unsupported : string := "outside the modelled fragment of net/url".

(** [getScheme]: the scheme and the rest after its colon; no scheme when
    the text before the first colon is not one. *)
Fixpoint getSchemeFrom (rawURL : string) (i : nat) (s : string)
  : result string (string * string) :=
  match s with
  | EmptyString => Ok (EmptyString, rawURL)
  | String c s' =>
      if isAlpha c then getSchemeFrom rawURL (S i) s'
      else if isDigit c || Ascii.eqb c "+" || Ascii.eqb c "-" || Ascii.eqb c "."
      then if (i =? 0)%nat then Ok (EmptyString, rawURL)
           else getSchemeFrom rawURL (S i) s'
      else if Ascii.eqb c ":"
      then if (i =? 0)%nat then Err "missing protocol scheme"
           else Ok (String.substring 0 i rawURL, s')
      else Ok (EmptyString, rawURL)
  end.

Definition getScheme (rawURL : string) : result string (string * string) :=
  getSchemeFrom rawURL 0 rawURL.

(** [validOptionalPort]: empty, or a colon and digits. *)
Definition validOptionalPort (port : string) : bool :=
  match port with
  | EmptyString => true
  | String c digits => Ascii.eqb c ":" && allChars isDigit digits
  end.

(** The bytes [shouldEscape(c, encodeHost)] lets stand in a host. *)
Definition hostChar (c : ascii) : bool :=
  isAlpha c || isDigit c || (128 <=? nat_of_ascii c)%nat
  || contains c "!$&'()*+,;=:[]<>-_.~" || Ascii.eqb c (ascii_of_nat 34).

(** [parseAuthority] and [parseHost], without user information and IPv6
    literals. *)
Definition parseHost (authority : string) : result string string :=
  if contains "@" authority || hasPrefix "[" authority then Err unsupported
  else
    let portOk :=
      match cutLast ":" authority with
      | Some (_, port) => validOptionalPort (String ":" port)
      | None => true
      end in
    if negb portOk then Err "invalid port after host"
    else if negb (allChars hostChar authority)
    then Err "invalid character in host name"
    else Ok authority.

(** The unexported [parse(rawURL, false)]. *)
Definition parseNoFragment (rawURL : string) : result string URL :=
  if anyChar isCTL rawURL then Err "net/url: invalid control character in URL"
  else if (rawURL =? "*")%string
  then Ok (mkURL "" "" "" "*" "" "")
  else
    match getScheme rawURL with
    | Err e => Err e
    | Ok (scheme, rest) =>
        let scheme := toLower scheme in
        let '(rest, rawQuery) :=
          match cut "?" rest with
          | Some (before, after) => (before, after)
          | None => (rest, EmptyString)
          end in
        if negb (hasPrefix "/" rest) && negb (scheme =? "")%string
        then Ok (mkURL scheme rest "" "" rawQuery "")
        else if negb (hasPrefix "/" rest)
                && contains ":" (match cut "/" rest with
                                 | Some (segment, _) => segment
                                 | None => rest
                                 end)
        then Err "first path segment in URL cannot contain colon"
        else if (negb (scheme =? "")%string || negb (hasPrefix "///" rest))
                && hasPrefix "//" rest
        then
          let afterSlashes := String.substring 2 (String.length rest - 2) rest in
          let '(authority, path) :=
            match cut "/" afterSlashes with
            | Some (a, p) => (a, String "/" p)
            | None => (afterSlashes, EmptyString)
            end in
          match parseHost authority with
          | Err e => Err e
          | Ok host => Ok (mkURL scheme "" host path rawQuery "")
          end
        else Ok (mkURL scheme "" "" rest rawQuery "")
    end.

(** [url.Parse]: the fragment is cut off first; the error names the
    operation and the URL. *)
Definition parse (rawURL : string) : result string URL :=
  if contains "%" rawURL then Err unsupported
  else
    let '(u, frag) :=
      match cut "#" rawURL with
      | Some (before, after) => (before, after)
      | None => (rawURL, EmptyString)
      end in
    match parseNoFragment u with
    | Err e => Err ("parse " ++ dquote ++ u ++ dquote ++ ": " ++ e)
    | Ok url =>
        Ok (mkURL (Scheme url) (Opaque url) (Host url) (Path url)
                  (RawQuery url) frag)
    end.

(** [splitHostPort] and [Hostname]: the host without a valid port and
    without the brackets of an IPv6 literal. *)
Definition hostname (u : URL) : string :=
  let host :=
    match cutLast ":" (Host u) with
    | Some (h, port) =>
        if validOptionalPort (String ":" port) then h else Host u
    | None => Host u
    end in
  let n := String.length host in
  if hasPrefix "[" host && (String.substring (n - 1) 1 host =? "]")%string
  then String.substring 1 (n - 2) host
  else host.

(** [ResolveReference]: an absolute reference stands for itself; a
    reference with a path replaces the path of the base (after its last
    slash when the reference is relative). *)
Definition resolveReference (u ref : URL) : URL :=
  let scheme := if (Scheme ref =? "")%string then Scheme u else Scheme ref in
  if negb (Scheme ref =? "")%string || negb (Host ref =? "")%string
  then mkURL scheme (Opaque ref) (Host ref) (Path ref) (RawQuery ref)
             (Fragment ref)
  else if negb (Opaque ref =? "")%string
  then mkURL scheme (Opaque ref) "" "" (RawQuery ref) (Fragment ref)
  else if (Path ref =? "")%string
  then if (RawQuery ref =? "")%string
       then mkURL scheme (Opaque u) (Host u) (Path u) (RawQuery u)
                  (if (Fragment ref =? "")%string then Fragment u
                   else Fragment ref)
       else mkURL scheme (Opaque u) (Host u) (Path u) (RawQuery ref)
                  (Fragment ref)
  else
    let path :=
      if hasPrefix "/" (Path ref) then Path ref
      else match cutLast "/" (Path u) with
           | Some (dir, _) => dir ++ "/" ++ Path ref
           | None => Path ref
           end in
    mkURL scheme "" (Host u) path (RawQuery ref) (Fragment ref).

(** [String]: the URL put together again. *)
Definition urlString (u : URL) : string :=
  (if (Scheme u =? "")%string then "" else Scheme u ++ ":")
  ++ (if negb (Opaque u =? "")%string then Opaque u
      else
        (if (negb (Scheme u =? "")%string || negb (Host u =? "")%string)
            && (negb (Host u =? "")%string || negb (Path u =? "")%string)
         then "//" ++ Host u else Host u)
        ++ (if negb (Path u =? "")%string && negb (hasPrefix "/" (Path u))
               && negb (Host u =? "")%string
            then "/" ++ Path u else Path u))
  ++ (if (RawQuery u =? "")%string then "" else "?" ++ RawQuery u)
  ++ (if (Fragment u =? "")%string then "" else "#" ++ Fragment u).

#[export] Instance netURL : NetURL := {
  Parse := parse;
  Hostname := hostname;
  ResolveReference := resolveReference;
  URLString := urlString }.

(** *** regexp

    The literal fragment of the RE2 syntax: a pattern is a sequence of
    literal bytes, escaped punctuation and dots, with a caret allowed in
    front and a dollar at the end.  [compile] reports an error of its own
    on a pattern that uses more of the syntax, and the error of the library
    on a class that is not closed and on a trailing backslash. *)

Inductive atom :=
| Lit (c : ascii)
| AnyButNewline.

Record literalRE := mkRE {
  anchoredStart : bool;
  atoms : list atom;
  anchoredEnd : bool }.

Definition unsupportedSyntax : string :=
  "outside the modelled fragment of regexp/syntax".

(** The atoms of a pattern and whether it ends in a dollar. *)
Fixpoint compileAtoms (pattern : string) : result string (list atom * bool) :=
  match pattern with
  | EmptyString => Ok ([], false)
  | String c rest =>
      let cons (a : atom) :=
        match compileAtoms rest with
        | Ok (l, dollar) => Ok (a :: l, dollar)
        | Err e => Err e
        end in
      if Ascii.eqb c "\" then
        match rest with
        | EmptyString =>
            Err "error parsing regexp: trailing backslash at end of expression"
        | String d rest' =>
            if isAlpha d || isDigit d then Err unsupportedSyntax
            else match compileAtoms rest' with
                 | Ok (l, dollar) => Ok (Lit d :: l, dollar)
                 | Err e => Err e
                 end
        end
      else if Ascii.eqb c "." then cons AnyButNewline
      else if Ascii.eqb c "$" then
        match rest with
        | EmptyString => Ok ([], true)
        | _ => Err unsupportedSyntax
        end
      else if Ascii.eqb c "[" then
        if contains "]" rest then Err unsupportedSyntax
        else Err "error parsing regexp: missing closing ]"
      else if contains c "+*?()|]{}^" then Err unsupportedSyntax
      else cons (Lit c)
  end.

Definition compile (pattern : string) : result string literalRE :=
  let '(anchored, body) :=
    match pattern with
    | String c rest =>
        if Ascii.eqb c "^" then (true, rest) else (false, pattern)
    | EmptyString => (false, pattern)
    end in
  match compileAtoms body with
  | Ok (l, dollar) => Ok (mkRE anchored l dollar)
  | Err e => Err e
  end.

Definition atomMatches (a : atom) (c : ascii) : bool :=
  match a with
  | Lit d => Ascii.eqb c d
  | AnyButNewline => negb (Ascii.eqb c (ascii_of_nat 10))
  end.

(** The atoms match a prefix of [s] (all of [s] when [toEnd]). *)
Fixpoint matchHere (l : list atom) (toEnd : bool) (s : string) : bool :=
  match l with
  | [] => if toEnd then (s =? "")%string else true
  | a :: l' =>
      match s with
      | EmptyString => false
      | String c s' => atomMatches a c && matchHere l' toEnd s'
      end
  end.

(** The atoms match somewhere in [s]. *)
Fixpoint matchFrom (l : list atom) (toEnd : bool) (s : string) : bool :=
  matchHere l toEnd s
  || match s with
     | EmptyString => false
     | String _ s' => matchFrom l toEnd s'
     end.

Definition matchString (re : literalRE) (s : string) : bool :=
  if anchoredStart re then matchHere (atoms re) (anchoredEnd re) s
  else matchFrom (atoms re) (anchoredEnd re) s.

#[export] Instance regexp : Regexp := {
  Regex := literalRE;
  Compile := compile;
  MatchString := matchString }.

(** *** sort

    The insertion sort that [sort.Slice] runs on a short slice: each
    element in turn moves left past the elements it is less than.  The
    sorted prefix is kept with its last element first. *)

Fixpoint insertBack {A : Type} (less : A -> A -> bool) (x : A)
         (revPrefix : list A) : list A :=
  match revPrefix with
  | [] => [x]
  | p :: ps => if less x p then p :: insertBack less x ps else x :: p :: ps
  end.

Definition insertionSort {A : Type} (less : A -> A -> bool) (data : list A)
  : list A :=
  rev (fold_left (fun revPrefix x => insertBack less x revPrefix) data []).

#[export] Instance sort : Sort := {
  Slice := @insertionSort }.

(** *** net/http

    A server that answers a request by the URL alone, [HEAD] and [GET]
    alike, from a table that the exchange does not change; a URL that is
    not in the table has no server behind it. *)

Fixpoint serve (table : list (string * Response)) (url : string)
  : result string Response :=
  match table with
  | [] => Err "dial tcp: connection refused"
  | (u, r) :: table' => if (u =? url)%string then Ok r else serve table' url
  end.

#[export] Instance httpClient : HTTPClient := {
  World := list (string * Response);
  Do := fun w _ url => (serve w url, w) }.

End Ref.

(** ** Configurations and servers of the examples

    The configurations of the tests of the packages [rules] and
    [urlhandler], and servers in the manner of the redirecting test
    server. *)

Module Fixtures.

Definition defaultOnly : list Profile :=
  [mkProfile "default-profile" "Default" "" ""].

Definition threeProfiles : list Profile :=
  [mkProfile "default-profile" "Default" "" "";
   mkProfile "work-profile" "Work" "" "";
   mkProfile "personal-profile" "Personal" "" ""].

Definition genericDomain : config.Rule :=
  mkRule "" "Generic Domain" "^https://example\.com" "" "default-profile" false.

Definition specificPath : config.Rule :=
  mkRule "" "Specific Path" "^https://example\.com/work" "" "work-profile" true.

(** "multiple rules with different specificity", and the same rules in the
    other order. *)
Definition specificity : Config :=
  mkConfig "default-profile" threeProfiles [genericDomain; specificPath] [] [].

Definition specificityReversed : Config :=
  mkConfig "default-profile" threeProfiles [specificPath; genericDomain] [] [].

(** "matching rule with non-existent profile" *)
Definition testRule : config.Rule :=
  mkRule "" "Test Rule" "^https://example\.com" "" "non-existent-profile" false.

Definition dangling : Config :=
  mkConfig "default-profile" defaultOnly [testRule] [] [].

(** "no rules with default profile" *)
Definition noRules : Config :=
  mkConfig "default-profile" defaultOnly [] [] [].

(** "invalid regex pattern" *)
Definition invalidRule : config.Rule :=
  mkRule "" "Invalid Rule" "[invalid(regex" "" "default-profile" false.

Definition invalidPattern : Config :=
  mkConfig "default-profile" defaultOnly [invalidRule] [] [].

(** "domain scope rule": a rule of scope "domain" whose pattern starts with
    the scheme. *)
Definition workDomain : config.Rule :=
  mkRule "" "Work Domain" "^https://work\.example\.com" ScopeDomain
         "work-profile" false.

Definition domainScope : Config :=
  mkConfig "default-profile" threeProfiles [workDomain] [] [].

(** A rule with the empty pattern beside a rule with a longer one. *)
Definition catchAll : config.Rule :=
  mkRule "" "Catch All" "" "" "personal-profile" true.

Definition withCatchAll : Config :=
  mkConfig "default-profile" threeProfiles [catchAll; specificPath] [] [].

(** The built-in safelink domain of [DefaultConfig], and a rule for the
    page behind the link. *)
Definition safelinks : Config :=
  mkConfig "default-profile" threeProfiles [specificPath]
           [mkShortener "bit.ly" false;
            mkShortener "safelinks.protection.outlook.com" true]
           [].

Definition safelinkURL : string := "https://safelinks.protection.outlook.com/r1".

(** The safelink redirects to a page that answers 200. *)
Definition safelinkServer : list (string * Response) :=
  [(safelinkURL, mkResponse 301 "https://example.com/work/mail");
   ("https://example.com/work/mail", mkResponse 200 "")].

(** The shortener answers 404. *)
Definition goneServer : list (string * Response) :=
  [("https://bit.ly/gone", mkResponse 404 "")].

(** A chain of six 301 responses, and the page at its end. *)
Definition sixRedirects : list (string * Response) :=
  [("https://bit.ly/0", mkResponse 301 "https://bit.ly/1");
   ("https://bit.ly/1", mkResponse 301 "/2");
   ("https://bit.ly/2", mkResponse 301 "https://bit.ly/3");
   ("https://bit.ly/3", mkResponse 301 "https://bit.ly/4");
   ("https://bit.ly/4", mkResponse 301 "https://bit.ly/5");
   ("https://bit.ly/5", mkResponse 301 "https://example.com/");
   ("https://example.com/", mkResponse 200 "")].

End Fixtures.

(** ** package strings, byte by byte

    The functions of [strings] whose result is fixed by the bytes of their
    arguments, for the separators the code passes (single ASCII bytes and
    ASCII texts). *)

Module strings.

(** [strings.HasPrefix(s, prefix)] *)
Definition HasPrefix (s pre : string) : bool := String.prefix pre s.

(** [strings.Contains(s, substr)] *)
Fixpoint Contains (s substr : string) : bool :=
  String.prefix substr s
  || match s with
     | EmptyString => false
     | String _ s' => Contains s' substr
     end.


(** [strings.Split(s, sep)] for a one-byte [sep]. *)
Fixpoint Split (s : string) (sep : ascii) : list string :=
  match s with
  | EmptyString => [EmptyString]
  | String c s' =>
      if Ascii.eqb c sep then EmptyString :: Split s' sep
      else match Split s' sep with
           | part :: parts => String c part :: parts
           | [] => [String c EmptyString]
           end
  end.

(** [strings.Replace(s, old, new, 1)] for an [old] that is not empty: the
    first [old] in [s] gives way to [new]. *)
Fixpoint ReplaceFirst (s old new : string) : string :=
  if String.prefix old s
  then new ++ String.substring (String.length old)
                               (String.length s - String.length old) s
  else match s with
       | EmptyString => EmptyString
       | String c s' => String c (ReplaceFirst s' old new)
       end.

End strings.

(** The functions of [strings] that go by the Unicode tables, and so not
    byte by byte: [strings.TrimSpace] and [strings.EqualFold]. *)
Class Unicode := {
  TrimSpace : string -> string;
  EqualFold : string -> string -> bool }.

(** ** package config: browsers, manual shorteners, defaults, decoding *)

Module configx.

(** [type Browser struct]; the field [BundleID] is read nowhere. *)
Record Browser := mkBrowser {
  Name : string;
  BrowserID : string;
  Executable : string;
  ProfileArg : string;
  IncognitoArg : string }.

(** The loop of [FindBrowserByID], over [c.Browsers]. *)
Fixpoint findBrowser (bs : list Browser) (id : string) : option Browser :=
  match bs with
  | [] => None
  | b :: bs' => if (BrowserID b =? id)%string then Some b else findBrowser bs' id
  end.

(** The method [FindBrowserByID], on the [Browsers] field of the config. *)
Definition FindBrowserByID (browsers : list Browser) (id : string)
  : result string Browser :=
  match findBrowser browsers id with
  | Some b => Ok b
  | None => Err ("browser with ID '" ++ id ++ "' not found")
  end.

(** The method [GetProfileBrowser]. *)
Definition GetProfileBrowser (browsers : list Browser) (profile : Profile)
  : result string Browser :=
  FindBrowserByID browsers (config.BrowserID profile).

(** The loop of [FindManualShortenerByDomain] from index [i] on. *)
Fixpoint findManualShortener (l : list ShortenerService) (domain : string)
         (i : nat) : option (ShortenerService * nat) :=
  match l with
  | [] => None
  | s :: l' =>
      if (Domain s =? domain)%string then Some (s, i)
      else findManualShortener l' domain (S i)
  end.

(** The method [FindManualShortenerByDomain]: the shortener and its index,
    or the error; the index -1 that comes with the error is left out. *)
Definition FindManualShortenerByDomain (c : Config) (domain : string)
  : result string (ShortenerService * nat) :=
  match findManualShortener (ManualShorteners c) domain 0 with
  | Some si => Ok si
  | None =>
      Err ("manual shortener service for domain '" ++ domain ++ "' not found")
  end.

(** The built-in shorteners of [DefaultConfig]. *)
Definition builtinShorteners : list ShortenerService :=
  map (fun d => mkShortener d false)
      ["t.co"; "bit.ly"; "goo.gl"; "tinyurl.com"; "73.nu"; "bitly.kr";
       "bl.ink"; "buff.ly"; "clicky.me"; "cutt.ly"; "dub.co"; "fox.ly";
       "gg.gg"; "han.gl"; "is.gd"; "kurzelinks.de"; "kutt.it"; "lstu.fr";
       "lyn.bz"; "oe.cd"; "ow.ly"; "rebrandly.com"; "reduced.to"; "rip.to";
       "san.aq"; "short.io"; "shorten-url.com"; "shorturl.at"; "sor.bz";
       "spoo.me"; "switchy.io"; "t.ly"; "tinu.be"; "urlr.me"; "v.gd";
       "vo.la"; "yaso.su"; "zlnk.com"]
  ++ [mkShortener "safelinks.protection.outlook.com" true].

(** [DefaultConfig()]: no browsers, profiles, rules or manual shorteners,
    no default profile. *)
Definition DefaultConfig : Config :=
  mkConfig "" [] [] builtinShorteners [].

(** The decode hook of [LoadConfig] on a string that is decoded into a
    [RuleScope]: one of the three scopes stands, anything else becomes
    "url". *)
Definition decodeScope (str : string) : RuleScope :=
  if (str =? ScopeURL)%string || (str =? ScopeDomain)%string
     || (str =? ScopePath)%string
  then str else ScopeURL.

(** The rule as [LoadConfig] decodes it. *)
Definition decodeRule (r : config.Rule) : config.Rule :=
  mkRule (RuleID r) (config.Name r) (Pattern r) (decodeScope (Scope r))
         (config.ProfileID r) (config.Incognito r).

End configx.

(** ** package launcher *)

Module launcher.

(** The errors of [Launch] before the process is started. *)
Inductive Error :=
| ErrProfile (cause : string)
| ErrBrowser (browserID profileName cause : string).

Definition errorMessage (e : Error) : string :=
  match e with
  | ErrProfile cause => "cannot launch profile: " ++ cause
  | ErrBrowser browserID profileName cause =>
      "cannot find browser '" ++ browserID ++ "' for profile '"
        ++ profileName ++ "': " ++ cause
  end.

(** [exec.Command(name, arg...)] sets [cmd.Args] to the name and the
    arguments. *)
Definition command (browser : configx.Browser) : list string :=
  if strings.HasPrefix (configx.Executable browser) "flatpak run "
  then strings.Split (configx.Executable browser) " "
  else [configx.Executable browser].

(** [Launch(cfg, profileID, targetURL, incognito)] up to [cmd.Start()]: the
    error, or [cmd.Args] as the process is started with.  [browsers] is
    [cfg.Browsers]; [wayland] says that [runtime.GOOS] is "linux" and the
    environment has [XDG_SESSION_TYPE=wayland]. *)
Definition Launch (cfg : Config) (browsers : list configx.Browser)
           (wayland : bool) (profileID targetURL : string) (incognito : bool)
  : result Error (list string) :=
  match FindProfileByID cfg profileID with
  | Err e => Err (ErrProfile e)
  | Ok profile =>
      match configx.GetProfileBrowser browsers profile with
      | Err e =>
          Err (ErrBrowser (config.BrowserID profile) (ProfileName profile) e)
      | Ok browser =>
          let args : list string := [] in
          let args :=
            if negb (configx.ProfileArg browser =? "")%string
               && negb (ProfileDir profile =? "")%string
            then
              if strings.Contains (configx.ProfileArg browser) "%s"
              then (args ++ [strings.ReplaceFirst (configx.ProfileArg browser)
                                                  "%s" (ProfileDir profile)])%list
              else (args ++ [configx.ProfileArg browser])%list
            else args in
          let args :=
            if incognito && negb (configx.IncognitoArg browser =? "")%string
            then (args ++ [configx.IncognitoArg browser])%list
            else args in
          let args :=
            if wayland
               && strings.Contains (configx.ProfileArg browser)
                                   "--profile-directory"
            then (args ++ ["--enable-features=UseOzonePlatform";
                           "--ozone-platform=wayland"])%list
            else args in
          let args := (args ++ [targetURL])%list in
          Ok (command browser ++ args)%list
      end
  end.

End launcher.

(** ** A log of the requests

    The client of an [HTTPClient] with a list beside the state of the
    network, to which every call of [Do] adds its method and URL. *)

Module requestlog.






End requestlog.

(** ** package cli: the commands that change the config, and completion

    A command is modelled up to the call of [config.SaveConfig]: what the
    user answers at a prompt and the flags of the command line are
    arguments, and the result is how the command ends. *)

Module configcmd.

Import configx.

(** What [AdvancedChoose] and [Input] of the prompt library return: the
    text, or an error, of which the code asks whether it is
    [prompt.ErrUserQuit]. *)
Inductive Answer :=
| Chosen (text : string)
| Failed (userQuit : bool) (cause : string).

(** How a command ends: [os.Exit(code)] after a last message, a plain
    [return] after a message, the return of an error from a [RunE]
    function, the call [config.SaveConfig(cfg, ...)] with the changed
    config, whose [Browsers] no command here changes, or a run-time panic
    for an index out of range. *)
Inductive Outcome :=
| Exit (code : nat) (msg : string)
| Return (msg : string)
| ReturnErr (msg : string)
| Save (cfg : Config)
| Panic.

(** The directive that comes with the completions. *)
Inductive ShellCompDirective :=
| ShellCompDirectiveError
| ShellCompDirectiveNoFileComp.

(** Assignments to one field of the config. *)
Definition withDefaultProfileID (c : Config) (id : string) : Config :=
  mkConfig id (Profiles c) (Rules c) (Shorteners c) (ManualShorteners c).

Definition withProfiles (c : Config) (ps : list Profile) : Config :=
  mkConfig (DefaultProfileID c) ps (Rules c) (Shorteners c)
           (ManualShorteners c).

Definition withRules (c : Config) (rs : list config.Rule) : Config :=
  mkConfig (DefaultProfileID c) (Profiles c) rs (Shorteners c)
           (ManualShorteners c).

Definition withManualShorteners (c : Config) (l : list ShortenerService)
  : Config :=
  mkConfig (DefaultProfileID c) (Profiles c) (Rules c) (Shorteners c) l.

(** [append(s[:index], s[index+1:]...)]; the slice expression
    [s[index+1:]] panics when [index] is not below the length. *)
Definition removeAt {A : Type} (s : list A) (index : nat) : option (list A) :=
  if (index <? length s)%nat
  then Some (firstn index s ++ skipn (S index) s)%list
  else None.

(** [shorteners[index].IsSafelink = newValue]; an index out of range
    panics. *)
Fixpoint setSafelink (shorteners : list ShortenerService) (index : nat)
         (newValue : bool) : option (list ShortenerService) :=
  match shorteners, index with
  | [], _ => None
  | s :: rest, O => Some (mkShortener (Domain s) newValue :: rest)
  | s :: rest, S i =>
      match setSafelink rest i newValue with
      | Some rest' => Some (s :: rest')
      | None => None
      end
  end.


(** The loop that looks for the index and the name of the profile in
    [runProfileDeleteCmd], from index [i] on; [None] is the index -1. *)
Fixpoint profileIndex (ps : list Profile) (profileID : string) (i : nat)
  : option (nat * string) :=
  match ps with
  | [] => None
  | p :: ps' =>
      if (ID p =? profileID)%string then Some (i, ProfileName p)
      else profileIndex ps' profileID (S i)
  end.


(** [promptSafelink(promptText, currentValue)] *)
Definition promptSafelink (answer : Answer) (currentValue : bool) : bool :=
  match answer with
  | Failed _ _ => currentValue
  | Chosen result =>
      if (result =? "")%string then currentValue else (result =? "Yes")%string
  end.

(** [promptSelectManualShortURL(promptText, shorteners)] *)
Definition promptSelectManualShortURL (answer : Answer)
           (shorteners : list ShortenerService) : result string string :=
  match shorteners with
  | [] => Err "no manual short URL domains configured"
  | _ =>
      match answer with
      | Failed true _ => Ok ""
      | Failed false cause => Err cause
      | Chosen result =>
          match find (fun s => (Domain s =? result)%string) shorteners with
          | Some s => Ok (Domain s)
          | None => Ok ""
          end
      end
  end.

(** [promptSelectProfile(promptText, availableProfiles,
    globalDefaultProfileID, currentRuleProfileID)]; the last argument only
    marks a choice on the screen. *)
Definition promptSelectProfile (answer : Answer)
           (availableProfiles : list Profile) (globalDefaultProfileID : string)
  : result string string :=
  match availableProfiles with
  | [] => Err "no available profiles to choose from"
  | _ =>
      match answer with
      | Failed true _ => Ok ""
      | Failed false cause => Err cause
      | Chosen result =>
          if (result =? "")%string && negb (globalDefaultProfileID =? "")%string
          then Ok globalDefaultProfileID
          else match find (fun p => (ProfileName p =? result)%string)
                          availableProfiles with
               | Some p => Ok (ID p)
               | None => Ok ""
               end
      end
  end.


(** [runEditManualShortURLCmd]; [selection] answers the choice of the
    domain, [answer] the question for the flag. *)
Definition runEditManualShortURLCmd (cfg : option Config) (args : list string)
           (safelink : option bool) (selection answer : Answer) : Outcome :=
  match cfg with
  | None => Exit 1 "Configuration not loaded."
  | Some cfg =>
      let domainName : Outcome + string :=
        match args with
        | [] =>
            match ManualShorteners cfg with
            | [] =>
                inl (Exit 1 ("Error: No manual short URLs configured to edit."
                               ++ cli.newline))
            | _ =>
                match promptSelectManualShortURL selection
                                                 (ManualShorteners cfg) with
                | Err e =>
                    inl (Exit 1 ("Error selecting short URL domain: " ++ e
                                   ++ cli.newline))
                | Ok domainName =>
                    if (domainName =? "")%string
                    then inl (Exit 0 ("Edit cancelled." ++ cli.newline))
                    else inr domainName
                end
            end
        | domainName :: _ => inr domainName
        end in
      match domainName with
      | inl o => o
      | inr domainName =>
          match FindManualShortenerByDomain cfg domainName with
          | Err e => Exit 1 ("Error: " ++ e ++ cli.newline)
          | Ok (shortenerToEdit, index) =>
              let newValue :=
                match safelink with
                | Some v => v
                | None => promptSafelink answer (IsSafelink shortenerToEdit)
                end in
              if Bool.eqb newValue (IsSafelink shortenerToEdit)
              then Exit 0 ("Setting unchanged. No edit necessary."
                             ++ cli.newline)
              else match setSafelink (ManualShorteners cfg) index newValue with
                   | Some l => Save (withManualShorteners cfg l)
                   | None => Panic
                   end
          end
      end
  end.

(** [runRuleAddCmd] from the loaded config on; the four answers are the
    name, the pattern, the scope and the profile id. *)
Definition runRuleAddCmd (loaded : result string Config)
           (name pattern scope profileID : Answer) : Outcome :=
  match loaded with
  | Err e => ReturnErr ("failed to load config: " ++ e)
  | Ok cfg =>
      match name with
      | Failed _ e => ReturnErr ("failed to get rule name: " ++ e)
      | Chosen name =>
          match pattern with
          | Failed _ e => ReturnErr ("failed to get URL pattern: " ++ e)
          | Chosen pattern =>
              match scope with
              | Failed _ e => ReturnErr ("failed to select scope: " ++ e)
              | Chosen scope =>
                  match profileID with
                  | Failed _ e =>
                      ReturnErr ("failed to select profile: " ++ e)
                  | Chosen profileID =>
                      let rule := mkRule "" name pattern scope profileID
                                         false in
                      Save (withRules cfg (Rules cfg ++ [rule])%list)
                  end
              end
          end
      end
  end.


(** [runSetDefaultProfileCmd] *)
Definition runSetDefaultProfileCmd (cfg : option Config) (args : list string)
           (selection : Answer) : Outcome :=
  match cfg with
  | None => Exit 1 "Configuration not loaded."
  | Some cfg =>
      let profileID : Outcome + string :=
        match args with
        | [] =>
            match Profiles cfg with
            | [] =>
                inl (Exit 1 ("Error: No profiles configured. Cannot set a default."
                               ++ cli.newline))
            | [p] => inr (ID p)
            | _ =>
                match promptSelectProfile selection (Profiles cfg)
                                          (DefaultProfileID cfg) with
                | Err e =>
                    inl (Exit 1 ("Error selecting profile: " ++ e
                                   ++ cli.newline))
                | Ok profileID =>
                    if (profileID =? "")%string then inl (Exit 0 "")
                    else inr profileID
                end
            end
        | profileID :: _ => inr profileID
        end in
      match profileID with
      | inl o => o
      | inr profileID =>
          if existsb (fun p => (ID p =? profileID)%string) (Profiles cfg)
          then Save (withDefaultProfileID cfg profileID)
          else Exit 1 ("Error: Profile with ID '" ++ profileID
                         ++ "' not found." ++ cli.newline
                         ++ "Use 'rurl config list' or 'rurl config profile list' to see available profiles."
                         ++ cli.newline)
      end
  end.

(** [completeProfileIDs] and [completeBrowserIDs]; [cfg] is what
    [loadConfigForCompletion] returns. *)
Definition completeProfileIDs (cfg : option Config) (toComplete : string)
  : list string * ShellCompDirective :=
  match cfg with
  | None => ([], ShellCompDirectiveError)
  | Some cfg =>
      (map ID (filter (fun profile => strings.HasPrefix (ID profile) toComplete)
                      (Profiles cfg)),
       ShellCompDirectiveNoFileComp)
  end.

Definition completeBrowserIDs (cfg : option Config) (browsers : list Browser)
           (toComplete : string) : list string * ShellCompDirective :=
  match cfg with
  | None => ([], ShellCompDirectiveError)
  | Some _ =>
      (fold_left
         (fun ids browser =>
            if strings.HasPrefix (BrowserID browser) toComplete
            then if existsb (fun existing =>
                               (existing =? BrowserID browser)%string) ids
                 then ids
                 else (ids ++ [BrowserID browser])%list
            else ids)
         browsers [],
       ShellCompDirectiveNoFileComp)
  end.

Section Confirmed.
Context {UC : Unicode}.

(** [promptString(prompt, defaultValue)]; [input] is the line read from
    standard input. *)
Definition promptString (input defaultValue : string) : string :=
  let input := TrimSpace input in
  if (input =? "")%string then defaultValue else input.


(** [runProfileDeleteCmd]; [selection] answers the choice of the profile,
    [input] is the line typed at the confirmation. *)
Definition runProfileDeleteCmd (cfg : option Config) (args : list string)
           (selection : Answer) (input : string) : Outcome :=
  match cfg with
  | None => Exit 1 "Configuration not loaded."
  | Some cfg =>
      let profileID : Outcome + string :=
        match args with
        | [] =>
            match Profiles cfg with
            | [p] => inr (ID p)
            | [] =>
                inl (Exit 1 ("Error: No profiles configured to delete."
                               ++ cli.newline))
            | _ =>
                match promptSelectProfile selection (Profiles cfg)
                                          (DefaultProfileID cfg) with
                | Err e =>
                    inl (Exit 1 ("Error selecting profile: " ++ e
                                   ++ cli.newline))
                | Ok profileID =>
                    if (profileID =? "")%string
                    then inl (Exit 0 ("Deletion cancelled." ++ cli.newline))
                    else inr profileID
                end
            end
        | profileID :: _ => inr profileID
        end in
      match profileID with
      | inl o => o
      | inr profileID =>
          match profileIndex (Profiles cfg) profileID 0 with
          | None =>
              Exit 1 ("Error: Profile with ID '" ++ profileID ++ "' not found."
                        ++ cli.newline)
          | Some (index, profileName) =>
              if (DefaultProfileID cfg =? profileID)%string
              then Exit 1 ("Error: Cannot delete the default profile (ID: "
                             ++ profileID ++ ")." ++ cli.newline
                             ++ "Please set a different default profile first using 'rurl config set-default <other-profile-id>'."
                             ++ cli.newline)
              else
                let referencingRules :=
                  map config.Name
                      (filter (fun r => (config.ProfileID r =? profileID)%string)
                              (Rules cfg)) in
                match referencingRules with
                | _ :: _ =>
                    Exit 1 ("Error: Cannot delete profile '" ++ profileName
                              ++ "' (ID: " ++ profileID
                              ++ ") because it is referenced by the following rule(s):"
                              ++ cli.newline
                              ++ String.concat ""
                                   (map (fun ruleName =>
                                           "  - " ++ ruleName ++ cli.newline)
                                        referencingRules)
                              ++ "Please edit or delete the rule(s) first."
                              ++ cli.newline)
                | [] =>
                    let confirm := promptString input "no" in
                    if negb (EqualFold confirm "yes")
                    then Return ("Deletion cancelled." ++ cli.newline)
                    else match removeAt (Profiles cfg) index with
                         | Some ps => Save (withProfiles cfg ps)
                         | None => Panic
                         end
                end
          end
      end
  end.

End Confirmed.

End configcmd.

(** ** package cli: the config that browser detection proposes

    The helpers of [runDetectBrowsersCmd] that repair the default profile
    and the rules when profiles are removed, for any set of removed
    profile ids, and the config the command builds from their results. *)

Module detectcmd.

Import configcmd.

(** Membership in a [map[string]struct{}], the set given by its keys. *)
Definition inSet (key : string) (set : list string) : bool :=
  existsb (fun k => (k =? key)%string) set.

(** The value of a key in a [map[string]string], given by its
    assignments, the latest first. *)
Fixpoint lookup (key : string) (assignments : list (string * string))
  : option string :=
  match assignments with
  | [] => None
  | (k, v) :: rest => if (k =? key)%string then Some v else lookup key rest
  end.

Section Orphans.
Context {UC : Unicode}.

(** [promptSelectProfileOrDelete(promptText, availableProfiles)]: the
    selected id, the delete flag and the error; [input] is the line typed
    at the confirmation, which is asked only when no profile is
    available. *)
Definition promptSelectProfileOrDelete (answer : Answer) (input : string)
           (availableProfiles : list Profile) : string * bool * option string :=
  match availableProfiles with
  | [] =>
      let confirmDelete := promptString input "yes" in
      if EqualFold confirmDelete "yes" then ("", true, None)
      else ("", false,
            Some "operation cancelled, no profiles available and deletion declined")
  | _ =>
      match answer with
      | Failed true _ => ("", false, None)
      | Failed false cause => ("", false, Some cause)
      | Chosen result =>
          if (result =? "Delete this item")%string then ("", true, None)
          else match find (fun p => (ProfileName p =? result)%string)
                          availableProfiles with
               | Some p => (ID p, false, None)
               | None => ("", false, None)
               end
      end
  end.

(** [handleOrphanedDefaultProfile(originalDefaultID, currentDefaultID,
    profileIDsToRemove, profilesToKeep)] *)
Definition handleOrphanedDefaultProfile (answer : Answer)
           (originalDefaultID currentDefaultID : string)
           (profileIDsToRemove : list string) (profilesToKeep : list Profile)
  : string :=
  if inSet originalDefaultID profileIDsToRemove
     && negb (originalDefaultID =? "")%string
  then
    match profilesToKeep with
    | [p] => ID p
    | _ :: _ :: _ =>
        match promptSelectProfile answer profilesToKeep originalDefaultID with
        | Err _ => ""
        | Ok selectedID =>
            if (selectedID =? "")%string then "" else selectedID
        end
    | [] => ""
    end
  else currentDefaultID.

(** The loop of [handleOrphanedRules] from the rule with index [i] on;
    [prompts i] is what the user answers for that rule. *)
Fixpoint orphanLoop (prompts : nat -> Answer * string) (i : nat)
         (originalRules : list config.Rule) (profileIDsToRemove : list string)
         (profilesToKeep : list Profile)
         (rulesToUpdate : list (string * string)) (rulesToDelete : list string)
  : list (string * string) * list string :=
  match originalRules with
  | [] => (rulesToUpdate, rulesToDelete)
  | rule :: rest =>
      let '(rulesToUpdate, rulesToDelete) :=
        if inSet (config.ProfileID rule) profileIDsToRemove then
          match profilesToKeep with
          | [p] => ((config.Name rule, ID p) :: rulesToUpdate, rulesToDelete)
          | _ :: _ :: _ =>
              let '(selectedID, deleteRule, err) :=
                promptSelectProfileOrDelete (fst (prompts i)) (snd (prompts i))
                                            profilesToKeep in
              match err with
              | Some _ => (rulesToUpdate, config.Name rule :: rulesToDelete)
              | None =>
                  if deleteRule
                  then (rulesToUpdate, config.Name rule :: rulesToDelete)
                  else if negb (selectedID =? "")%string
                  then ((config.Name rule, selectedID) :: rulesToUpdate,
                        rulesToDelete)
                  else (rulesToUpdate, config.Name rule :: rulesToDelete)
              end
          | [] => (rulesToUpdate, config.Name rule :: rulesToDelete)
          end
        else (rulesToUpdate, rulesToDelete) in
      orphanLoop prompts (S i) rest profileIDsToRemove profilesToKeep
                 rulesToUpdate rulesToDelete
  end.

(** [handleOrphanedRules(originalRules, profileIDsToRemove,
    profilesToKeep)] *)
Definition handleOrphanedRules (prompts : nat -> Answer * string)
           (originalRules : list config.Rule) (profileIDsToRemove : list string)
           (profilesToKeep : list Profile)
  : list (string * string) * list string :=
  orphanLoop prompts 0 originalRules profileIDsToRemove profilesToKeep [] [].

(** The loop of [runDetectBrowsersCmd] that builds [finalRules]. *)
Fixpoint finalRules (rules : list config.Rule)
         (rulesToUpdate : list (string * string)) (rulesToDelete : list string)
  : list config.Rule :=
  match rules with
  | [] => []
  | rule :: rest =>
      if inSet (config.Name rule) rulesToDelete
      then finalRules rest rulesToUpdate rulesToDelete
      else
        let rule :=
          match lookup (config.Name rule) rulesToUpdate with
          | Some updatedProfileID =>
              mkRule (RuleID rule) (config.Name rule) (Pattern rule)
                     (Scope rule) updatedProfileID (config.Incognito rule)
          | None => rule
          end in
        rule :: finalRules rest rulesToUpdate rulesToDelete
  end.

(** [finalCfg] of [runDetectBrowsersCmd], from the set of removed profile
    ids and the discovered profiles on; the literal names no
    [ManualShorteners]. *)
Definition finalCfg (cfg : Config) (profileIDsToRemove : list string)
           (discoveredProfiles : list Profile) (answer : Answer)
           (prompts : nat -> Answer * string) : Config :=
  let profilesToKeep := discoveredProfiles in
  let newDefaultProfileID :=
    handleOrphanedDefaultProfile answer (DefaultProfileID cfg)
                                 (DefaultProfileID cfg) profileIDsToRemove
                                 profilesToKeep in
  let '(rulesToUpdate, rulesToDelete) :=
    handleOrphanedRules prompts (Rules cfg) profileIDsToRemove
                        profilesToKeep in
  mkConfig newDefaultProfileID profilesToKeep
           (finalRules (Rules cfg) rulesToUpdate rulesToDelete)
           (Shorteners cfg) [].

End Orphans.

End detectcmd.

(** ** A reference instance of the Unicode functions, for ASCII text *)

Module RefUnicode.

Definition isSpace (c : ascii) : bool :=
  let n := Ascii.nat_of_ascii c in
  ((n =? 32) || ((9 <=? n) && (n <=? 13)))%nat.

Fixpoint trimLeft (s : string) : string :=
  match s with
  | String c s' => if isSpace c then trimLeft s' else s
  | EmptyString => EmptyString
  end.

Fixpoint trimRight (s : string) : string :=
  match s with
  | EmptyString => EmptyString
  | String c s' =>
      match trimRight s' with
      | EmptyString => if isSpace c then EmptyString else String c EmptyString
      | t => String c t
      end
  end.

Definition lower (c : ascii) : ascii :=
  let n := Ascii.nat_of_ascii c in
  if ((65 <=? n) && (n <=? 90))%nat then Ascii.ascii_of_nat (n + 32) else c.

Fixpoint equalFold (s t : string) : bool :=
  match s, t with
  | EmptyString, EmptyString => true
  | String a s', String b t' => Ascii.eqb (lower a) (lower b) && equalFold s' t'
  | _, _ => false
  end.

#[export] Instance unicode : Unicode := {|
  TrimSpace := fun s => trimRight (trimLeft s);
  EqualFold := equalFold |}.

End RefUnicode.

(** ** More configs for pinned runs *)

Module Examples.

Definition chrome : configx.Browser :=
  configx.mkBrowser "Google Chrome" "chrome" "/usr/bin/google-chrome"
                    "--profile-directory=%s" "--incognito".

Definition firefoxFlatpak : configx.Browser :=
  configx.mkBrowser "Firefox" "firefox" "flatpak run org.mozilla.firefox"
                    "-P" "--private-window".

Definition browsers : list configx.Browser := [chrome; firefoxFlatpak].

Definition profiles : list Profile :=
  [mkProfile "chrome-default" "Chrome (Default)" "chrome" "Default";
   mkProfile "chrome-work" "Chrome (Work)" "chrome" "Profile 1";
   mkProfile "firefox-dev" "Firefox Developer" "firefox" "dev"].

Definition workRule : config.Rule :=
  mkRule "" "Work" "^https://example\.com/work" "url" "chrome-work" true.

Definition exampleRule : config.Rule :=
  mkRule "" "Example" "^https://example\.com" "url" "chrome-default" false.

Definition manual : list ShortenerService :=
  [mkShortener "sho.rt" false; mkShortener "links.example.org" true].

Definition desktop : Config :=
  mkConfig "chrome-default" profiles [exampleRule; workRule]
           configx.builtinShorteners manual.

End Examples.

(** ** package cli: deleting a browser *)

(** [strings.ToLower], which goes by the Unicode tables. *)
Class Case := {
  ToLower : string -> string }.

Module browsercmd.

Import configx.

(** How [runBrowserDeleteCmd] ends: a [return] after a last message, the
    call [config.SaveConfig(cfg, cfgFile)] with the browsers of the config
    as they are then, or a run-time panic. *)
Inductive Outcome :=
| Return (msg : string)
| Save (browsers : list Browser)
| Panic.

Section Delete.
Context {UC : Unicode} {CS : Case}.

(** The loop of [runBrowserDeleteCmd] over [cfg.Browsers], from index [i]
    on; [None] is the loop running to its end with [found] false. *)
Fixpoint deleteLoop (browsers rest : list Browser) (browserID : string)
         (i : nat) (input : string) : option Outcome :=
  match rest with
  | [] => None
  | browser :: rest' =>
      if (BrowserID browser =? browserID)%string then
        let confirm := configcmd.promptString input "N" in
        if negb (ToLower confirm =? "y")%string
        then Some (Return ("Operation cancelled." ++ cli.newline))
        else match configcmd.removeAt browsers i with
             | Some browsers' => Some (Save browsers')
             | None => Some Panic
             end
      else deleteLoop browsers rest' browserID (S i) input
  end.

(** [runBrowserDeleteCmd]; [loaded] is what [config.LoadConfig] returns,
    of the config its browsers, and [input] the line typed at the
    confirmation. *)
Definition runBrowserDeleteCmd (args : list string)
           (loaded : result string (list Browser)) (input : string)
  : Outcome :=
  match args with
  | [] => Panic
  | browserID :: _ =>
      match loaded with
      | Err _ => Return "Failed to load configuration"
      | Ok browsers =>
          match deleteLoop browsers browsers browserID 0 input with
          | Some o => o
          | None =>
              Return ("Error: Browser with ID '" ++ browserID
                        ++ "' not found." ++ cli.newline)
          end
      end
  end.

End Delete.

End browsercmd.

(** A reference instance of [strings.ToLower], for ASCII text. *)
Module RefCase.

Fixpoint toLower (s : string) : string :=
  match s with
  | EmptyString => EmptyString
  | String c s' => String (RefUnicode.lower c) (toLower s')
  end.

#[export] Instance lowerCase : Case := {| ToLower := toLower |}.

End RefCase.

(** * Properties *)

(** ** Lists and strings *)

Lemma append_assoc (a b c : string) : (a ++ b) ++ c = a ++ b ++ c.
Proof.
  induction a as [|x a IH]; simpl; [reflexivity | now rewrite IH].
Qed.

Lemma StronglySorted_impl (A : Type) (R R' : A -> A -> Prop) (l : list A) :
  (forall a b, R a b -> R' a b) -> StronglySorted R l -> StronglySorted R' l.
Proof.
  intros Himp. induction 1 as [|a l St IH Hall]; constructor; auto.
  revert Hall. apply Forall_impl. apply Himp.
Qed.

Section Find.
Variables (A : Type) (f : A -> bool).

Lemma find_first (pre post : list A) (r : A) :
  (forall q, In q pre -> f q = false) -> f r = true ->
  find f (pre ++ r :: post)%list = Some r.
Proof.
  induction pre as [|a pre IH]; simpl; intros Hpre Hr.
  - now rewrite Hr.
  - rewrite (Hpre a (or_introl eq_refl)). apply IH; auto.
Qed.

Lemma find_split (l : list A) (r : A) :
  find f l = Some r ->
  exists pre post, l = (pre ++ r :: post)%list
                   /\ (forall q, In q pre -> f q = false) /\ f r = true.
Proof.
  induction l as [|a l IH]; simpl; [discriminate|].
  destruct (f a) eqn:Ha; intros E.
  - injection E as <-. exists [], l. simpl. intuition.
  - destruct (IH E) as (pre & post & -> & Hpre & Hr).
    exists (a :: pre), post. simpl. repeat split; auto.
    intros q [<-|Hq]; auto.
Qed.

Lemma find_some_of_In (l : list A) (q : A) :
  In q l -> f q = true -> exists r, find f l = Some r.
Proof.
  intros Hin Hq. destruct (find f l) as [r|] eqn:E; [now exists r|].
  rewrite (find_none _ _ E q Hin) in Hq. discriminate.
Qed.

(** In a list sorted by [R], the first element that satisfies [f] is
    [R]-before every other element that satisfies [f]. *)
Lemma find_sorted (R : A -> A -> Prop) (l : list A) (r : A) :
  StronglySorted R l -> find f l = Some r ->
  forall q, In q l -> f q = true -> q = r \/ R r q.
Proof.
  induction 1 as [|a l Hs IH Hall]; simpl; [discriminate|].
  destruct (f a) eqn:Ha; intros E q Hin Hq.
  - injection E as <-. destruct Hin as [->|Hin]; [now left|right].
    rewrite Forall_forall in Hall. now apply Hall.
  - destruct Hin as [<-|Hin]; [congruence|]. now apply IH.
Qed.

Lemma find_filter (g : A -> bool) (l : list A) :
  (forall x, f x = true -> g x = true) ->
  find f (filter g l) = find f l.
Proof.
  intros Hfg. induction l as [|a l IH]; simpl; [reflexivity|].
  destruct (g a) eqn:Hg; simpl.
  - now rewrite IH.
  - destruct (f a) eqn:Ha; [|exact IH].
    rewrite (Hfg a Ha) in Hg. discriminate.
Qed.

End Find.

(** ** The rule matcher *)

Section RuleMatcher.
Context {U : NetURL} {RE : Regexp} {S : Sort}.

Import rules.

(** [FindProfileByID] fails exactly when no profile of the config has the
    id. *)
Lemma FindProfileByID_findProfile (cfg : Config) (id : string) :
  FindProfileByID cfg id =
  match findProfile (Profiles cfg) id with
  | Some p => Ok p
  | None => Err ("profile with ID '" ++ id ++ "' not found")
  end.
Proof. reflexivity. Qed.

Lemma findProfile_In (ps : list Profile) (id : string) :
  findProfile ps id = None <-> (forall p, In p ps -> ID p <> id).
Proof.
  induction ps as [|p ps IH]; simpl.
  - split; [intros _ q []|reflexivity].
  - destruct (String.eqb_spec (ID p) id) as [E|N].
    + split; [discriminate|]. intros Hall. now destruct (Hall p (or_introl eq_refl)).
    + rewrite IH. split.
      * intros Hall q [<-|Hq]; auto.
      * intros Hall q Hq. apply Hall. now right.
Qed.

(** The loop returns for the first rule of the slice that matches, with
    what that rule alone decides, and runs to its end when none matches. *)
Lemma scanRules_find (cfg : Config) (pu : URL) (l : list config.Rule) :
  scanRules cfg pu l = option_map (ruleOutcome cfg) (find (ruleMatches pu) l).
Proof.
  induction l as [|r l IH]; simpl; [reflexivity|].
  unfold ruleMatches at 1.
  destruct (Compile (Pattern r)) as [re|e]; [|exact IH].
  destruct (MatchString re (getMatchString pu (Scope r))); [|exact IH].
  unfold ruleOutcome, FindProfileByID. simpl.
  now destruct (findProfile (Profiles cfg) (config.ProfileID r)).
Qed.

Lemma ApplyRules_find (cfg : Config) (inputURL : string) (u : URL) :
  Parse inputURL = Ok u ->
  ApplyRules (Some cfg) inputURL =
  match find (ruleMatches (recoverHost inputURL u)) (Slice lessRule (Rules cfg)) with
  | Some r => ruleOutcome cfg r
  | None => defaultProfile cfg
  end.
Proof.
  intros E. unfold ApplyRules. rewrite E, scanRules_find.
  now destruct (find _ _).
Qed.

Lemma lessRule_false (a b : config.Rule) :
  lessRule b a = false <-> patternLen b <= patternLen a.
Proof. unfold lessRule, patternLen. now rewrite Nat.ltb_ge. Qed.

(** The sorted copy: the rules of the config, longest pattern first. *)
Lemma sorted_rules (cfg : Config) :
  SliceContract lessRule ->
  Permutation (Slice lessRule (Rules cfg)) (Rules cfg) /\
  StronglySorted (fun a b => patternLen b <= patternLen a)
                 (Slice lessRule (Rules cfg)).
Proof.
  intros C. destruct (C (Rules cfg)) as [P St]. split; [exact P|].
  revert St. apply StronglySorted_impl. intros a b. apply lessRule_false.
Qed.

(** When some rule matches, the call is decided by a matching rule whose
    pattern is at least as long as that of every matching rule. *)
Lemma ApplyRules_winner (cfg : Config) (inputURL : string) (u : URL) (q : config.Rule) :
  SliceContract lessRule ->
  Parse inputURL = Ok u ->
  In q (Rules cfg) -> ruleMatches (recoverHost inputURL u) q = true ->
  exists r, In r (Rules cfg)
            /\ ruleMatches (recoverHost inputURL u) r = true
            /\ (forall q', In q' (Rules cfg) ->
                           ruleMatches (recoverHost inputURL u) q' = true ->
                           patternLen q' <= patternLen r)
            /\ ApplyRules (Some cfg) inputURL = ruleOutcome cfg r.
Proof.
  intros C E Hin Hq. destruct (sorted_rules cfg C) as [P St].
  assert (Hin' : In q (Slice lessRule (Rules cfg)))
    by (eapply Permutation_in; [symmetry; exact P | exact Hin]).
  destruct (find_some_of_In _ _ _ _ Hin' Hq) as [r Hr].
  exists r. destruct (find_some _ _ Hr) as [Hrin Hrm].
  repeat split.
  - eapply Permutation_in; eauto.
  - exact Hrm.
  - intros q' Hq' Hm'.
    assert (Hq'' : In q' (Slice lessRule (Rules cfg)))
      by (eapply Permutation_in; [symmetry; exact P | exact Hq']).
    destruct (find_sorted _ _ _ _ _ St Hr q' Hq'' Hm') as [->|Hle]; auto.
  - rewrite (ApplyRules_find cfg inputURL u E), Hr. reflexivity.
Qed.

(** C4. The part of a parsed URL a rule is matched against: the hostname
    for the scope "domain"; the path for the scope "path"; for every other
    scope value ("url", the empty scope of a rule that names none, anything
    unrecognised) the text [scheme://host+path], without [scheme://] exactly
    when the scheme is empty, and followed by [?query] exactly when the
    query is not empty. *)
Theorem getMatchString_by_scope (parsedURL : URL) :
  getMatchString parsedURL ScopeDomain = Hostname parsedURL /\
  getMatchString parsedURL ScopePath = Path parsedURL /\
  (forall scope : RuleScope,
      scope <> ScopeDomain -> scope <> ScopePath ->
      (Scheme parsedURL <> "" -> RawQuery parsedURL <> "" ->
       getMatchString parsedURL scope =
       Scheme parsedURL ++ "://" ++ Host parsedURL ++ Path parsedURL
         ++ "?" ++ RawQuery parsedURL) /\
      (Scheme parsedURL <> "" -> RawQuery parsedURL = "" ->
       getMatchString parsedURL scope =
       Scheme parsedURL ++ "://" ++ Host parsedURL ++ Path parsedURL) /\
      (Scheme parsedURL = "" -> RawQuery parsedURL <> "" ->
       getMatchString parsedURL scope =
       Host parsedURL ++ Path parsedURL ++ "?" ++ RawQuery parsedURL) /\
      (Scheme parsedURL = "" -> RawQuery parsedURL = "" ->
       getMatchString parsedURL scope = Host parsedURL ++ Path parsedURL)).
Proof.
  split; [reflexivity|]. split; [reflexivity|].
  intros scope Hd Hp. unfold getMatchString.
  apply String.eqb_neq in Hd, Hp. rewrite Hd, Hp.
  repeat split; intros Hs Hq.
  - apply String.eqb_neq in Hs, Hq. rewrite Hs, Hq. cbn [negb].
    now rewrite !append_assoc.
  - apply String.eqb_neq in Hs. rewrite Hs, Hq. reflexivity.
  - apply String.eqb_neq in Hq. rewrite Hs, Hq. cbn [negb String.eqb].
    now rewrite !append_assoc.
  - rewrite Hs, Hq. reflexivity.
Qed.

(** C1. For a config that is not nil and a URL that parses, [ApplyRules]
    goes through the rules by descending length of the pattern string and
    returns at the first rule whose compiled pattern matches the part of the
    URL its scope selects, whatever rules come after it.  So the call is
    decided by a matching rule with a pattern at least as long as that of
    any matching rule; and a matching rule whose pattern is longer than
    that of every other matching rule decides the call in whatever order
    the rules stand in the config. *)
Theorem ApplyRules_longest_pattern_first
        (cfg : Config) (inputURL : string) (u : URL) :
  SliceContract lessRule ->
  Parse inputURL = Ok u ->
  (Permutation (Slice lessRule (Rules cfg)) (Rules cfg) /\
   StronglySorted (fun a b => patternLen b <= patternLen a)
                  (Slice lessRule (Rules cfg))) /\
  (forall pre r post,
      Slice lessRule (Rules cfg) = (pre ++ r :: post)%list ->
      (forall q, In q pre -> ruleMatches (recoverHost inputURL u) q = false) ->
      ruleMatches (recoverHost inputURL u) r = true ->
      ApplyRules (Some cfg) inputURL = ruleOutcome cfg r /\
      forall post',
        scanRules cfg (recoverHost inputURL u) (pre ++ r :: post')%list =
        Some (ruleOutcome cfg r)) /\
  (forall r1 r2,
      In r1 (Rules cfg) -> In r2 (Rules cfg) ->
      ruleMatches (recoverHost inputURL u) r1 = true ->
      ruleMatches (recoverHost inputURL u) r2 = true ->
      patternLen r2 < patternLen r1 ->
      exists r, In r (Rules cfg)
                /\ ruleMatches (recoverHost inputURL u) r = true
                /\ patternLen r1 <= patternLen r
                /\ ApplyRules (Some cfg) inputURL = ruleOutcome cfg r) /\
  (forall r1,
      In r1 (Rules cfg) ->
      ruleMatches (recoverHost inputURL u) r1 = true ->
      (forall q, In q (Rules cfg) ->
                 ruleMatches (recoverHost inputURL u) q = true ->
                 q = r1 \/ patternLen q < patternLen r1) ->
      forall cfg',
        Profiles cfg' = Profiles cfg ->
        Permutation (Rules cfg') (Rules cfg) ->
        ApplyRules (Some cfg') inputURL = ruleOutcome cfg r1).
Proof.
  intros C E. split; [exact (sorted_rules cfg C)|]. split; [|split].
  - intros pre r post Hs Hpre Hr. split.
    + rewrite (ApplyRules_find cfg inputURL u E), Hs.
      now rewrite (find_first _ _ pre post r Hpre Hr).
    + intros post'. rewrite scanRules_find.
      now rewrite (find_first _ _ pre post' r Hpre Hr).
  - intros r1 r2 H1 _ M1 _ _.
    destruct (ApplyRules_winner cfg inputURL u r1 C E H1 M1)
      as (r & Hin & Hm & Hmax & Hres).
    exists r. repeat split; auto.
  - intros r1 H1 M1 Huniq cfg' Hprof Hperm.
    assert (H1' : In r1 (Rules cfg'))
      by (eapply Permutation_in; [symmetry; exact Hperm | exact H1]).
    destruct (ApplyRules_winner cfg' inputURL u r1 C E H1' M1)
      as (r & Hin & Hm & Hmax & Hres).
    assert (Hin' : In r (Rules cfg)) by (eapply Permutation_in; eauto).
    destruct (Huniq r Hin' Hm) as [->|Hlt].
    + rewrite Hres. unfold ruleOutcome. now rewrite Hprof.
    + specialize (Hmax r1 H1' M1). lia.
Qed.

(** C2. When the first rule, in sorted order, that matches the URL names a
    profile that the config does not have, [ApplyRules] fails with the error
    "profile '<id>' specified in rule '<name>' not found", which names that
    profile id and that rule; it returns no match result, so never the
    default profile. *)
Theorem ApplyRules_missing_profile
        (cfg : Config) (inputURL : string) (u : URL)
        (pre post : list config.Rule) (r : config.Rule) :
  Parse inputURL = Ok u ->
  Slice lessRule (Rules cfg) = (pre ++ r :: post)%list ->
  (forall q, In q pre -> ruleMatches (recoverHost inputURL u) q = false) ->
  ruleMatches (recoverHost inputURL u) r = true ->
  (forall p, In p (Profiles cfg) -> ID p <> config.ProfileID r) ->
  ApplyRules (Some cfg) inputURL =
    Err (ErrRuleProfileNotFound (config.ProfileID r) (Name r)) /\
  errorMessage (ErrRuleProfileNotFound (config.ProfileID r) (Name r)) =
    "profile '" ++ config.ProfileID r ++ "' specified in rule '" ++ Name r
      ++ "' not found" /\
  (forall m, ApplyRules (Some cfg) inputURL <> Ok m).
Proof.
  intros E Hs Hpre Hr Hnone.
  assert (R : ApplyRules (Some cfg) inputURL =
              Err (ErrRuleProfileNotFound (config.ProfileID r) (Name r))).
  { rewrite (ApplyRules_find cfg inputURL u E), Hs.
    rewrite (find_first _ _ pre post r Hpre Hr). unfold ruleOutcome.
    apply findProfile_In in Hnone. now rewrite Hnone. }
  split; [exact R|]. split; [reflexivity|].
  intros m. rewrite R. discriminate.
Qed.

(** C3. When no rule matches the URL (so for every config without rules):
    with an empty default profile id [ApplyRules] fails; with a default
    profile id that no profile of the config has it fails with "default
    profile '<id>' not found"; otherwise it returns the default profile,
    with no rule and not incognito. *)
Theorem ApplyRules_no_match (cfg : Config) (inputURL : string) (u : URL) :
  SliceContract lessRule ->
  Parse inputURL = Ok u ->
  (forall r, In r (Rules cfg) -> ruleMatches (recoverHost inputURL u) r = false) ->
  (DefaultProfileID cfg = "" ->
   ApplyRules (Some cfg) inputURL = Err ErrNoDefaultProfile) /\
  (DefaultProfileID cfg <> "" ->
   (forall p, In p (Profiles cfg) -> ID p <> DefaultProfileID cfg) ->
   ApplyRules (Some cfg) inputURL =
     Err (ErrDefaultProfileNotFound (DefaultProfileID cfg)) /\
   errorMessage (ErrDefaultProfileNotFound (DefaultProfileID cfg)) =
     "default profile '" ++ DefaultProfileID cfg ++ "' not found") /\
  (DefaultProfileID cfg <> "" ->
   (exists p, In p (Profiles cfg) /\ ID p = DefaultProfileID cfg) ->
   ApplyRules (Some cfg) inputURL =
     Ok (mkMatchResult None (DefaultProfileID cfg) false)).
Proof.
  intros C E Hno.
  assert (R : ApplyRules (Some cfg) inputURL = defaultProfile cfg).
  { rewrite (ApplyRules_find cfg inputURL u E).
    destruct (find _ _) as [r|] eqn:F; [|reflexivity].
    destruct (find_some _ _ F) as [Hin Hm].
    destruct (C (Rules cfg)) as [P _].
    rewrite (Hno r (Permutation_in _ P Hin)) in Hm. discriminate. }
  rewrite R. unfold defaultProfile, FindProfileByID. split; [|split].
  - intros ->. reflexivity.
  - intros Hne Hnone. split; [|reflexivity].
    apply String.eqb_neq in Hne. rewrite Hne.
    apply findProfile_In in Hnone. now rewrite Hnone.
  - intros Hne [p [Hin Hid]]. apply String.eqb_neq in Hne. rewrite Hne.
    destruct (findProfile (Profiles cfg) (DefaultProfileID cfg)) eqn:F;
      [reflexivity|].
    rewrite findProfile_In in F. now destruct (F p Hin).
Qed.

Lemma ruleMatches_compiles (pu : URL) (r : config.Rule) :
  ruleMatches pu r = true -> compiles r = true.
Proof.
  unfold ruleMatches, compiles. now destruct (Compile (Pattern r)).
Qed.

(** C5. A rule whose pattern does not compile is skipped and the scan goes
    on: the call returns what the scan of the sorted rules without such
    rules returns; the rule of a returned match result has a pattern that
    compiles; and an error of the call is the error of the default profile
    or names a rule that compiles and matches. *)
Theorem ApplyRules_skips_invalid_patterns
        (cfg : Config) (inputURL : string) (u : URL) :
  SliceContract lessRule ->
  Parse inputURL = Ok u ->
  (forall r rest,
      compiles r = false ->
      scanRules cfg (recoverHost inputURL u) (r :: rest) =
      scanRules cfg (recoverHost inputURL u) rest) /\
  ApplyRules (Some cfg) inputURL =
    match scanRules cfg (recoverHost inputURL u)
                    (filter compiles (Slice lessRule (Rules cfg))) with
    | Some res => res
    | None => defaultProfile cfg
    end /\
  (forall m r,
      ApplyRules (Some cfg) inputURL = Ok m -> Rule m = Some r ->
      In r (Rules cfg) /\ compiles r = true) /\
  (forall e,
      ApplyRules (Some cfg) inputURL = Err e ->
      e = ErrNoDefaultProfile
      \/ e = ErrDefaultProfileNotFound (DefaultProfileID cfg)
      \/ exists r,
          In r (Rules cfg) /\ compiles r = true
          /\ ruleMatches (recoverHost inputURL u) r = true
          /\ e = ErrRuleProfileNotFound (config.ProfileID r) (Name r)).
Proof.
  intros C E. destruct (C (Rules cfg)) as [P _].
  pose proof (ApplyRules_find cfg inputURL u E) as R.
  split; [|split; [|split]].
  - intros r rest Hr. simpl. unfold compiles in Hr.
    now destruct (Compile (Pattern r)).
  - rewrite R, scanRules_find, find_filter by apply ruleMatches_compiles.
    now destruct (find _ _).
  - intros m r Hm Hrule. rewrite R in Hm.
    destruct (find _ _) as [r'|] eqn:F.
    + destruct (find_some _ _ F) as [Hin Hmatch].
      unfold ruleOutcome in Hm.
      destruct (findProfile _ _); [|discriminate].
      injection Hm as <-. simpl in Hrule. injection Hrule as <-.
      split; [exact (Permutation_in _ P Hin)|].
      now apply ruleMatches_compiles with (pu := recoverHost inputURL u).
    + unfold defaultProfile in Hm.
      destruct (_ =? _)%string; [discriminate|].
      destruct (FindProfileByID _ _); [|discriminate].
      injection Hm as <-. discriminate.
  - intros e He. rewrite R in He.
    destruct (find _ _) as [r'|] eqn:F.
    + destruct (find_some _ _ F) as [Hin Hmatch].
      unfold ruleOutcome in He.
      destruct (findProfile _ _); [discriminate|].
      injection He as <-. right. right. exists r'.
      repeat split; auto.
      * exact (Permutation_in _ P Hin).
      * now apply ruleMatches_compiles with (pu := recoverHost inputURL u).
    + unfold defaultProfile in He.
      destruct (_ =? _)%string; [injection He as <-; now left|].
      destruct (FindProfileByID _ _); [discriminate|].
      injection He as <-. right. now left.
Qed.

(** C10. When the empty pattern compiles to a pattern that matches every
    string, as it does in [regexp], a config with a rule whose pattern is
    empty never gets the default profile for a URL that parses: that rule is
    sorted behind every rule with a pattern that is not empty, the scan
    ends at a rule that matches, and the call returns the match result of
    that rule or the error of its missing profile. *)
Theorem ApplyRules_empty_pattern_never_default
        (cfg : Config) (inputURL : string) (u : URL)
        (r : config.Rule) (re0 : Regex) :
  SliceContract lessRule ->
  Compile "" = Ok re0 ->
  (forall s, MatchString re0 s = true) ->
  Parse inputURL = Ok u ->
  In r (Rules cfg) -> Pattern r = "" ->
  (forall pre post,
      Slice lessRule (Rules cfg) = (pre ++ r :: post)%list ->
      Forall (fun q => Pattern q = "") post) /\
  (exists r',
      In r' (Rules cfg)
      /\ ruleMatches (recoverHost inputURL u) r' = true
      /\ ApplyRules (Some cfg) inputURL = ruleOutcome cfg r') /\
  (forall m, ApplyRules (Some cfg) inputURL = Ok m -> Rule m <> None) /\
  ApplyRules (Some cfg) inputURL <> Err ErrNoDefaultProfile /\
  ApplyRules (Some cfg) inputURL <>
    Err (ErrDefaultProfileNotFound (DefaultProfileID cfg)).
Proof.
  intros C Hc Hm E Hin Hpat.
  assert (M : ruleMatches (recoverHost inputURL u) r = true)
    by (unfold ruleMatches; rewrite Hpat, Hc; apply Hm).
  destruct (ApplyRules_winner cfg inputURL u r C E Hin M)
    as (r' & Hin' & Hm' & _ & Hres).
  split; [|split; [|split; [|split]]].
  - intros pre post Hs. destruct (sorted_rules cfg C) as [_ St].
    rewrite Hs in St. clear - St Hpat.
    induction pre as [|a pre IH]; simpl in St;
      apply StronglySorted_inv in St; destruct St as [St Hall]; auto.
    revert Hall. apply Forall_impl. intros q Hq.
    unfold patternLen in Hq. rewrite Hpat in Hq. simpl in Hq.
    destruct (Pattern q); [reflexivity | simpl in Hq; lia].
  - exists r'. auto.
  - intros m Hok. rewrite Hres in Hok. unfold ruleOutcome in Hok.
    destruct (findProfile _ _); [|discriminate].
    injection Hok as <-. discriminate.
  - rewrite Hres. unfold ruleOutcome.
    destruct (findProfile _ _); discriminate.
  - rewrite Hres. unfold ruleOutcome.
    destruct (findProfile _ _); discriminate.
Qed.

End RuleMatcher.

(** ** The shortener resolver *)

Section Resolver.
Context {U : NetURL} {H : HTTPClient}.

Import urlhandler.

(** A pass through the loop body returns neither of the two errors that
    the loop itself raises. *)
Lemma hop_returned (i : nat) (w w' : World) (currentURL : string)
      (r : result ResolveError string) :
  hop i w currentURL = (Returned r, w') ->
  (forall s, r <> Err (ErrTooManyRedirects s)) /\
  (forall s, r <> Err (ErrUnexpectedState s)).
Proof.
  unfold hop. destruct (Parse currentURL) as [base|e].
  2:{ intros E. injection E as <- _. split; discriminate. }
  destruct (Do w HEAD currentURL) as [[resp|e] w1].
  - destruct (_ && _).
    + destruct (_ =? _)%string.
      * intros E. injection E as <- _. split; discriminate.
      * destruct (Parse (Location resp)); intros E; [discriminate|].
        injection E as <- _. split; discriminate.
    + destruct (_ && _); intros E; injection E as <- _; split; discriminate.
  - destruct (if (i =? 0)%nat then Do w1 GET currentURL else (Err e, w1))
      as [[resp|e'] w2].
    + destruct (_ && _).
      * destruct (_ =? _)%string.
        -- intros E. injection E as <- _. split; discriminate.
        -- destruct (Parse (Location resp)); intros E; [discriminate|].
           injection E as <- _. split; discriminate.
      * destruct (_ && _); intros E; injection E as <- _; split; discriminate.
    + intros E. injection E as <- _. split; discriminate.
Qed.

(** With [n] iterations left at index [i = maxRedirects - n], the loop
    fails for too many redirects exactly when every remaining pass ends in
    a redirect, and never leaves through its end. *)
Lemma resolveLoop_limit (n : nat) :
  forall (i : nat) (shortURL : string) (w : World) (currentURL : string),
    0 < n -> i + n = maxRedirects ->
    (fst (resolveLoop n i shortURL w currentURL)
       = Err (ErrTooManyRedirects shortURL)
     <-> redirectChain n i w currentURL = true) /\
    (forall s, fst (resolveLoop n i shortURL w currentURL)
               <> Err (ErrUnexpectedState s)).
Proof.
  induction n as [|n IH]; intros i shortURL w currentURL Hn Hi; [lia|].
  cbn [resolveLoop redirectChain].
  destruct (hop i w currentURL) as [[next|r] w'] eqn:Hop.
  - destruct (Nat.eqb_spec i (maxRedirects - 1)) as [E|N].
    + assert (n = 0) by (unfold maxRedirects in *; lia). subst n.
      cbn. split; [tauto | discriminate].
    + apply IH; unfold maxRedirects in *; lia.
  - destruct (hop_returned _ _ _ _ _ Hop) as [Hm Hs]. cbn [fst]. split.
    + split; [intros E; now destruct (Hm shortURL) | discriminate].
    + exact Hs.
Qed.

(** C8. [ResolveShortenedURL] makes at most 5 hops: it fails with "too
    many redirects" exactly when each of its 5 passes through the loop ends
    in a redirect that can be followed, that is, when the loop has not
    returned a 2xx URL or an error by the time the limit is reached; it
    never leaves the loop through its end. *)
Theorem ResolveShortenedURL_hop_limit (shortURL : string) (w : World) :
  maxRedirects = 5 /\
  (redirectChain 5 0 w shortURL = true <->
   fst (ResolveShortenedURL shortURL w) = Err (ErrTooManyRedirects shortURL)) /\
  (forall s, fst (ResolveShortenedURL shortURL w) <> Err (ErrUnexpectedState s)).
Proof.
  split; [reflexivity|].
  destruct (resolveLoop_limit maxRedirects 0 shortURL w shortURL) as [L R];
    [unfold maxRedirects; lia | reflexivity |].
  split; [symmetry; exact L | exact R].
Qed.

End Resolver.

(** ** The URL preprocessor and its caller *)

Section Routing.
Context {U : NetURL} {RE : Regexp} {S : Sort} {H : HTTPClient}.

Import urlhandler cli.

Lemma matchDomain_In (l : list ShortenerService) (hostname : string) :
  (exists s, In s l /\ Domain s = hostname) -> matchDomain l hostname <> None.
Proof.
  induction l as [|a l IH]; simpl; intros [s [Hin Hd]]; [contradiction|].
  destruct (String.eqb_spec (Domain a) hostname) as [E|N]; [discriminate|].
  destruct Hin as [->|Hin]; [contradiction|]. apply IH. now exists s.
Qed.

Lemma matchDomain_Some (l : list ShortenerService) (hostname : string)
      (s : ShortenerService) :
  matchDomain l hostname = Some s -> In s l /\ Domain s = hostname.
Proof.
  induction l as [|a l IH]; simpl; [discriminate|].
  destruct (String.eqb_spec (Domain a) hostname) as [E|N].
  - intros X. injection X as <-. auto.
  - intros X. destruct (IH X). auto.
Qed.

(** A hostname that is the domain of some configured shortener, manual or
    built-in, is matched. *)
Lemma matchedShortener_In (cfg : Config) (hostname : string) (s : ShortenerService) :
  In s (ManualShorteners cfg ++ Shorteners cfg)%list -> Domain s = hostname ->
  exists s', matchedShortener cfg hostname = Some s'.
Proof.
  intros Hin Hd. unfold matchedShortener.
  destruct (matchDomain (ManualShorteners cfg) hostname) as [m|] eqn:M;
    [now exists m|].
  destruct (matchDomain (Shorteners cfg) hostname) as [b|] eqn:B;
    [now exists b|].
  apply in_app_or in Hin. destruct Hin as [Hin|Hin].
  - destruct (matchDomain_In (ManualShorteners cfg) hostname); eauto.
  - destruct (matchDomain_In (Shorteners cfg) hostname); eauto.
Qed.

(** The matched shortener carries the flag that every configured entry of
    the domain carries. *)
Lemma matchedShortener_flag (cfg : Config) (hostname : string) (flag : bool) :
  (exists s, In s (ManualShorteners cfg ++ Shorteners cfg)%list
             /\ Domain s = hostname) ->
  (forall s, In s (ManualShorteners cfg ++ Shorteners cfg)%list ->
             Domain s = hostname -> IsSafelink s = flag) ->
  exists s', matchedShortener cfg hostname = Some s' /\ IsSafelink s' = flag.
Proof.
  intros [s [Hin Hd]] Hall.
  destruct (matchedShortener_In cfg hostname s Hin Hd) as [s' Hs'].
  exists s'. split; [exact Hs'|].
  unfold matchedShortener in Hs'.
  destruct (matchDomain (ManualShorteners cfg) hostname) as [m|] eqn:M.
  - injection Hs' as <-. destruct (matchDomain_Some _ _ _ M).
    apply Hall; auto. apply in_or_app. now left.
  - destruct (matchDomain_Some _ _ _ Hs').
    apply Hall; auto. apply in_or_app. now right.
Qed.

(** After a [ProcessURL] without error, [runRootCmd] matches the rules on
    the URL for matching and hands the launcher the original URL for a
    safelink and the URL for matching otherwise. *)
Lemma runRootCmd_processed (cfg : Config) (urlInput : string) (w w' : World)
      (p : Processed) :
  ProcessURL cfg urlInput w = (p, w') -> err p = None ->
  runRootCmd (Some cfg) [urlInput] w =
  (match rules.ApplyRules (Some cfg) (urlForMatching p) with
   | Ok m =>
       Launch cfg (rules.ProfileID m)
              (if isSafelink p then originalURL p else urlForMatching p)
              (rules.Incognito m)
   | Err e => Exit1 ("Error applying rules: " ++ rules.errorMessage e ++ newline)
   end, w').
Proof.
  intros E He. unfold runRootCmd. rewrite E, He.
  now destruct (rules.ApplyRules _ _).
Qed.

(** C6. For an input whose hostname is the domain of a configured
    shortener, a failed resolution makes [ProcessURL] return the input as
    the URL for matching and as the original URL, no safelink and a nil
    error; for an http or https input this is the return after the failed
    call.  The caller goes on to match the rules on the input. *)
Theorem ProcessURL_resolution_failure
        (cfg : Config) (inputURL : string) (w w' : World) (u : URL)
        (s : ShortenerService) (e : ResolveError) :
  Parse inputURL = Ok u ->
  In s (ManualShorteners cfg ++ Shorteners cfg)%list ->
  Domain s = Hostname u ->
  ResolveShortenedURL inputURL w = (Err e, w') ->
  fst (ProcessURL cfg inputURL w) = mkProcessed inputURL inputURL false None /\
  (Scheme u = "http" \/ Scheme u = "https" ->
   ProcessURL cfg inputURL w = (mkProcessed inputURL inputURL false None, w')) /\
  fst (runRootCmd (Some cfg) [inputURL] w) =
    match rules.ApplyRules (Some cfg) inputURL with
    | Ok m => Launch cfg (rules.ProfileID m) inputURL (rules.Incognito m)
    | Err e' =>
        Exit1 ("Error applying rules: " ++ rules.errorMessage e' ++ newline)
    end.
Proof.
  intros E Hin Hd R.
  destruct (matchedShortener_In cfg (Hostname u) s Hin Hd) as [s' Hs'].
  assert (P : Scheme u = "http" \/ Scheme u = "https" ->
              ProcessURL cfg inputURL w =
              (mkProcessed inputURL inputURL false None, w')).
  { intros Hsch. unfold ProcessURL. rewrite E, Hs', R.
    destruct Hsch as [-> | ->]; reflexivity. }
  assert (F : exists w'', ProcessURL cfg inputURL w =
                          (mkProcessed inputURL inputURL false None, w'')).
  { destruct (String.eqb_spec (Scheme u) "http") as [X|X];
      [exists w'; apply P; now left|].
    destruct (String.eqb_spec (Scheme u) "https") as [Y|Y];
      [exists w'; apply P; now right|].
    exists w. unfold ProcessURL. rewrite E.
    apply String.eqb_neq in X, Y. now rewrite X, Y. }
  destruct F as [w'' F]. split; [now rewrite F|]. split; [exact P|].
  rewrite (runRootCmd_processed cfg inputURL w w'' _ F eq_refl). reflexivity.
Qed.

(** C7. For an http or https input whose hostname is matched by a
    shortener marked as safelink, and whose resolution succeeds,
    [ProcessURL] returns the resolved URL for matching, the input as the
    original URL and the safelink flag; the caller matches the rules on the
    resolved URL and hands the launcher the original URL. *)
Theorem ProcessURL_safelink
        (cfg : Config) (inputURL resolved : string) (w w' : World) (u : URL)
        (s : ShortenerService) :
  Parse inputURL = Ok u ->
  Scheme u = "http" \/ Scheme u = "https" ->
  matchedShortener cfg (Hostname u) = Some s ->
  IsSafelink s = true ->
  ResolveShortenedURL inputURL w = (Ok resolved, w') ->
  ProcessURL cfg inputURL w = (mkProcessed resolved inputURL true None, w') /\
  runRootCmd (Some cfg) [inputURL] w =
    (match rules.ApplyRules (Some cfg) resolved with
     | Ok m => Launch cfg (rules.ProfileID m) inputURL (rules.Incognito m)
     | Err e =>
         Exit1 ("Error applying rules: " ++ rules.errorMessage e ++ newline)
     end, w').
Proof.
  intros E Hsch Hs Hsafe R.
  assert (P : ProcessURL cfg inputURL w =
              (mkProcessed resolved inputURL true None, w')).
  { unfold ProcessURL. rewrite E, Hs, R, Hsafe.
    destruct Hsch as [-> | ->]; reflexivity. }
  split; [exact P|].
  rewrite (runRootCmd_processed cfg inputURL w w' _ P eq_refl). reflexivity.
Qed.

(** C9, as the code has it. An input that does not parse comes back as the
    URL for matching and as the original URL, not a safelink, with the error
    "failed to parse input URL: <cause>", and the caller exits on that
    error; an input that parses with a scheme other than http and https
    comes back the same way with a nil error, and no request is made. *)
Theorem ProcessURL_passes_through
        (cfg : Config) (inputURL : string) (w : World) :
  (forall cause,
      Parse inputURL = Err cause ->
      ProcessURL cfg inputURL w =
        (mkProcessed inputURL inputURL false (Some (ErrParseInput cause)), w) /\
      fst (runRootCmd (Some cfg) [inputURL] w) =
        Exit1 ("Error processing URL: "
                 ++ urlhandler.errorMessage (ErrParseInput cause)
                 ++ newline)) /\
  (forall u,
      Parse inputURL = Ok u ->
      Scheme u <> "http" -> Scheme u <> "https" ->
      ProcessURL cfg inputURL w =
        (mkProcessed inputURL inputURL false None, w)).
Proof.
  split.
  - intros cause E. unfold runRootCmd, ProcessURL. rewrite E.
    split; reflexivity.
  - intros u E X Y. unfold ProcessURL. rewrite E.
    apply String.eqb_neq in X, Y. now rewrite X, Y.
Qed.

End Routing.

(** ** The reference instances *)

(** The insertion sort keeps the contract of [sort.Slice] for every [less]
    that is asymmetric and whose complement is transitive, which is what a
    strict weak order is. *)
Section InsertionSort.
Variables (A : Type) (less : A -> A -> bool).
Hypothesis less_asym : forall a b, less a b = true -> less b a = false.
Hypothesis less_neg_trans :
  forall a b c, less a b = false -> less b c = false -> less a c = false.

Lemma insertBack_perm (x : A) (l : list A) :
  Permutation (Ref.insertBack less x l) (x :: l).
Proof.
  induction l as [|p ps IH]; simpl; [reflexivity|].
  destruct (less x p); [|reflexivity].
  rewrite IH. apply perm_swap.
Qed.

Lemma insertBack_sorted (x : A) (l : list A) :
  StronglySorted (fun a b => less a b = false) l ->
  StronglySorted (fun a b => less a b = false) (Ref.insertBack less x l).
Proof.
  induction 1 as [|p ps St IH Hall]; simpl.
  - repeat constructor.
  - destruct (less x p) eqn:E.
    + constructor; [exact IH|].
      rewrite (insertBack_perm x ps). constructor; [|exact Hall].
      now apply less_asym.
    + constructor; [now constructor|]. constructor; [exact E|].
      revert Hall. apply Forall_impl. intros q Hq.
      now apply less_neg_trans with p.
Qed.

Lemma fold_insertBack (data acc : list A) :
  StronglySorted (fun a b => less a b = false) acc ->
  Permutation (fold_left (fun r x => Ref.insertBack less x r) data acc)
              (data ++ acc)%list /\
  StronglySorted (fun a b => less a b = false)
                 (fold_left (fun r x => Ref.insertBack less x r) data acc).
Proof.
  revert acc. induction data as [|x data IH]; simpl; intros acc St.
  - split; [reflexivity | exact St].
  - destruct (IH _ (insertBack_sorted x acc St)) as [P S']. split; [|exact S'].
    rewrite P, insertBack_perm. symmetry. apply Permutation_middle.
Qed.

Lemma StronglySorted_rev (R : A -> A -> Prop) (l : list A) :
  StronglySorted R l -> StronglySorted (fun a b => R b a) (rev l).
Proof.
  induction 1 as [|a l St IH Hall]; simpl; [constructor|].
  assert (G : forall l1, StronglySorted (fun a b => R b a) l1 ->
                         Forall (R a) l1 ->
                         StronglySorted (fun a b => R b a) (l1 ++ [a])%list).
  { induction 1 as [|b l1 St1 IH1 Hall1]; simpl; intros F.
    - repeat constructor.
    - apply Forall_cons_iff in F. destruct F as [Fb F].
      constructor; [now apply IH1|].
      apply Forall_app. split; [exact Hall1 | now repeat constructor]. }
  apply G; [exact IH|]. apply Forall_rev. exact Hall.
Qed.

Lemma insertionSort_contract : @SliceContract Ref.sort A less.
Proof.
  intros x. unfold Slice, Ref.sort, Ref.insertionSort.
  destruct (fold_insertBack x [] (SSorted_nil _)) as [P St]. split.
  - rewrite <- Permutation_rev, P. now rewrite app_nil_r.
  - exact (StronglySorted_rev (fun a b => less a b = false) _ St).
Qed.

End InsertionSort.

Lemma lessRule_contract : @SliceContract Ref.sort config.Rule rules.lessRule.
Proof.
  apply insertionSort_contract; unfold rules.lessRule; intros a b.
  - rewrite Nat.ltb_lt, Nat.ltb_ge. lia.
  - intros c. rewrite !Nat.ltb_ge. lia.
Qed.

(** The empty pattern compiles, and what it compiles to matches every
    string. *)
Lemma compile_empty :
  Ref.compile "" = Ok (Ref.mkRE false [] false) /\
  forall s, Ref.matchString (Ref.mkRE false [] false) s = true.
Proof.
  split; [reflexivity|]. intros s. now destruct s.
Qed.

(** ** Runs on the reference instances *)

Section Runs.
Import Ref Fixtures.

(** The longer pattern wins in either order of the two rules. *)
Lemma ApplyRules_longest_pattern_first_run :
  Parse "https://example.com/work/dashboard"
    = Ok (mkURL "https" "" "example.com" "/work/dashboard" "" "") /\
  rules.ApplyRules (Some specificity) "https://example.com/work/dashboard"
    = Ok (rules.mkMatchResult (Some specificPath) "work-profile" true) /\
  rules.ApplyRules (Some specificityReversed) "https://example.com/work/dashboard"
    = Ok (rules.mkMatchResult (Some specificPath) "work-profile" true).
Proof.
  destruct (ApplyRules_longest_pattern_first (U:=netURL) (RE:=regexp) (S:=sort)
              specificity "https://example.com/work/dashboard"
              (mkURL "https" "" "example.com" "/work/dashboard" "" "")
              lessRule_contract eq_refl) as (_ & _ & _ & Longest).
  assert (Huniq : forall q, In q (Rules specificity) ->
                    rules.ruleMatches
                      (rules.recoverHost "https://example.com/work/dashboard"
                         (mkURL "https" "" "example.com" "/work/dashboard" "" ""))
                      q = true ->
                    q = specificPath
                    \/ rules.patternLen q < rules.patternLen specificPath).
  { intros q [<-|[<-|[]]] _; [right; vm_compute; lia | now left]. }
  split; [reflexivity|]. split.
  - apply (Longest specificPath (or_intror (or_introl eq_refl)) eq_refl Huniq
                   specificity eq_refl (Permutation_refl _)).
  - apply (Longest specificPath (or_intror (or_introl eq_refl)) eq_refl Huniq
                   specificityReversed eq_refl (perm_swap _ _ _)).
Defined.

(** A matching rule with a profile that does not exist is an error. *)
Lemma ApplyRules_missing_profile_run :
  rules.ApplyRules (Some dangling) "https://example.com"
    = Err (rules.ErrRuleProfileNotFound "non-existent-profile" "Test Rule") /\
  rules.errorMessage (rules.ErrRuleProfileNotFound "non-existent-profile" "Test Rule")
    = "profile 'non-existent-profile' specified in rule 'Test Rule' not found".
Proof.
  destruct (ApplyRules_missing_profile (U:=netURL) (RE:=regexp) (S:=sort)
              dangling "https://example.com"
              (mkURL "https" "" "example.com" "" "" "") [] [] testRule
              eq_refl eq_refl (fun q (F : In q []) => match F with end) eq_refl)
    as (R & M & _).
  - intros p [<-|[]]. discriminate.
  - split; [exact R | exact M].
Defined.

(** No rules: the default profile. *)
Lemma ApplyRules_no_match_run :
  rules.ApplyRules (Some noRules) "https://example.com"
    = Ok (rules.mkMatchResult None "default-profile" false).
Proof.
  destruct (ApplyRules_no_match (U:=netURL) (RE:=regexp) (S:=sort)
              noRules "https://example.com"
              (mkURL "https" "" "example.com" "" "" "") lessRule_contract eq_refl
              (fun q (F : In q []) => match F with end)) as (_ & _ & D).
  apply D; [discriminate|].
  exists (mkProfile "default-profile" "Default" "" ""). split; [now left | reflexivity].
Defined.

(** The rule with the pattern that does not compile is passed over. *)
Lemma ApplyRules_skips_invalid_patterns_run :
  rules.compiles invalidRule = false /\
  rules.ApplyRules (Some invalidPattern) "https://example.com"
    = Ok (rules.mkMatchResult None "default-profile" false).
Proof.
  split; [reflexivity|].
  exact (proj1 (proj2 (ApplyRules_skips_invalid_patterns (U:=netURL) (RE:=regexp) (S:=sort)
                         invalidPattern "https://example.com"
                         (mkURL "https" "" "example.com" "" "" "")
                         lessRule_contract eq_refl))).
Defined.

(** The rule with the empty pattern catches what no longer pattern does. *)
Lemma ApplyRules_empty_pattern_run :
  rules.ApplyRules (Some withCatchAll) "https://other.example.org/"
    = Ok (rules.mkMatchResult (Some catchAll) "personal-profile" true) /\
  forall m, rules.ApplyRules (Some withCatchAll) "https://other.example.org/" = Ok m ->
            rules.Rule m <> None.
Proof.
  destruct (ApplyRules_empty_pattern_never_default (U:=netURL) (RE:=regexp) (S:=sort)
              withCatchAll "https://other.example.org/"
              (mkURL "https" "" "other.example.org" "/" "" "") catchAll
              (mkRE false [] false) lessRule_contract (proj1 compile_empty) (proj2 compile_empty)
              eq_refl (or_introl eq_refl) eq_refl) as (_ & _ & N & _).
  split; [reflexivity | exact N].
Defined.

(** Six 301 responses in a row: too many redirects. *)
Lemma ResolveShortenedURL_six_redirects :
  fst (urlhandler.ResolveShortenedURL "https://bit.ly/0" sixRedirects)
    = Err (urlhandler.ErrTooManyRedirects "https://bit.ly/0").
Proof.
  apply (proj1 (proj1 (proj2 (ResolveShortenedURL_hop_limit (U:=netURL) (H:=httpClient)
                                "https://bit.ly/0" sixRedirects)))).
  reflexivity.
Defined.

(** A shortener that answers 404: the input goes on to the matcher. *)
Lemma ProcessURL_resolution_failure_run :
  urlhandler.ResolveShortenedURL "https://bit.ly/gone" goneServer
    = (Err (urlhandler.ErrUnexpectedStatus 404 "https://bit.ly/gone"), goneServer) /\
  urlhandler.ProcessURL safelinks "https://bit.ly/gone" goneServer
    = (urlhandler.mkProcessed "https://bit.ly/gone" "https://bit.ly/gone" false None,
       goneServer).
Proof.
  split; [reflexivity|].
  destruct (ProcessURL_resolution_failure (U:=netURL) (RE:=regexp) (S:=sort) (H:=httpClient)
              safelinks "https://bit.ly/gone" goneServer goneServer
              (mkURL "https" "" "bit.ly" "/gone" "" "")
              (mkShortener "bit.ly" false)
              (urlhandler.ErrUnexpectedStatus 404 "https://bit.ly/gone")
              eq_refl (or_introl eq_refl) eq_refl eq_refl) as (_ & P & _).
  apply P. now right.
Defined.

(** A safelink: the rules see the page, the launcher gets the link. *)
Lemma ProcessURL_safelink_run :
  urlhandler.ProcessURL safelinks safelinkURL safelinkServer
    = (urlhandler.mkProcessed "https://example.com/work/mail" safelinkURL true None,
       safelinkServer) /\
  cli.runRootCmd (Some safelinks) [safelinkURL] safelinkServer
    = (cli.Launch safelinks "work-profile" safelinkURL true, safelinkServer).
Proof.
  exact (ProcessURL_safelink (U:=netURL) (RE:=regexp) (S:=sort) (H:=httpClient)
           safelinks safelinkURL "https://example.com/work/mail"
           safelinkServer safelinkServer
           (mkURL "https" "" "safelinks.protection.outlook.com" "/r1" "" "")
           (mkShortener "safelinks.protection.outlook.com" true)
           eq_refl (or_intror eq_refl) eq_refl eq_refl eq_refl).
Defined.

(** C9 as stated fails: an input without a scheme before its colon does not
    parse, and [ProcessURL] returns it with an error that is not nil. *)
Lemma ProcessURL_unparseable_not_nil :
  Parse ":foo" = Err ("parse " ++ dquote ++ ":foo" ++ dquote
                        ++ ": missing protocol scheme") /\
  fst (urlhandler.ProcessURL noRules ":foo" [])
    <> urlhandler.mkProcessed ":foo" ":foo" false None /\
  urlhandler.err (fst (urlhandler.ProcessURL noRules ":foo" [])) <> None.
Proof.
  split; [reflexivity|]. split; discriminate.
Qed.

(** A mail address is not looked up; the input with no scheme before its
    colon comes back with the parse error. *)
Lemma ProcessURL_passes_through_run :
  urlhandler.ProcessURL safelinks "mailto:joe@bit.ly" []
    = (urlhandler.mkProcessed "mailto:joe@bit.ly" "mailto:joe@bit.ly" false None, []) /\
  urlhandler.err (fst (urlhandler.ProcessURL safelinks ":foo" []))
    = Some (urlhandler.ErrParseInput
              ("parse " ++ dquote ++ ":foo" ++ dquote ++ ": missing protocol scheme")).
Proof.
  destruct (ProcessURL_passes_through (U:=netURL) (H:=httpClient)
              safelinks "mailto:joe@bit.ly" []) as [_ Pass].
  destruct (ProcessURL_passes_through (U:=netURL) (H:=httpClient)
              safelinks ":foo" []) as [Fail _].
  split.
  - apply (Pass (mkURL "mailto" "joe@bit.ly" "" "" "" "") eq_refl); discriminate.
  - destruct (Fail _ eq_refl) as [-> _]. reflexivity.
Defined.

(** The three scopes on the URL of the scope examples. *)
Example getMatchString_run :
  Parse "https://work.example.com/path?x=1"
    = Ok (mkURL "https" "" "work.example.com" "/path" "x=1" "") /\
  rules.getMatchString (mkURL "https" "" "work.example.com" "/path" "x=1" "")
                       ScopeDomain = "work.example.com" /\
  rules.getMatchString (mkURL "https" "" "work.example.com" "/path" "x=1" "")
                       ScopePath = "/path" /\
  rules.getMatchString (mkURL "https" "" "work.example.com" "/path" "x=1" "")
                       ScopeURL = "https://work.example.com/path?x=1" /\
  rules.getMatchString (mkURL "" "" "example.com" "/foo" "" "") ""
    = "example.com/foo".
Proof. repeat split. Qed.

(** A rule of scope "domain" is matched against the hostname alone: a
    pattern that starts with the scheme does not match it, and the URL goes
    to the default profile; the pattern of the hostname matches. *)
Example domain_scope_run :
  rules.ApplyRules (Some domainScope) "https://work.example.com/path"
    = Ok (rules.mkMatchResult None "default-profile" false) /\
  rules.ruleMatches (mkURL "https" "" "work.example.com" "/path" "" "")
                    (mkRule "" "Work Domain" "^work\.example\.com$" ScopeDomain
                            "work-profile" false) = true.
Proof. split; reflexivity. Qed.

(** Four redirects and a page are resolved; a fifth redirect is one too
    many, whatever stands behind it. *)
Example ResolveShortenedURL_run :
  fst (urlhandler.ResolveShortenedURL "https://bit.ly/2" sixRedirects)
    = Ok "https://example.com/" /\
  fst (urlhandler.ResolveShortenedURL "https://bit.ly/1" sixRedirects)
    = Err (urlhandler.ErrTooManyRedirects "https://bit.ly/1").
Proof. split; reflexivity. Qed.

End Runs.

(** * Further properties *)

(** ** Lookups of package config *)

Section Lookups.
Import configx.

Lemma findProfile_Some (ps : list Profile) (id : string) (p : Profile) :
  findProfile ps id = Some p ->
  exists before after,
    ps = (before ++ p :: after)%list /\ ID p = id
    /\ forall q, In q before -> ID q <> id.
Proof.
  induction ps as [|a ps IH]; simpl; [discriminate|].
  destruct (String.eqb_spec (ID a) id) as [E|N]; intros X.
  - injection X as <-. exists [], ps. simpl. intuition.
  - destruct (IH X) as (before & after & -> & Hid & Hb).
    exists (a :: before), after. simpl. repeat split; auto.
    intros q [<-|Hq]; auto.
Qed.

(** X1. [FindProfileByID] returns the first profile of the config with the
    id, and fails, with "profile with ID '<id>' not found", exactly when no
    profile has it. *)
Theorem FindProfileByID_first (c : Config) (id : string) :
  (forall p, FindProfileByID c id = Ok p ->
             exists before after,
               Profiles c = (before ++ p :: after)%list /\ ID p = id
               /\ forall q, In q before -> ID q <> id) /\
  ((exists e, FindProfileByID c id = Err e) <->
   forall p, In p (Profiles c) -> ID p <> id) /\
  (forall e, FindProfileByID c id = Err e ->
             e = "profile with ID '" ++ id ++ "' not found").
Proof.
  unfold FindProfileByID. split; [|split].
  - intros p. destruct (findProfile (Profiles c) id) as [q|] eqn:F;
      [|discriminate].
    intros X. injection X as <-. now apply findProfile_Some.
  - rewrite <- findProfile_In.
    destruct (findProfile (Profiles c) id); split.
    + intros [e X]. discriminate.
    + discriminate.
    + reflexivity.
    + intros _. eexists. reflexivity.
  - intros e. destruct (findProfile (Profiles c) id); [discriminate|].
    intros X. now injection X as <-.
Qed.

Lemma findManualShortener_spec (l : list ShortenerService) (domain : string) :
  forall i,
    match findManualShortener l domain i with
    | Some (s, k) =>
        exists j, k = i + j /\ nth_error l j = Some s /\ Domain s = domain
                  /\ forall j' s', j' < j -> nth_error l j' = Some s' ->
                                   Domain s' <> domain
    | None => forall s, In s l -> Domain s <> domain
    end.
Proof.
  induction l as [|a l IH]; simpl; intros i.
  - intros s [].
  - destruct (String.eqb_spec (Domain a) domain) as [E|N].
    + exists 0. split; [lia|]. split; [reflexivity|]. split; [exact E|].
      intros j' s' Hlt. lia.
    + specialize (IH (S i)).
      destruct (findManualShortener l domain (S i)) as [[s k]|].
      * destruct IH as (j & -> & Hn & Hd & Hmin).
        exists (S j). split; [lia|]. split; [exact Hn|]. split; [exact Hd|].
        intros [|j'] s' Hlt Hs'; simpl in Hs'.
        -- injection Hs' as <-. exact N.
        -- apply (Hmin j' s'); [lia | exact Hs'].
      * intros s [<-|Hs]; auto.
Qed.

(** X2. [FindManualShortenerByDomain] returns the first manual shortener
    with the domain and its index in the slice, which is the one that
    [ProcessURL] matches in the manual list; it fails exactly when the
    manual list has no entry for the domain. *)
Theorem FindManualShortenerByDomain_first (c : Config) (domain : string) :
  (forall s i,
      FindManualShortenerByDomain c domain = Ok (s, i) ->
      nth_error (ManualShorteners c) i = Some s /\ Domain s = domain
      /\ (forall j s', j < i -> nth_error (ManualShorteners c) j = Some s' ->
                       Domain s' <> domain)
      /\ urlhandler.matchDomain (ManualShorteners c) domain = Some s
      /\ urlhandler.matchedShortener c domain = Some s) /\
  ((exists e, FindManualShortenerByDomain c domain = Err e) <->
   forall s, In s (ManualShorteners c) -> Domain s <> domain).
Proof.
  unfold FindManualShortenerByDomain.
  pose proof (findManualShortener_spec (ManualShorteners c) domain 0) as Sp.
  assert (M : forall l i s k,
             findManualShortener l domain i = Some (s, k) ->
             urlhandler.matchDomain l domain = Some s).
  { induction l as [|a l IH]; simpl; intros i s k; [discriminate|].
    destruct (Domain a =? domain)%string.
    - intros X. now injection X as <- _.
    - apply IH. }
  destruct (findManualShortener (ManualShorteners c) domain 0)
    as [[s k]|] eqn:F; split.
  - intros s' i X. injection X as <- <-.
    destruct Sp as (j & -> & Hn & Hd & Hmin). simpl.
    repeat split; auto.
    + exact (M _ _ _ _ F).
    + unfold urlhandler.matchedShortener. now rewrite (M _ _ _ _ F).
  - split; [intros [e X]; discriminate|].
    intros Hall. destruct Sp as (j & _ & Hn & Hd & _).
    destruct (Hall s (nth_error_In _ _ Hn) Hd).
  - intros s i X. discriminate.
  - split; [intros _; exact Sp | intros _; eexists; reflexivity].
Qed.

Lemma findBrowser_Some (bs : list Browser) (id : string) (b : Browser) :
  findBrowser bs id = Some b -> In b bs /\ BrowserID b = id.
Proof.
  induction bs as [|a bs IH]; simpl; [discriminate|].
  destruct (String.eqb_spec (BrowserID a) id) as [E|N]; intros X.
  - injection X as <-. auto.
  - destruct (IH X). auto.
Qed.

Lemma findBrowser_None (bs : list Browser) (id : string) :
  findBrowser bs id = None <-> forall b, In b bs -> BrowserID b <> id.
Proof.
  induction bs as [|a bs IH]; simpl.
  - split; [intros _ b [] | reflexivity].
  - destruct (String.eqb_spec (BrowserID a) id) as [E|N].
    + split; [discriminate|]. intros Hall.
      now destruct (Hall a (or_introl eq_refl)).
    + rewrite IH. split.
      * intros Hall b [<-|Hb]; auto.
      * intros Hall b Hb. apply Hall. now right.
Qed.

(** X3. [GetProfileBrowser] returns a configured browser whose id is the
    browser id of the profile, and fails exactly when no configured browser
    has that id. *)
Theorem GetProfileBrowser_of_profile (browsers : list Browser) (profile : Profile) :
  (forall b, GetProfileBrowser browsers profile = Ok b ->
             In b browsers /\ BrowserID b = config.BrowserID profile) /\
  ((exists e, GetProfileBrowser browsers profile = Err e) <->
   forall b, In b browsers -> BrowserID b <> config.BrowserID profile).
Proof.
  unfold GetProfileBrowser, FindBrowserByID. rewrite <- findBrowser_None.
  destruct (findBrowser browsers (config.BrowserID profile)) as [b|] eqn:F;
    split.
  - intros b' X. injection X as <-. now apply findBrowser_Some.
  - split; [intros [e X]|]; discriminate.
  - discriminate.
  - split; [reflexivity | intros _; eexists; reflexivity].
Qed.

End Lookups.

(** ** More on the rule matcher *)

Section MoreRuleMatcher.
Context {U : NetURL} {RE : Regexp} {S : Sort}.

Import rules.

Lemma getMatchString_decodeScope (parsedURL : URL) (str : string) :
  getMatchString parsedURL (configx.decodeScope str) =
  getMatchString parsedURL str.
Proof.
  unfold configx.decodeScope, getMatchString.
  destruct (String.eqb_spec str ScopeURL) as [->|N1]; [reflexivity|].
  destruct (String.eqb_spec str ScopeDomain) as [->|N2]; [reflexivity|].
  destruct (String.eqb_spec str ScopePath) as [->|N3]; reflexivity.
Qed.

(** X4. The decode hook of [LoadConfig] turns every scope text into one of
    "url", "domain" and "path", leaves these three as they are, and
    changes nothing for the matcher: a rule is matched against the same part
    of the URL before and after decoding, and the scan of decoded rules
    returns what the scan of the raw rules returns, with the rule of the
    result decoded. *)
Theorem decodeScope_normalises (str : string) :
  (configx.decodeScope str = ScopeURL \/ configx.decodeScope str = ScopeDomain
   \/ configx.decodeScope str = ScopePath) /\
  (str = ScopeURL \/ str = ScopeDomain \/ str = ScopePath ->
   configx.decodeScope str = str) /\
  configx.decodeScope (configx.decodeScope str) = configx.decodeScope str /\
  (forall parsedURL,
      getMatchString parsedURL (configx.decodeScope str) =
      getMatchString parsedURL str) /\
  (forall cfg parsedURL l,
      scanRules cfg parsedURL (map configx.decodeRule l) =
      match scanRules cfg parsedURL l with
      | Some (Ok m) =>
          Some (Ok (mkMatchResult (option_map configx.decodeRule (Rule m))
                                  (ProfileID m) (Incognito m)))
      | other => other
      end).
Proof.
  split; [|split; [|split; [|split]]].
  - unfold configx.decodeScope.
    destruct (String.eqb_spec str ScopeURL) as [->|N1]; [now left|].
    destruct (String.eqb_spec str ScopeDomain) as [->|N2];
      [right; now left|].
    destruct (String.eqb_spec str ScopePath) as [->|N3];
      [right; now right | now left].
  - intros [->|[->| ->]]; reflexivity.
  - unfold configx.decodeScope.
    destruct (String.eqb_spec str ScopeURL) as [->|N1]; [reflexivity|].
    destruct (String.eqb_spec str ScopeDomain) as [->|N2]; [reflexivity|].
    destruct (String.eqb_spec str ScopePath) as [->|N3]; reflexivity.
  - intros parsedURL. apply getMatchString_decodeScope.
  - intros cfg parsedURL l.
    induction l as [|r l IH]; simpl; [reflexivity|].
    rewrite getMatchString_decodeScope.
    destruct (Compile (Pattern r)) as [re|e]; [|exact IH].
    destruct (MatchString re (getMatchString parsedURL (Scope r)));
      [|exact IH].
    destruct (FindProfileByID cfg (config.ProfileID r)); reflexivity.
Qed.

Lemma findProfile_Some_ID (ps : list Profile) (id : string) (p : Profile) :
  findProfile ps id = Some p -> In p ps /\ ID p = id.
Proof.
  intros F. destruct (findProfile_Some ps id p F) as (b & a & -> & Hid & _).
  split; [apply in_elt | exact Hid].
Qed.

(** X5. What [ApplyRules] returns without error can be launched: the
    profile id of the result is the id of a profile of the config; with a
    rule, the rule is one of the config, matches the URL, and gives the
    result its profile id and incognito flag; without a rule, the profile
    id is the default one, which is not empty, and the result is not
    incognito. *)
Theorem ApplyRules_result_valid
        (cfg : option Config) (inputURL : string) (m : MatchResult) :
  SliceContract lessRule ->
  ApplyRules cfg inputURL = Ok m ->
  exists c u,
    cfg = Some c /\ Parse inputURL = Ok u /\
    (exists p, In p (Profiles c) /\ ID p = ProfileID m) /\
    match Rule m with
    | Some r =>
        In r (Rules c) /\ ruleMatches (recoverHost inputURL u) r = true
        /\ ProfileID m = config.ProfileID r
        /\ Incognito m = config.Incognito r
    | None =>
        ProfileID m = DefaultProfileID c /\ DefaultProfileID c <> ""
        /\ Incognito m = false
        /\ forall r, In r (Rules c) ->
                     ruleMatches (recoverHost inputURL u) r = false
    end.
Proof.
  intros C R. destruct cfg as [c|]; [|discriminate].
  destruct (Parse inputURL) as [u|e] eqn:E;
    [|unfold ApplyRules in R; rewrite E in R; discriminate].
  exists c, u. split; [reflexivity|]. split; [reflexivity|].
  rewrite (ApplyRules_find c inputURL u E) in R.
  destruct (C (Rules c)) as [P _].
  destruct (find _ _) as [r|] eqn:F.
  - destruct (find_some _ _ F) as [Hin Hm]. unfold ruleOutcome in R.
    destruct (findProfile _ _) as [p|] eqn:Fp; [|discriminate].
    injection R as <-. simpl. split.
    + exists p. now apply findProfile_Some_ID.
    + repeat split; auto. exact (Permutation_in _ P Hin).
  - unfold defaultProfile, FindProfileByID in R.
    destruct (String.eqb_spec (DefaultProfileID c) "") as [Z|NZ];
      [discriminate|].
    destruct (findProfile _ _) as [p|] eqn:Fp; [|discriminate].
    injection R as <-. simpl. split.
    + exists p. now apply findProfile_Some_ID.
    + repeat split; auto. intros r Hr.
      apply (find_none _ _ F). apply (Permutation_in _ (Permutation_sym P) Hr).
Qed.

Lemma find_none_of_all (A : Type) (f : A -> bool) (l : list A) :
  (forall x, In x l -> f x = false) -> find f l = None.
Proof.
  intros Hall. destruct (find f l) as [x|] eqn:F; [|reflexivity].
  destruct (find_some _ _ F) as [Hin Hx]. rewrite (Hall x Hin) in Hx.
  discriminate.
Qed.

(** X6. When no two different rules that match the URL have patterns of
    the same length, the order of the rules in the config does not matter:
    two configs with the same rules in any order, the same profiles and
    the same default profile get the same result from [ApplyRules]. *)
Theorem ApplyRules_order_independent (cfg cfg' : Config) (inputURL : string) :
  SliceContract lessRule ->
  (forall u a b,
      Parse inputURL = Ok u ->
      In a (Rules cfg) -> In b (Rules cfg) ->
      ruleMatches (recoverHost inputURL u) a = true ->
      ruleMatches (recoverHost inputURL u) b = true ->
      patternLen a = patternLen b -> a = b) ->
  Permutation (Rules cfg') (Rules cfg) ->
  Profiles cfg' = Profiles cfg ->
  DefaultProfileID cfg' = DefaultProfileID cfg ->
  ApplyRules (Some cfg') inputURL = ApplyRules (Some cfg) inputURL.
Proof.
  intros C Hdist Hperm Hprof Hdef.
  destruct (Parse inputURL) as [u|e] eqn:E;
    [|unfold ApplyRules; now rewrite E].
  destruct (C (Rules cfg)) as [P _]. destruct (C (Rules cfg')) as [P' _].
  destruct (find (ruleMatches (recoverHost inputURL u))
                 (Slice lessRule (Rules cfg))) as [q|] eqn:F.
  - destruct (find_some _ _ F) as [Hin Hm].
    assert (Hq : In q (Rules cfg)) by exact (Permutation_in _ P Hin).
    assert (Hq' : In q (Rules cfg'))
      by exact (Permutation_in _ (Permutation_sym Hperm) Hq).
    destruct (ApplyRules_winner cfg inputURL u q C E Hq Hm)
      as (r & Hr & Mr & Maxr & Rr).
    destruct (ApplyRules_winner cfg' inputURL u q C E Hq' Hm)
      as (r' & Hr' & Mr' & Maxr' & Rr').
    assert (Hr'' : In r' (Rules cfg)) by exact (Permutation_in _ Hperm Hr').
    assert (L1 := Maxr r' Hr'' Mr').
    assert (L2 := Maxr' r (Permutation_in _ (Permutation_sym Hperm) Hr) Mr).
    assert (r = r') by (apply (Hdist u); auto; lia). subst r'.
    rewrite Rr, Rr'. unfold ruleOutcome. now rewrite Hprof.
  - assert (F' : find (ruleMatches (recoverHost inputURL u))
                      (Slice lessRule (Rules cfg')) = None).
    { apply find_none_of_all. intros x Hx. apply (find_none _ _ F).
      apply (Permutation_in _ (Permutation_sym P)).
      apply (Permutation_in _ Hperm). exact (Permutation_in _ P' Hx). }
    rewrite (ApplyRules_find cfg inputURL u E), F.
    rewrite (ApplyRules_find cfg' inputURL u E), F'.
    unfold defaultProfile, FindProfileByID. now rewrite Hprof, Hdef.
Qed.

(** [ApplyRules] reads the profiles only to see whether the profile ids of
    the rules and the default profile id are there. *)
Lemma ApplyRules_same_lookups (cfg cfg' : Config) (inputURL : string) :
  SliceContract lessRule ->
  Rules cfg' = Rules cfg ->
  DefaultProfileID cfg' = DefaultProfileID cfg ->
  (forall id,
      id = DefaultProfileID cfg
      \/ (exists r, In r (Rules cfg) /\ config.ProfileID r = id) ->
      (findProfile (Profiles cfg') id = None <->
       findProfile (Profiles cfg) id = None)) ->
  ApplyRules (Some cfg') inputURL = ApplyRules (Some cfg) inputURL.
Proof.
  intros C HR HD HP.
  destruct (Parse inputURL) as [u|e] eqn:E;
    [|unfold ApplyRules; now rewrite E].
  rewrite (ApplyRules_find cfg inputURL u E).
  rewrite (ApplyRules_find cfg' inputURL u E), HR.
  destruct (C (Rules cfg)) as [P _].
  destruct (find _ _) as [r|] eqn:F.
  - destruct (find_some _ _ F) as [Hin _]. unfold ruleOutcome.
    assert (X := HP (config.ProfileID r)
                    (or_intror (ex_intro _ r (conj (Permutation_in _ P Hin)
                                                   eq_refl)))).
    destruct (findProfile (Profiles cfg') _) as [p'|];
      destruct (findProfile (Profiles cfg) _) as [p|]; try reflexivity.
    + destruct X as [_ X]. discriminate (X eq_refl).
    + destruct X as [X _]. discriminate (X eq_refl).
  - unfold defaultProfile, FindProfileByID. rewrite HD.
    destruct (_ =? _)%string; [reflexivity|].
    assert (X := HP (DefaultProfileID cfg) (or_introl eq_refl)).
    destruct (findProfile (Profiles cfg') _) as [p'|];
      destruct (findProfile (Profiles cfg) _) as [p|]; try reflexivity.
    + destruct X as [_ X]. discriminate (X eq_refl).
    + destruct X as [X _]. discriminate (X eq_refl).
Qed.

End MoreRuleMatcher.

(** ** More on the preprocessor and the resolver *)

Section MoreHandler.
Context {U : NetURL} {H : HTTPClient}.

Import urlhandler.

(** X7. Whatever the input, [ProcessURL] returns it as the original URL;
    it returns an error exactly when the input does not parse; the URL for
    matching is the input or what [ResolveShortenedURL] resolved it to; the
    safelink flag is set only when the matched shortener is marked and the
    resolution succeeded; and without an http or https input on a shortener
    domain no request is made. *)
Theorem ProcessURL_invariants (cfg : Config) (inputURL : string) (w : World) :
  originalURL (fst (ProcessURL cfg inputURL w)) = inputURL /\
  (err (fst (ProcessURL cfg inputURL w)) <> None <->
   exists e, Parse inputURL = Err e) /\
  (urlForMatching (fst (ProcessURL cfg inputURL w)) = inputURL
   \/ ResolveShortenedURL inputURL w =
      (Ok (urlForMatching (fst (ProcessURL cfg inputURL w))),
       snd (ProcessURL cfg inputURL w))) /\
  (isSafelink (fst (ProcessURL cfg inputURL w)) = true ->
   exists u s,
     Parse inputURL = Ok u /\ (Scheme u = "http" \/ Scheme u = "https")
     /\ matchedShortener cfg (Hostname u) = Some s /\ IsSafelink s = true
     /\ ResolveShortenedURL inputURL w =
        (Ok (urlForMatching (fst (ProcessURL cfg inputURL w))),
         snd (ProcessURL cfg inputURL w))) /\
  ((forall u, Parse inputURL = Ok u ->
              (Scheme u <> "http" /\ Scheme u <> "https")
              \/ matchedShortener cfg (Hostname u) = None) ->
   ProcessURL cfg inputURL w = (mkProcessed inputURL inputURL false
                                  (match Parse inputURL with
                                   | Ok _ => None
                                   | Err e => Some (ErrParseInput e)
                                   end), w)).
Proof.
  unfold ProcessURL.
  destruct (Parse inputURL) as [u|e] eqn:E.
  2:{ simpl. repeat split; auto.
      - intros _. now exists e.
      - intros _. discriminate.
      - discriminate. }
  assert (NoErr : forall (o : option Error), o = None ->
            (o <> None <-> exists e : string, @Ok string URL u = Err e)).
  { intros o ->. split; [intros X; now destruct X | intros [e X]; discriminate]. }
  destruct ((Scheme u =? "http")%string || (Scheme u =? "https")%string)
    eqn:Sch.
  - assert (Hs : Scheme u = "http" \/ Scheme u = "https").
    { apply orb_true_iff in Sch.
      destruct Sch as [X|X]; apply String.eqb_eq in X; auto. }
    destruct (matchedShortener cfg (Hostname u)) as [s|] eqn:M.
    + destruct (ResolveShortenedURL inputURL w) as [[resolved|e] w'] eqn:R;
        simpl.
      * split; [reflexivity|]. split; [now apply NoErr|].
        split; [now right|]. split.
        -- intros Safe. exists u, s. auto.
        -- intros X. destruct (X u eq_refl) as [[N1 N2]|N]; [|congruence].
           destruct Hs; contradiction.
      * split; [reflexivity|]. split; [now apply NoErr|].
        split; [now left|]. split; [discriminate|].
        intros X. destruct (X u eq_refl) as [[N1 N2]|N]; [|congruence].
        destruct Hs; contradiction.
    + simpl. split; [reflexivity|]. split; [now apply NoErr|].
      split; [now left|]. split; [discriminate|]. reflexivity.
  - simpl. split; [reflexivity|]. split; [now apply NoErr|].
    split; [now left|]. split; [discriminate|]. reflexivity.
Qed.

End MoreHandler.

(** ** The requests of the resolver *)

Section Requests.
Context {U : NetURL}.
Variable H : HTTPClient.

Import urlhandler requestlog.






End Requests.

(** ** The launcher *)

Section Launcher.
Import configx launcher.

Lemma prefix_append (p s : string) :
  String.prefix p s = true -> exists t, s = p ++ t.
Proof.
  revert s. induction p as [|a p IH]; intros s.
  - intros _. now exists s.
  - destruct s as [|b s]; simpl; [discriminate|].
    destruct (ascii_dec a b) as [->|N]; [|discriminate].
    intros X. destruct (IH s X) as [t ->]. now exists t.
Qed.

(** X9. [Launch] starts a process exactly when the config has a profile
    with the id and a browser with the browser id of that profile; else it
    fails for the profile, or for the browser of the first profile with the
    id.  The arguments of the process are the command of the browser, at
    most four flags, and last the target URL, as it was given; a flatpak
    executable is split into "flatpak", "run" and the rest. *)
Theorem Launch_command (cfg : Config) (browsers : list Browser) (wayland : bool)
        (profileID targetURL : string) (incognito : bool) :
  (forall args,
      Launch cfg browsers wayland profileID targetURL incognito = Ok args ->
      exists profile browser flags,
        FindProfileByID cfg profileID = Ok profile
        /\ GetProfileBrowser browsers profile = Ok browser
        /\ args = (command browser ++ flags ++ [targetURL])%list
        /\ length flags <= 4
        /\ last args "" = targetURL
        /\ (incognito = false -> wayland = false -> length flags <= 1)) /\
  ((exists e, Launch cfg browsers wayland profileID targetURL incognito
              = Err (ErrProfile e)) <->
   forall p, In p (Profiles cfg) -> ID p <> profileID) /\
  (forall id name e,
      Launch cfg browsers wayland profileID targetURL incognito
        = Err (ErrBrowser id name e) ->
      exists profile,
        FindProfileByID cfg profileID = Ok profile
        /\ id = config.BrowserID profile /\ name = ProfileName profile
        /\ forall b, In b browsers -> BrowserID b <> config.BrowserID profile) /\
  (forall b,
      strings.HasPrefix (Executable b) "flatpak run " = true ->
      exists rest, command b = "flatpak" :: "run" :: rest) /\
  (forall b,
      strings.HasPrefix (Executable b) "flatpak run " = false ->
      command b = [Executable b]).
Proof.
  split; [|split; [|split; [|split]]].
  - unfold Launch. intros args.
    destruct (FindProfileByID cfg profileID) as [profile|e]; [|discriminate].
    destruct (GetProfileBrowser browsers profile) as [browser|e] eqn:G;
      [|discriminate].
    intros X. injection X as <-.
    exists profile, browser.
    set (a1 := if negb (ProfileArg browser =? "")%string
                  && negb (ProfileDir profile =? "")%string
               then if strings.Contains (ProfileArg browser) "%s"
                    then ([] ++ [strings.ReplaceFirst (ProfileArg browser) "%s"
                                                    (ProfileDir profile)])%list
                    else ([] ++ [ProfileArg browser])%list
               else []).
    set (a2 := if incognito && negb (IncognitoArg browser =? "")%string
               then (a1 ++ [IncognitoArg browser])%list else a1).
    set (a3 := if wayland
                  && strings.Contains (ProfileArg browser) "--profile-directory"
               then (a2 ++ ["--enable-features=UseOzonePlatform";
                            "--ozone-platform=wayland"])%list
               else a2).
    exists a3.
    assert (L1 : length a1 <= 1).
    { unfold a1. destruct (_ && _); [|simpl; lia].
      destruct (strings.Contains _ _); simpl; lia. }
    assert (L2 : length a2 <= length a1 + (if incognito then 1 else 0)).
    { clearbody a1. subst a2.
      destruct (incognito && negb (IncognitoArg browser =? "")%string) eqn:I.
      - apply andb_prop in I as [-> _]. rewrite length_app.
        change (length [IncognitoArg browser]) with 1. lia.
      - lia. }
    assert (L3 : length a3 <= length a2 + (if wayland then 2 else 0)).
    { clearbody a2. subst a3.
      destruct (wayland && strings.Contains (ProfileArg browser)
                                            "--profile-directory") eqn:W.
      - apply andb_prop in W as [-> _]. rewrite length_app.
        change (length ["--enable-features=UseOzonePlatform";
                        "--ozone-platform=wayland"]) with 2. lia.
      - lia. }
    split; [reflexivity|]. split; [exact G|]. split; [reflexivity|].
    split; [destruct incognito, wayland; lia|]. split.
    + rewrite app_assoc. apply last_last.
    + intros -> ->. lia.
  - unfold Launch, FindProfileByID. rewrite <- findProfile_In.
    destruct (findProfile (Profiles cfg) profileID) as [p|]; split.
    + intros [e X].
      destruct (GetProfileBrowser browsers p); discriminate X.
    + discriminate.
    + reflexivity.
    + intros _. eexists. reflexivity.
  - intros id name e. unfold Launch.
    destruct (FindProfileByID cfg profileID) as [profile|e0]; [|discriminate].
    destruct (GetProfileBrowser browsers profile) as [browser|e1] eqn:G;
      [discriminate|].
    intros X. injection X as <- <- <-. exists profile.
    split; [reflexivity|]. split; [reflexivity|]. split; [reflexivity|].
    unfold GetProfileBrowser, FindBrowserByID in G.
    destruct (findBrowser browsers (config.BrowserID profile)) eqn:F;
      [discriminate G|].
    now apply findBrowser_None.
  - intros b P. unfold command. rewrite P.
    unfold strings.HasPrefix in P.
    destruct (prefix_append _ _ P) as [t ->]. cbn.
    destruct (strings.Split t " ") as [|part parts]; eexists; reflexivity.
  - intros b P. unfold command. now rewrite P.
Qed.

End Launcher.
(** ** The shortener commands *)

Section ShortenerCommands.
Import configx configcmd.



Lemma matchDomain_app (l l' : list ShortenerService) (h : string) :
  urlhandler.matchDomain (l ++ l') h =
  match urlhandler.matchDomain l h with
  | Some s => Some s
  | None => urlhandler.matchDomain l' h
  end.
Proof.
  induction l as [|s l IH]; simpl; [reflexivity|].
  destruct (Domain s =? h)%string; [reflexivity | exact IH].
Qed.

(** Lists that carry the same domains, entry by entry, up to the flags of
    the entries for [domain], are looked up alike at every other host. *)
Lemma matchDomain_other (l l' : list ShortenerService) (domain h : string) :
  h <> domain ->
  filter (fun s => negb (Domain s =? domain)%string) l' =
  filter (fun s => negb (Domain s =? domain)%string) l ->
  urlhandler.matchDomain l' h = urlhandler.matchDomain l h.
Proof.
  intros N.
  assert (F : forall l, urlhandler.matchDomain l h =
                        urlhandler.matchDomain
                          (filter (fun s => negb (Domain s =? domain)%string) l)
                          h).
  { clear l l'. induction l as [|s l IH]; simpl; [reflexivity|].
    destruct (String.eqb_spec (Domain s) domain) as [E|D]; simpl.
    - destruct (String.eqb_spec (Domain s) h) as [E'|D']; [congruence|].
      exact IH.
    - destruct (Domain s =? h)%string; [reflexivity | exact IH]. }
  intros E. now rewrite (F l), (F l'), E.
Qed.

Lemma setSafelink_spec (l : list ShortenerService) :
  forall (i : nat) (v : bool) (s : ShortenerService),
    nth_error l i = Some s ->
    exists l',
      setSafelink l i v = Some l'
      /\ l' = (firstn i l ++ mkShortener (Domain s) v :: skipn (S i) l)%list.
Proof.
  induction l as [|a l IH]; intros [|i] v s Hn; simpl in Hn; try discriminate.
  - injection Hn as <-. simpl. eexists. split; reflexivity.
  - destruct (IH i v s Hn) as (l' & E & ->). simpl. rewrite E.
    eexists. split; reflexivity.
Qed.

Lemma split_at (A : Type) (l : list A) (i : nat) (x : A) :
  nth_error l i = Some x -> l = (firstn i l ++ x :: skipn (S i) l)%list.
Proof.
  revert i. induction l as [|a l IH]; intros [|i] Hn; simpl in Hn;
    try discriminate.
  - now injection Hn as <-.
  - simpl. f_equal. now apply IH.
Qed.

Lemma firstn_first_domain (l : list ShortenerService) (domain : string)
      (i : nat) :
  (forall j s', j < i -> nth_error l j = Some s' -> Domain s' <> domain) ->
  urlhandler.matchDomain (firstn i l) domain = None.
Proof.
  revert i. induction l as [|a l IH]; intros [|i] Hmin; simpl; try reflexivity.
  destruct (String.eqb_spec (Domain a) domain) as [E|N].
  - destruct (Hmin 0 a); [lia | reflexivity | exact E].
  - apply IH. intros j s' Hj Hs'. apply (Hmin (S j) s'); [lia | exact Hs'].
Qed.

(** How the commands pick the domain entry: the first manual entry with
    the domain, at its index. *)
Lemma FindManualShortenerByDomain_Ok (c : Config) (domain : string)
      (s : ShortenerService) (i : nat) :
  FindManualShortenerByDomain c domain = Ok (s, i) ->
  nth_error (ManualShorteners c) i = Some s /\ Domain s = domain
  /\ (forall j s', j < i -> nth_error (ManualShorteners c) j = Some s' ->
                   Domain s' <> domain).
Proof.
  unfold FindManualShortenerByDomain.
  pose proof (findManualShortener_spec (ManualShorteners c) domain 0) as Sp.
  destruct (findManualShortener (ManualShorteners c) domain 0)
    as [[s' k]|]; [|discriminate].
  intros X. injection X as -> ->.
  destruct Sp as (j & E & Hn & Hd & Hmin). simpl in E. subst j.
  split; [exact Hn|]. split; [exact Hd | exact Hmin].
Qed.


Lemma matchedShortener_other (cfg cfg' : Config) (domain h : string) :
  h <> domain ->
  Shorteners cfg' = Shorteners cfg ->
  filter (fun s => negb (Domain s =? domain)%string) (ManualShorteners cfg') =
  filter (fun s => negb (Domain s =? domain)%string) (ManualShorteners cfg) ->
  urlhandler.matchedShortener cfg' h = urlhandler.matchedShortener cfg h.
Proof.
  intros N ES EM. unfold urlhandler.matchedShortener.
  now rewrite ES, (matchDomain_other _ _ domain h N EM).
Qed.

Lemma filter_other_domain (l : list ShortenerService) (domain : string)
      (i : nat) (s : ShortenerService) (mid : list ShortenerService) :
  nth_error l i = Some s -> Domain s = domain ->
  (forall x, In x mid -> Domain x = domain) ->
  filter (fun s => negb (Domain s =? domain)%string)
         (firstn i l ++ mid ++ skipn (S i) l) =
  filter (fun s => negb (Domain s =? domain)%string) l.
Proof.
  intros Hn Hd Hmid. subst domain.
  transitivity (filter (fun x => negb (Domain x =? Domain s)%string)
                       (firstn i l ++ s :: skipn (S i) l));
    [|now rewrite <- (split_at _ l i s Hn)].
  rewrite !filter_app. f_equal. simpl.
  rewrite String.eqb_refl. simpl.
  induction mid as [|x mid IH]; simpl; [reflexivity|].
  rewrite (Hmid x (or_introl eq_refl)), String.eqb_refl. simpl.
  apply IH. intros y Hy. apply Hmid. now right.
Qed.


(** X11. When [runEditManualShortURLCmd] saves, it has flipped the flag of
    the first manual entry with the domain and changed nothing else: the
    manual list keeps its domains, and the preprocessor finds the entry
    with the new flag for the domain and what it found before for every
    other host. *)
Theorem runEditManualShortURLCmd_saves
        (cfg : Config) (args : list string) (safelink : option bool)
        (selection answer : Answer) (cfg' : Config) :
  runEditManualShortURLCmd (Some cfg) args safelink selection answer
    = Save cfg' ->
  exists domain s i,
    nth_error (ManualShorteners cfg) i = Some s /\ Domain s = domain
    /\ (forall j s', j < i -> nth_error (ManualShorteners cfg) j = Some s' ->
                     Domain s' <> domain)
    /\ (forall a rest, args = a :: rest -> domain = a)
    /\ cfg' = withManualShorteners
                cfg (firstn i (ManualShorteners cfg)
                       ++ mkShortener domain (negb (IsSafelink s))
                       :: skipn (S i) (ManualShorteners cfg))%list
    /\ (forall v, safelink = Some v -> v = negb (IsSafelink s))
    /\ map Domain (ManualShorteners cfg') = map Domain (ManualShorteners cfg)
    /\ urlhandler.matchedShortener cfg' domain
       = Some (mkShortener domain (negb (IsSafelink s)))
    /\ (forall h, h <> domain ->
                  urlhandler.matchedShortener cfg' h =
                  urlhandler.matchedShortener cfg h).
Proof.
  unfold runEditManualShortURLCmd.
  set (sel := match args with
              | [] => _
              | domainName :: _ => inr domainName
              end).
  assert (Hargs : forall d, sel = inr d ->
                            forall a rest, args = a :: rest -> d = a).
  { intros d E a rest ->. simpl in sel. subst sel. now injection E as <-. }
  destruct sel as [o|domain] eqn:Esel.
  { clear Hargs. subst sel. intros X.
    destruct args as [|a rest]; [|discriminate Esel].
    destruct (ManualShorteners cfg) as [|m ms];
      [injection Esel as <-; discriminate X|].
    destruct (promptSelectManualShortURL selection (m :: ms)) as [d|e];
      [|injection Esel as <-; discriminate X].
    destruct (d =? "")%string; [|discriminate Esel].
    injection Esel as <-. discriminate X. }
  specialize (Hargs domain eq_refl). clear Esel sel.
  destruct (FindManualShortenerByDomain cfg domain) as [[s i]|e] eqn:F;
    [|discriminate].
  destruct (FindManualShortenerByDomain_Ok _ _ _ _ F) as (Hn & Hd & Hmin).
  set (newValue := match safelink with
                   | Some v => v
                   | None => promptSafelink answer (IsSafelink s)
                   end).
  destruct (Bool.eqb newValue (IsSafelink s)) eqn:E; [discriminate|].
  apply eqb_false_iff in E.
  assert (SV : forall v, safelink = Some v -> v = newValue)
    by (intros v ->; reflexivity).
  clearbody newValue.
  assert (NV : newValue = negb (IsSafelink s))
    by (destruct newValue, (IsSafelink s); simpl; congruence).
  destruct (setSafelink_spec _ i newValue s Hn) as (l' & -> & ->).
  intros X. injection X as <-. rewrite NV, Hd.
  exists domain, s, i.
  split; [exact Hn|]. split; [exact Hd|]. split; [exact Hmin|].
  split; [exact Hargs|]. split; [reflexivity|].
  split; [intros v Hv; now rewrite (SV v Hv)|].
  unfold withManualShorteners. cbn [ManualShorteners]. split; [|split].
  - transitivity (map Domain (firstn i (ManualShorteners cfg)
                                ++ s :: skipn (S i) (ManualShorteners cfg)));
      [|now rewrite <- (split_at _ _ i s Hn)].
    rewrite !map_app. simpl. now rewrite Hd.
  - unfold urlhandler.matchedShortener. cbn [ManualShorteners].
    rewrite matchDomain_app, (firstn_first_domain _ _ _ Hmin). simpl.
    now rewrite String.eqb_refl.
  - intros h N. apply (matchedShortener_other _ _ domain h N); [reflexivity|].
    cbn [ManualShorteners].
    apply (filter_other_domain _ domain i s [mkShortener domain _] Hn Hd).
    intros x [<-|[]]. reflexivity.
Qed.



Lemma removeAt_nth (A : Type) (l : list A) (i : nat) (x : A) :
  nth_error l i = Some x ->
  removeAt l i = Some (firstn i l ++ skipn (S i) l)%list.
Proof.
  intros Hn. unfold removeAt.
  assert (L : i < length l) by (apply nth_error_Some; congruence).
  destruct (Nat.ltb_spec i (length l)); [reflexivity | lia].
Qed.

Section Delete.
Context {UC : Unicode}.


End Delete.

End ShortenerCommands.

(** ** The profile commands *)

Section ProfileCommands.
Context {U : NetURL} {RE : Regexp} {S : Sort} {UC : Unicode}.
Import rules configcmd.

Lemma profileIndex_spec (ps : list Profile) (profileID : string) :
  forall i,
    match profileIndex ps profileID i with
    | Some (k, name) =>
        exists j p, k = i + j /\ nth_error ps j = Some p /\ ID p = profileID
                    /\ name = ProfileName p
                    /\ forall j' p', j' < j -> nth_error ps j' = Some p' ->
                                     ID p' <> profileID
    | None => forall p, In p ps -> ID p <> profileID
    end.
Proof.
  induction ps as [|a ps IH]; simpl; intros i.
  - intros p [].
  - destruct (String.eqb_spec (ID a) profileID) as [E|N].
    + exists 0, a. split; [lia|]. split; [reflexivity|]. split; [exact E|].
      split; [reflexivity|]. intros j' p' Hlt. lia.
    + specialize (IH (Datatypes.S i)).
      destruct (profileIndex ps profileID (Datatypes.S i)) as [[k name]|].
      * destruct IH as (j & p & -> & Hn & Hid & Hname & Hmin).
        exists (Datatypes.S j), p. split; [lia|]. split; [exact Hn|].
        split; [exact Hid|]. split; [exact Hname|].
        intros [|j'] p' Hlt Hp'; simpl in Hp'.
        -- injection Hp' as <-. exact N.
        -- apply (Hmin j' p'); [lia | exact Hp'].
      * intros p [<-|Hp]; auto.
Qed.

Lemma findProfile_app (a b : list Profile) (id : string) :
  findProfile (a ++ b) id =
  match findProfile a id with
  | Some p => Some p
  | None => findProfile b id
  end.
Proof.
  induction a as [|x a IH]; simpl; [reflexivity|].
  destruct (ID x =? id)%string; [reflexivity | exact IH].
Qed.

Lemma findProfile_removed (ps : list Profile) (i : nat) (p : Profile)
      (id : string) :
  nth_error ps i = Some p -> id <> ID p ->
  findProfile (firstn i ps ++ skipn (Datatypes.S i) ps) id = findProfile ps id.
Proof.
  intros Hn N.
  transitivity (findProfile (firstn i ps ++ p :: skipn (Datatypes.S i) ps) id);
    [|now rewrite <- (split_at _ ps i p Hn)].
  rewrite !findProfile_app. cbn [findProfile].
  destruct (String.eqb_spec (ID p) id) as [E|_]; [congruence | reflexivity].
Qed.

Lemma filter_nil_all (A : Type) (f : A -> bool) (l : list A) :
  filter f l = [] -> forall x, In x l -> f x = false.
Proof.
  induction l as [|a l IH]; simpl; [intros _ x []|].
  destruct (f a) eqn:Fa; [discriminate|].
  intros E x [<-|Hx]; auto.
Qed.

(** X13. When [runProfileDeleteCmd] saves, the first profile with the id
    is gone and nothing else has changed; that profile was neither the
    default profile nor the profile of any rule, so every other id is
    looked up as before and [ApplyRules] returns for every URL what it
    returned before the deletion. *)
Theorem runProfileDeleteCmd_keeps_routing
        (cfg : Config) (args : list string) (selection : Answer)
        (input : string) (cfg' : Config) :
  SliceContract lessRule ->
  runProfileDeleteCmd (Some cfg) args selection input = Save cfg' ->
  exists i p,
    nth_error (Profiles cfg) i = Some p
    /\ (forall j p', j < i -> nth_error (Profiles cfg) j = Some p' ->
                     ID p' <> ID p)
    /\ (forall a rest, args = a :: rest -> ID p = a)
    /\ DefaultProfileID cfg <> ID p
    /\ (forall r, In r (Rules cfg) -> config.ProfileID r <> ID p)
    /\ EqualFold (promptString input "no") "yes" = true
    /\ cfg' = withProfiles cfg (firstn i (Profiles cfg)
                                  ++ skipn (Datatypes.S i) (Profiles cfg))%list
    /\ (forall id, id <> ID p ->
                   FindProfileByID cfg' id = FindProfileByID cfg id)
    /\ (forall inputURL,
           ApplyRules (Some cfg') inputURL = ApplyRules (Some cfg) inputURL).
Proof.
  intros C. unfold runProfileDeleteCmd.
  set (sel := match args with
              | [] => _
              | profileID :: _ => inr profileID
              end).
  assert (Hargs : forall d, sel = inr d ->
                            forall a rest, args = a :: rest -> d = a).
  { intros d E a rest ->. simpl in sel. subst sel. now injection E as <-. }
  destruct sel as [o|profileID] eqn:Esel.
  { clear Hargs. subst sel. intros X.
    destruct args as [|a rest]; [|discriminate Esel].
    destruct (Profiles cfg) as [|p1 [|p2 ps]];
      [injection Esel as <-; discriminate X | discriminate Esel |].
    destruct (promptSelectProfile selection (p1 :: p2 :: ps)
                                  (DefaultProfileID cfg)) as [d|e];
      [|injection Esel as <-; discriminate X].
    destruct (d =? "")%string; [|discriminate Esel].
    injection Esel as <-. discriminate X. }
  specialize (Hargs profileID eq_refl). clear Esel sel.
  pose proof (profileIndex_spec (Profiles cfg) profileID 0) as Sp.
  destruct (profileIndex (Profiles cfg) profileID 0) as [[index name]|];
    [|discriminate].
  destruct Sp as (i & p & E & Hn & Hid & _ & Hmin). simpl in E. subst index.
  destruct (String.eqb_spec (DefaultProfileID cfg) profileID) as [|ND];
    [discriminate|].
  destruct (map config.Name
                (filter (fun r => (config.ProfileID r =? profileID)%string)
                        (Rules cfg))) as [|n ns] eqn:Refs; [|discriminate].
  apply map_eq_nil in Refs.
  assert (NR : forall r, In r (Rules cfg) -> config.ProfileID r <> profileID).
  { intros r Hr. apply String.eqb_neq.
    exact (filter_nil_all _ _ _ Refs r Hr). }
  destruct (EqualFold (promptString input "no") "yes") eqn:Y; [|discriminate].
  cbn [negb]. rewrite (removeAt_nth _ _ i p Hn). intros X.
  assert (E : cfg' = withProfiles
                       cfg (firstn i (Profiles cfg)
                              ++ skipn (Datatypes.S i) (Profiles cfg))%list)
    by congruence.
  subst cfg' profileID. clear X.
  assert (FP : forall id, id <> ID p ->
                 findProfile (firstn i (Profiles cfg)
                                ++ skipn (Datatypes.S i) (Profiles cfg)) id
                 = findProfile (Profiles cfg) id)
    by (intros id N; exact (findProfile_removed _ i p id Hn N)).
  exists i, p.
  split; [exact Hn|]. split; [exact Hmin|]. split; [exact Hargs|].
  split; [exact ND|]. split; [exact NR|]. split; [reflexivity|].
  split; [reflexivity|]. split.
  - intros id N. unfold FindProfileByID, withProfiles. cbn [Profiles].
    now rewrite (FP id N).
  - intros inputURL. apply ApplyRules_same_lookups;
      [exact C | reflexivity | reflexivity |].
    intros id Hid. unfold withProfiles. cbn [Profiles].
    rewrite FP; [reflexivity|].
    destruct Hid as [->|(r & Hr & <-)]; [exact ND | exact (NR r Hr)].
Qed.

(** X14. When [runSetDefaultProfileCmd] saves, the new default profile id
    is the id of a profile of the config and nothing else has changed;
    [ApplyRules] then never fails for a default profile that is not
    there, still returns what a matching rule gave before, and gives the
    new default profile where it gave a default before. *)
Theorem runSetDefaultProfileCmd_saves
        (cfg : Config) (args : list string) (selection : Answer)
        (cfg' : Config) :
  runSetDefaultProfileCmd (Some cfg) args selection = Save cfg' ->
  exists p,
    In p (Profiles cfg)
    /\ FindProfileByID cfg' (DefaultProfileID cfg') = Ok p
    /\ cfg' = withDefaultProfileID cfg (ID p)
    /\ (forall a rest, args = a :: rest -> ID p = a)
    /\ (forall inputURL id,
           ApplyRules (Some cfg') inputURL <> Err (ErrDefaultProfileNotFound id))
    /\ (forall inputURL m,
           ApplyRules (Some cfg) inputURL = Ok m -> Rule m <> None ->
           ApplyRules (Some cfg') inputURL = Ok m)
    /\ (forall inputURL m,
           ApplyRules (Some cfg) inputURL = Ok m -> Rule m = None ->
           ID p <> "" ->
           ApplyRules (Some cfg') inputURL = Ok (mkMatchResult None (ID p) false)).
Proof.
  unfold runSetDefaultProfileCmd.
  set (sel := match args with
              | [] => _
              | profileID :: _ => inr profileID
              end).
  assert (Hargs : forall d, sel = inr d ->
                            forall a rest, args = a :: rest -> d = a).
  { intros d E a rest ->. simpl in sel. subst sel. now injection E as <-. }
  destruct sel as [o|profileID] eqn:Esel.
  { clear Hargs. subst sel. intros X.
    destruct args as [|a rest]; [|discriminate Esel].
    destruct (Profiles cfg) as [|p1 [|p2 ps]];
      [injection Esel as <-; discriminate X | discriminate Esel |].
    destruct (promptSelectProfile selection (p1 :: p2 :: ps)
                                  (DefaultProfileID cfg)) as [d|e];
      [|injection Esel as <-; discriminate X].
    destruct (d =? "")%string; [|discriminate Esel].
    injection Esel as <-. discriminate X. }
  specialize (Hargs profileID eq_refl). clear Esel sel.
  destruct (existsb (fun p => (ID p =? profileID)%string) (Profiles cfg))
    eqn:Ex; [|discriminate].
  intros X.
  assert (E : cfg' = withDefaultProfileID cfg profileID) by congruence.
  subst cfg'. clear X.
  destruct (findProfile (Profiles cfg) profileID) as [p|] eqn:F.
  2:{ apply existsb_exists in Ex as (q & Hq & Eq).
      apply String.eqb_eq in Eq.
      destruct (proj1 (findProfile_In _ _) F q Hq Eq). }
  destruct (findProfile_Some_ID _ _ _ F) as [Hin Hid]. subst profileID.
  assert (D : defaultProfile (withDefaultProfileID cfg (ID p)) =
              if (ID p =? "")%string then Err ErrNoDefaultProfile
              else Ok (mkMatchResult None (ID p) false)).
  { unfold defaultProfile, FindProfileByID, withDefaultProfileID.
    cbn [DefaultProfileID Profiles]. now rewrite F. }
  exists p. split; [exact Hin|].
  split; [unfold FindProfileByID, withDefaultProfileID;
          cbn [DefaultProfileID Profiles]; now rewrite F|].
  split; [reflexivity|]. split; [exact Hargs|]. split; [|split].
  - intros inputURL id.
    destruct (Parse inputURL) as [u|e] eqn:P;
      [|unfold ApplyRules; rewrite P; discriminate].
    rewrite (ApplyRules_find _ inputURL u P).
    destruct (find _ _) as [r|].
    + unfold ruleOutcome.
      destruct (findProfile _ (config.ProfileID r)); discriminate.
    + rewrite D. destruct (ID p =? "")%string; discriminate.
  - intros inputURL m R HR.
    destruct (Parse inputURL) as [u|e] eqn:P;
      [|unfold ApplyRules in R; rewrite P in R; discriminate].
    rewrite (ApplyRules_find cfg inputURL u P) in R.
    rewrite (ApplyRules_find (withDefaultProfileID cfg (ID p)) inputURL u P).
    change (Rules (withDefaultProfileID cfg (ID p))) with (Rules cfg).
    destruct (find _ _) as [r|]; [exact R|].
    unfold defaultProfile in R.
    destruct (DefaultProfileID cfg =? "")%string; [discriminate|].
    destruct (FindProfileByID cfg (DefaultProfileID cfg)); [|discriminate].
    injection R as <-. now destruct HR.
  - intros inputURL m R HR NE.
    destruct (Parse inputURL) as [u|e] eqn:P;
      [|unfold ApplyRules in R; rewrite P in R; discriminate].
    rewrite (ApplyRules_find cfg inputURL u P) in R.
    rewrite (ApplyRules_find (withDefaultProfileID cfg (ID p)) inputURL u P).
    change (Rules (withDefaultProfileID cfg (ID p))) with (Rules cfg).
    destruct (find _ _) as [r|].
    + unfold ruleOutcome in R.
      destruct (findProfile _ (config.ProfileID r)); [|discriminate].
      injection R as <-. discriminate HR.
    + rewrite D. apply String.eqb_neq in NE. now rewrite NE.
Qed.

End ProfileCommands.

(** ** The rule commands and completion *)

Section RuleCommands.
Import configx configcmd.



Lemma fold_left_ids (browsers : list Browser) (toComplete : string) :
  forall ids,
    let out :=
      fold_left
        (fun ids browser =>
           if strings.HasPrefix (BrowserID browser) toComplete
           then if existsb (fun existing =>
                              (existing =? BrowserID browser)%string) ids
                then ids
                else (ids ++ [BrowserID browser])%list
           else ids)
        browsers ids in
    (NoDup ids -> NoDup out)
    /\ forall id,
         In id out <->
         In id ids
         \/ (strings.HasPrefix id toComplete = true
             /\ exists b, In b browsers /\ BrowserID b = id).
Proof.
  induction browsers as [|b bs IH]; intros ids; cbn zeta.
  - simpl. split; [auto|]. intros id. split; [auto|].
    intros [H|(_ & b & [] & _)]. exact H.
  - cbn [fold_left].
    destruct (strings.HasPrefix (BrowserID b) toComplete) eqn:P.
    + destruct (existsb (fun existing => (existing =? BrowserID b)%string) ids)
        eqn:Ex.
      * destruct (IH ids) as [ND Hin]. split; [exact ND|].
        intros id. rewrite Hin. split.
        -- intros [H|(Hp & b' & Hb' & E)]; [now left|].
           right. split; [exact Hp|]. exists b'. split; [now right | exact E].
        -- intros [H|(Hp & b' & [<-|Hb'] & E)]; [now left | |].
           ++ left. apply existsb_exists in Ex as (x & Hx & Ex).
              apply String.eqb_eq in Ex. congruence.
           ++ right. split; [exact Hp|]. now exists b'.
      * destruct (IH (ids ++ [BrowserID b])%list) as [ND Hin]. split.
        -- intros N. apply ND.
           apply (Permutation_NoDup (Permutation_cons_append _ _)).
           constructor; [|exact N].
           intros Hb.
           assert (X : existsb (fun existing =>
                                  (existing =? BrowserID b)%string) ids = true)
             by (apply existsb_exists; exists (BrowserID b);
                 split; [exact Hb | apply String.eqb_refl]).
           congruence.
        -- intros id. rewrite Hin, in_app_iff. simpl. split.
           ++ intros [[H|[<-|[]]]|(Hp & b' & Hb' & E)].
              ** now left.
              ** right. split; [exact P|]. exists b. split; [now left|reflexivity].
              ** right. split; [exact Hp|]. exists b'. split; [now right|exact E].
           ++ intros [H|(Hp & b' & [<-|Hb'] & E)].
              ** left. now left.
              ** left. right. left. exact E.
              ** right. split; [exact Hp|]. now exists b'.
    + destruct (IH ids) as [ND Hin]. split; [exact ND|].
      intros id. rewrite Hin. split.
      * intros [H|(Hp & b' & Hb' & E)]; [now left|].
        right. split; [exact Hp|]. exists b'. split; [now right | exact E].
      * intros [H|(Hp & b' & [<-|Hb'] & E)]; [now left | |].
        -- subst id. congruence.
        -- right. split; [exact Hp|]. now exists b'.
Qed.

(** X16. What the completion offers can be looked up: the profile ids of
    [completeProfileIDs] are the ids with the prefix that
    [FindProfileByID] finds, the browser ids of [completeBrowserIDs] are
    the ids with the prefix that [FindBrowserByID] finds, each offered
    once, and without a config both report an error and offer nothing. *)
Theorem completions_can_be_looked_up
        (cfg : Config) (browsers : list Browser) (toComplete : string) :
  (forall id,
      In id (fst (completeProfileIDs (Some cfg) toComplete)) <->
      strings.HasPrefix id toComplete = true
      /\ exists p, FindProfileByID cfg id = Ok p) /\
  (forall id,
      In id (fst (completeBrowserIDs (Some cfg) browsers toComplete)) <->
      strings.HasPrefix id toComplete = true
      /\ exists b, FindBrowserByID browsers id = Ok b) /\
  NoDup (fst (completeBrowserIDs (Some cfg) browsers toComplete)) /\
  completeProfileIDs None toComplete = ([], ShellCompDirectiveError) /\
  completeBrowserIDs None browsers toComplete = ([], ShellCompDirectiveError).
Proof.
  split; [|split; [|split; [|split]]]; try reflexivity.
  - intros id. cbn [completeProfileIDs fst]. rewrite in_map_iff.
    unfold FindProfileByID. split.
    + intros (p & <- & Hp). apply filter_In in Hp as [Hin Hp].
      split; [exact Hp|].
      destruct (findProfile (Profiles cfg) (ID p)) as [q|] eqn:F;
        [now exists q|].
      destruct (proj1 (findProfile_In _ _) F p Hin eq_refl).
    + intros (Hp & q & F).
      destruct (findProfile (Profiles cfg) id) as [p|] eqn:F'; [|discriminate].
      destruct (findProfile_Some_ID _ _ _ F') as [Hin <-].
      exists p. split; [reflexivity|]. apply filter_In. auto.
  - intros id. cbn [completeBrowserIDs fst].
    destruct (fold_left_ids browsers toComplete []) as [_ Hin].
    cbn zeta in Hin. rewrite Hin. unfold FindBrowserByID. split.
    + intros [[]|(Hp & b & Hb & E)]. split; [exact Hp|].
      destruct (findBrowser browsers id) as [q|] eqn:F; [now exists q|].
      destruct (proj1 (findBrowser_None _ _) F b Hb E).
    + intros (Hp & q & F). right. split; [exact Hp|].
      destruct (findBrowser browsers id) as [b|] eqn:F'; [|discriminate].
      destruct (findBrowser_Some _ _ _ F') as [Hb E]. now exists b.
  - cbn [completeBrowserIDs fst].
    destruct (fold_left_ids browsers toComplete []) as [ND _].
    apply ND. constructor.
Qed.

End RuleCommands.

(** ** From the command line to the process *)

Section RootToLaunch.
Context {U : NetURL} {RE : Regexp} {S : Sort} {H : HTTPClient}.
Import urlhandler rules.

Lemma ApplyRules_Ok_profile (cfg : Config) (inputURL : string)
      (m : MatchResult) :
  ApplyRules (Some cfg) inputURL = Ok m ->
  exists profile, findProfile (Profiles cfg) (ProfileID m) = Some profile.
Proof.
  intros R.
  destruct (Parse inputURL) as [u|e] eqn:P;
    [|unfold ApplyRules in R; rewrite P in R; discriminate].
  rewrite (ApplyRules_find cfg inputURL u P) in R.
  destruct (find _ _) as [r|].
  - unfold ruleOutcome in R.
    destruct (findProfile (Profiles cfg) (config.ProfileID r)) as [p|] eqn:F;
      [|discriminate].
    injection R as <-. now exists p.
  - unfold defaultProfile, FindProfileByID in R.
    destruct (DefaultProfileID cfg =? "")%string; [discriminate|].
    destruct (findProfile (Profiles cfg) (DefaultProfileID cfg)) as [p|] eqn:F;
      [|discriminate].
    injection R as <-. now exists p.
Qed.

Lemma ProcessURL_url (cfg : Config) (inputURL : string) (w w' : World)
      (p : Processed) :
  ProcessURL cfg inputURL w = (p, w') ->
  originalURL p = inputURL
  /\ (urlForMatching p = inputURL
      \/ ResolveShortenedURL inputURL w = (Ok (urlForMatching p), w')).
Proof.
  unfold ProcessURL.
  destruct (Parse inputURL) as [u|e];
    [|intros X; injection X as <- <-; simpl; auto].
  destruct ((Scheme u =? "http")%string || (Scheme u =? "https")%string);
    [|intros X; injection X as <- <-; simpl; auto].
  destruct (matchedShortener cfg (Hostname u)) as [s|];
    [|intros X; injection X as <- <-; simpl; auto].
  destruct (ResolveShortenedURL inputURL w) as [[resolved|e] w1];
    intros X; injection X as <- <-; simpl; auto.
Qed.

(** X17. When [runRootCmd] reaches the launcher, it hands it the loaded
    config, the id of a profile of that config, and the first argument of
    the command line or the URL it was resolved to; so [Launch] never
    fails for the profile, and with a browser for the profile it starts
    the command of that browser with that URL as the last argument. *)
Theorem runRootCmd_launches
        (cfg : option Config) (args : list string) (w w' : World)
        (c : Config) (profileID urlToLaunch : string) (incognito : bool) :
  cli.runRootCmd cfg args w
    = (cli.Launch c profileID urlToLaunch incognito, w') ->
  cfg = Some c /\
  exists urlInput rest profile,
    args = urlInput :: rest
    /\ FindProfileByID c profileID = Ok profile
    /\ (urlToLaunch = urlInput
        \/ ResolveShortenedURL urlInput w = (Ok urlToLaunch, w'))
    /\ (forall browsers wayland e,
           launcher.Launch c browsers wayland profileID urlToLaunch incognito
           <> Err (launcher.ErrProfile e))
    /\ (forall browsers wayland browser,
           configx.GetProfileBrowser browsers profile = Ok browser ->
           exists flags,
             launcher.Launch c browsers wayland profileID urlToLaunch incognito
             = Ok (launcher.command browser ++ flags ++ [urlToLaunch])%list).
Proof.
  unfold cli.runRootCmd. destruct cfg as [cfg|]; [|discriminate].
  destruct args as [|urlInput rest]; [discriminate|].
  destruct (ProcessURL cfg urlInput w) as [p w1] eqn:P.
  destruct (ProcessURL_url _ _ _ _ _ P) as [Ho Hu].
  destruct (err p); [discriminate|].
  destruct (ApplyRules (Some cfg) (urlForMatching p)) as [m|e] eqn:R;
    [|discriminate].
  intros X.
  assert (E : cfg = c /\ ProfileID m = profileID
              /\ (if isSafelink p then originalURL p else urlForMatching p)
                 = urlToLaunch
              /\ Incognito m = incognito /\ w1 = w')
    by (injection X; auto).
  destruct E as (<- & <- & <- & <- & <-). clear X.
  destruct (ApplyRules_Ok_profile _ _ _ R) as [profile F].
  split; [reflexivity|]. exists urlInput, rest, profile.
  split; [reflexivity|].
  split; [unfold FindProfileByID; now rewrite F|].
  split; [|split].
  - destruct (isSafelink p); [left; exact Ho|].
    destruct Hu as [->|Hr]; [now left | now right].
  - intros browsers wayland e. unfold launcher.Launch, FindProfileByID.
    rewrite F. destruct (configx.GetProfileBrowser browsers profile);
      discriminate.
  - intros browsers wayland browser G.
    unfold launcher.Launch, FindProfileByID. rewrite F, G.
    eexists. reflexivity.
Qed.

End RootToLaunch.

(** ** More pinned runs *)

Section MoreRuns.
Import Ref RefUnicode Fixtures Examples configx configcmd.

(** The work rule wins for a work page, and its profile is configured. *)
Lemma ApplyRules_result_valid_run :
  rules.ApplyRules (Some desktop) "https://example.com/work/board"
    = Ok (rules.mkMatchResult (Some workRule) "chrome-work" true) /\
  (exists p, In p (Profiles desktop) /\ ID p = "chrome-work").
Proof.
  split; [reflexivity|].
  destruct (ApplyRules_result_valid (U:=netURL) (RE:=regexp) (S:=sort)
              (Some desktop) "https://example.com/work/board"
              (rules.mkMatchResult (Some workRule) "chrome-work" true)
              lessRule_contract eq_refl)
    as (c & u & Ec & _ & (p & Hin & Hid) & _).
  injection Ec as <-. exists p. split; [exact Hin | exact Hid].
Defined.

(** The two rules in either order give the work page the work profile. *)
Lemma ApplyRules_order_independent_run :
  Permutation (Rules specificityReversed) (Rules specificity) /\
  rules.ApplyRules (Some specificityReversed)
                   "https://example.com/work/dashboard"
  = rules.ApplyRules (Some specificity) "https://example.com/work/dashboard".
Proof.
  split; [apply perm_swap|].
  apply (ApplyRules_order_independent (U:=netURL) (RE:=regexp) (S:=sort)
           specificity specificityReversed
           "https://example.com/work/dashboard" lessRule_contract);
    [|apply perm_swap | reflexivity | reflexivity].
  intros u a b _ [<-|[<-|[]]] [<-|[<-|[]]] _ _ L;
    first [reflexivity | discriminate L].
Defined.


(** The flag of the second manual domain goes from set to not set. *)
Lemma runEditManualShortURLCmd_run :
  runEditManualShortURLCmd (Some desktop) [] None
                           (Chosen "links.example.org") (Chosen "No")
  = Save (withManualShorteners
            desktop [mkShortener "sho.rt" false;
                     mkShortener "links.example.org" false]) /\
  map Domain [mkShortener "sho.rt" false;
              mkShortener "links.example.org" false]
  = map Domain (ManualShorteners desktop).
Proof.
  split; [reflexivity|].
  destruct (runEditManualShortURLCmd_saves
              desktop [] None (Chosen "links.example.org") (Chosen "No")
              (withManualShorteners
                 desktop [mkShortener "sho.rt" false;
                          mkShortener "links.example.org" false])
              eq_refl)
    as (domain & s & i & _ & _ & _ & _ & _ & _ & Hmap & _).
  exact Hmap.
Defined.


(** The developer profile, which no rule uses, is deleted, and a work page
    still goes to the work profile. *)
Lemma runProfileDeleteCmd_run :
  runProfileDeleteCmd (UC:=unicode) (Some desktop) ["firefox-dev"]
                      (Chosen "") "yes"
  = Save (withProfiles
            desktop
            [mkProfile "chrome-default" "Chrome (Default)" "chrome" "Default";
             mkProfile "chrome-work" "Chrome (Work)" "chrome" "Profile 1"]) /\
  rules.ApplyRules
    (Some (withProfiles
             desktop
             [mkProfile "chrome-default" "Chrome (Default)" "chrome" "Default";
              mkProfile "chrome-work" "Chrome (Work)" "chrome" "Profile 1"]))
    "https://example.com/work/board"
  = rules.ApplyRules (Some desktop) "https://example.com/work/board".
Proof.
  split; [reflexivity|].
  destruct (runProfileDeleteCmd_keeps_routing
              (U:=netURL) (RE:=regexp) (S:=sort) (UC:=unicode)
              desktop ["firefox-dev"] (Chosen "") "yes"
              (withProfiles
                 desktop
                 [mkProfile "chrome-default" "Chrome (Default)" "chrome"
                            "Default";
                  mkProfile "chrome-work" "Chrome (Work)" "chrome"
                            "Profile 1"])
              lessRule_contract eq_refl)
    as (i & p & _ & _ & _ & _ & _ & _ & _ & _ & Happly).
  exact (Happly "https://example.com/work/board").
Defined.

(** The work profile becomes the default, chosen by its name. *)
Lemma runSetDefaultProfileCmd_run :
  runSetDefaultProfileCmd (Some desktop) [] (Chosen "Chrome (Work)")
  = Save (withDefaultProfileID desktop "chrome-work") /\
  rules.ApplyRules (Some (withDefaultProfileID desktop "chrome-work"))
                   "https://other.example.org/"
  = Ok (rules.mkMatchResult None "chrome-work" false).
Proof.
  split; [reflexivity|].
  destruct (runSetDefaultProfileCmd_saves (U:=netURL) (RE:=regexp) (S:=sort)
              desktop [] (Chosen "Chrome (Work)")
              (withDefaultProfileID desktop "chrome-work") eq_refl)
    as (p & _ & _ & Ec & _ & _ & _ & Hdef).
  assert (Ep : ID p = "chrome-work") by (injection Ec as ->; reflexivity).
  rewrite Ep in Hdef.
  apply (Hdef "https://other.example.org/"
              (rules.mkMatchResult None "chrome-default" false));
    [reflexivity | reflexivity | discriminate].
Defined.

(** A work page from the command line ends in a Chrome process. *)
Lemma runRootCmd_launches_run :
  cli.runRootCmd (Some desktop) ["https://example.com/work/board"] []
  = (cli.Launch desktop "chrome-work" "https://example.com/work/board" true,
     []) /\
  launcher.Launch desktop browsers true "chrome-work"
                  "https://example.com/work/board" true
  = Ok ["/usr/bin/google-chrome"; "--profile-directory=Profile 1";
        "--incognito"; "--enable-features=UseOzonePlatform";
        "--ozone-platform=wayland"; "https://example.com/work/board"] /\
  (forall wayland e,
      launcher.Launch desktop browsers wayland "chrome-work"
                      "https://example.com/work/board" true
      <> Err (launcher.ErrProfile e)).
Proof.
  split; [reflexivity|]. split; [reflexivity|].
  destruct (runRootCmd_launches (U:=netURL) (RE:=regexp) (S:=sort)
              (H:=httpClient)
              (Some desktop) ["https://example.com/work/board"] [] []
              desktop "chrome-work" "https://example.com/work/board" true
              eq_refl)
    as (_ & urlInput & rest & profile & _ & _ & _ & Hnever & _).
  intros wayland e. exact (Hnever browsers wayland e).
Defined.

End MoreRuns.

(** ** Deleting a browser *)

Section BrowserCommands.
Context {UC : Unicode} {CS : Case}.
Import configx browsercmd.

Lemma deleteLoop_spec (browsers : list Browser) (browserID input : string) :
  forall (rest : list Browser) (i : nat),
    (forall k, nth_error rest k = nth_error browsers (i + k)) ->
    match deleteLoop browsers rest browserID i input with
    | Some (Save browsers') =>
        exists j b,
          nth_error browsers (i + j) = Some b /\ BrowserID b = browserID
          /\ (forall k b', k < j -> nth_error rest k = Some b' ->
                           BrowserID b' <> browserID)
          /\ ToLower (configcmd.promptString input "N") = "y"
          /\ browsers' = (firstn (i + j) browsers
                            ++ skipn (S (i + j)) browsers)%list
    | Some Panic => False
    | Some (Return _) => True
    | None => forall b, In b rest -> BrowserID b <> browserID
    end.
Proof.
  induction rest as [|a rest IH]; intros i Hrest; cbn [deleteLoop].
  - intros b [].
  - destruct (String.eqb_spec (BrowserID a) browserID) as [E|N].
    + destruct (String.eqb_spec (ToLower (configcmd.promptString input "N"))
                                "y") as [Y|NY]; cbn [negb]; [|exact I].
      assert (Hn : nth_error browsers i = Some a)
        by (rewrite <- (Nat.add_0_r i), <- Hrest; reflexivity).
      rewrite (removeAt_nth _ _ i a Hn).
      exists 0, a. rewrite Nat.add_0_r.
      split; [exact Hn|]. split; [exact E|].
      split; [intros k b' Hk; lia|]. split; [exact Y | reflexivity].
    + assert (Hrest' : forall k, nth_error rest k
                                 = nth_error browsers (S i + k)).
      { intros k. replace (S i + k) with (i + S k) by lia.
        exact (Hrest (S k)). }
      specialize (IH (S i) Hrest').
      destruct (deleteLoop browsers rest browserID (S i) input)
        as [[msg|browsers'|]|]; try exact IH.
      * destruct IH as (j & b & Hn & Hid & Hmin & Y & ->).
        exists (S j), b. rewrite Nat.add_succ_r.
        split; [exact Hn|]. split; [exact Hid|].
        split; [|split; [exact Y | reflexivity]].
        intros [|k] b' Hk Hb'; simpl in Hb'.
        -- injection Hb' as <-. exact N.
        -- apply (Hmin k b'); [lia | exact Hb'].
      * intros b [<-|Hb]; auto.
Qed.

Lemma findBrowser_app (a b : list Browser) (id : string) :
  findBrowser (a ++ b) id =
  match findBrowser a id with
  | Some x => Some x
  | None => findBrowser b id
  end.
Proof.
  induction a as [|x a IH]; simpl; [reflexivity|].
  destruct (BrowserID x =? id)%string; [reflexivity | exact IH].
Qed.

(** X18. When [runBrowserDeleteCmd] saves, the user has confirmed with a
    text that lowers to "y" and the first browser with the id, and only
    that, is gone; every other id is looked up as before.  The command
    does not look at the profiles: with browser ids that were unique,
    [Launch] from then on fails for the browser on every profile of the
    deleted one. *)
Theorem runBrowserDeleteCmd_saves
        (args : list string) (browsers : list Browser) (input : string)
        (browsers' : list Browser) :
  runBrowserDeleteCmd args (Ok browsers) input = Save browsers' ->
  exists browserID rest i b,
    args = browserID :: rest
    /\ nth_error browsers i = Some b /\ BrowserID b = browserID
    /\ (forall k b', k < i -> nth_error browsers k = Some b' ->
                     BrowserID b' <> browserID)
    /\ ToLower (configcmd.promptString input "N") = "y"
    /\ browsers' = (firstn i browsers ++ skipn (S i) browsers)%list
    /\ (forall id, id <> browserID ->
                   FindBrowserByID browsers' id = FindBrowserByID browsers id)
    /\ (NoDup (map BrowserID browsers) ->
        forall cfg wayland profileID profile targetURL incognito,
          FindProfileByID cfg profileID = Ok profile ->
          config.BrowserID profile = browserID ->
          exists e,
            launcher.Launch cfg browsers' wayland profileID targetURL incognito
            = Err (launcher.ErrBrowser browserID (ProfileName profile) e)).
Proof.
  unfold runBrowserDeleteCmd. destruct args as [|browserID rest];
    [discriminate|].
  pose proof (deleteLoop_spec browsers browserID input browsers 0
                              (fun k => eq_refl)) as Sp.
  destruct (deleteLoop browsers browsers browserID 0 input)
    as [[msg|bs|]|]; try discriminate.
  destruct Sp as (i & b & Hn & Hid & Hmin & Y & Ebs).
  change (0 + i) with i in Hn, Ebs.
  intros X. assert (E : browsers' = bs) by congruence.
  subst browsers' bs. clear X.
  exists browserID, rest, i, b.
  split; [reflexivity|]. split; [exact Hn|]. split; [exact Hid|].
  split; [exact Hmin|]. split; [exact Y|]. split; [reflexivity|].
  assert (Hfirst : findBrowser (firstn i browsers) browserID = None).
  { apply findBrowser_None. intros b' Hb'.
    apply In_nth_error in Hb' as [k Hk].
    assert (k < i).
    { assert (k < length (firstn i browsers))
        by (apply nth_error_Some; congruence).
      rewrite length_firstn in *. lia. }
    rewrite nth_error_firstn in Hk.
    destruct (Nat.ltb_spec k i); [|lia]. exact (Hmin k b' H Hk). }
  split.
  - intros id N. unfold FindBrowserByID.
    replace (findBrowser browsers id)
      with (findBrowser (firstn i browsers ++ b :: skipn (S i) browsers) id)
      by (now rewrite <- (split_at _ browsers i b Hn)).
    rewrite !findBrowser_app. cbn [findBrowser].
    destruct (String.eqb_spec (BrowserID b) id) as [E|_];
      [congruence | reflexivity].
  - intros ND cfg wayland profileID profile targetURL incognito F EB.
    unfold launcher.Launch, GetProfileBrowser, FindBrowserByID.
    rewrite F, EB, findBrowser_app, Hfirst.
    assert (K : findBrowser (skipn (S i) browsers) browserID = None).
    { apply findBrowser_None. intros b' Hb' Eb'.
      rewrite (split_at _ browsers i b Hn), map_app in ND. cbn [map] in ND.
      apply NoDup_remove_2 in ND. apply ND. apply in_or_app. right.
      rewrite Hid, <- Eb'. now apply in_map. }
    rewrite K. eexists. reflexivity.
Qed.

End BrowserCommands.

Section BrowserRuns.
Import Ref RefUnicode RefCase Examples configx browsercmd.

(** Without its browser the developer profile cannot be launched. *)
Lemma runBrowserDeleteCmd_run :
  runBrowserDeleteCmd (UC:=unicode) (CS:=lowerCase) ["firefox"] (Ok browsers)
                      "Y"
  = Save [chrome] /\
  (exists e,
      launcher.Launch desktop [chrome] false "firefox-dev"
                      "https://example.com" false
      = Err (launcher.ErrBrowser "firefox" "Firefox Developer" e)).
Proof.
  split; [reflexivity|].
  destruct (runBrowserDeleteCmd_saves (UC:=unicode) (CS:=lowerCase)
              ["firefox"] browsers "Y" [chrome] eq_refl)
    as (browserID & rest & i & b & Ea & _ & _ & _ & _ & _ & _ & Hl).
  injection Ea as <- _.
  apply (Hl ltac:(repeat constructor; simpl; intuition discriminate)
            desktop false "firefox-dev"
            (mkProfile "firefox-dev" "Firefox Developer" "firefox" "dev")
            "https://example.com" false eq_refl eq_refl).
Defined.

End BrowserRuns.

(** ** The default config *)

Section Defaults.
Context {U : NetURL} {RE : Regexp} {S : Sort} {H : HTTPClient}.
Import configx configcmd rules urlhandler.

(** X19. With the config of [DefaultConfig] nothing is launched: for
    every URL that parses [ApplyRules] fails because no default profile is
    configured, so [runRootCmd] never reaches the launcher, and
    [runSetDefaultProfileCmd] exits with status 1 whatever it is given.
    The built-in shortener domains are pairwise different, and the only
    one that is a safelink is "safelinks.protection.outlook.com". *)
Theorem DefaultConfig_launches_nothing :
  SliceContract lessRule ->
  (forall inputURL u,
      Parse inputURL = Ok u ->
      ApplyRules (Some DefaultConfig) inputURL = Err ErrNoDefaultProfile) /\
  (forall args w c profileID urlToLaunch incognito w',
      cli.runRootCmd (Some DefaultConfig) args w
      <> (cli.Launch c profileID urlToLaunch incognito, w')) /\
  (forall args selection,
      exists msg,
        runSetDefaultProfileCmd (Some DefaultConfig) args selection
        = Exit 1 msg) /\
  NoDup (map Domain (Shorteners DefaultConfig
                       ++ ManualShorteners DefaultConfig)%list) /\
  (forall hostname s,
      matchedShortener DefaultConfig hostname = Some s ->
      Domain s = hostname
      /\ (IsSafelink s = true <->
          hostname = "safelinks.protection.outlook.com")).
Proof.
  intros C.
  assert (B : forall inputURL u,
             Parse inputURL = Ok u ->
             ApplyRules (Some DefaultConfig) inputURL = Err ErrNoDefaultProfile).
  { intros inputURL u P. rewrite (ApplyRules_find _ inputURL u P).
    destruct (C (Rules DefaultConfig)) as [Perm _].
    apply Permutation_sym, Permutation_nil in Perm.
    cbn [Rules DefaultConfig] in *. now rewrite Perm. }
  split; [exact B|]. split; [|split; [|split]].
  - intros args w c profileID urlToLaunch incognito w'.
    unfold cli.runRootCmd. destruct args as [|urlInput rest]; [discriminate|].
    destruct (ProcessURL DefaultConfig urlInput w) as [p w1].
    destruct (err p); [discriminate|].
    destruct (Parse (urlForMatching p)) as [u|e] eqn:P.
    + rewrite (B _ u P). discriminate.
    + unfold ApplyRules. rewrite P. discriminate.
  - intros args selection. unfold runSetDefaultProfileCmd.
    destruct args as [|a rest]; eexists; reflexivity.
  - assert (E : nodup string_dec
                      (map Domain (Shorteners DefaultConfig
                                     ++ ManualShorteners DefaultConfig)%list)
                = map Domain (Shorteners DefaultConfig
                                ++ ManualShorteners DefaultConfig)%list)
      by (vm_compute; reflexivity).
    rewrite <- E. apply NoDup_nodup.
  - intros hostname s M.
    assert (In s builtinShorteners /\ Domain s = hostname) as [Hin Hd].
    { unfold matchedShortener in M. cbn [ManualShorteners DefaultConfig matchDomain] in M.
      cbn [Shorteners] in M. exact (matchDomain_Some _ _ _ M). }
    split; [exact Hd|]. subst hostname.
    unfold builtinShorteners in Hin. apply in_app_or in Hin as [Hin|Hin].
    + apply in_map_iff in Hin as (d & <- & Hd). cbn [IsSafelink Domain].
      split; [discriminate|]. intros ->.
      repeat (destruct Hd as [Hd|Hd]; [discriminate Hd|]). destruct Hd.
    + destruct Hin as [<-|[]]. split; reflexivity.
Qed.

End Defaults.

Section DefaultRuns.
Import Ref configx.

(** A fresh config routes no page. *)
Lemma DefaultConfig_launches_nothing_run :
  rules.ApplyRules (Some DefaultConfig) "https://example.com"
  = Err rules.ErrNoDefaultProfile.
Proof.
  apply (proj1 (DefaultConfig_launches_nothing
                  (U:=netURL) (RE:=regexp) (S:=sort) (H:=httpClient)
                  lessRule_contract)
               "https://example.com"
               (mkURL "https" "" "example.com" "" "" "") eq_refl).
Defined.

End DefaultRuns.

(** ** Adding a rule *)

Section RuleAdd.
Context {U : NetURL} {RE : Regexp} {S : Sort}.
Import rules configcmd.

(** Two configs with the same profiles and default profile, whose rules
    that match the URL are the same, no two of them with patterns of the
    same length, get the same result. *)
Lemma ApplyRules_same_matching (cfg cfg' : Config) (inputURL : string)
      (u : URL) :
  SliceContract lessRule ->
  Parse inputURL = Ok u ->
  Profiles cfg' = Profiles cfg ->
  DefaultProfileID cfg' = DefaultProfileID cfg ->
  (forall q, ruleMatches (recoverHost inputURL u) q = true ->
             (In q (Rules cfg') <-> In q (Rules cfg))) ->
  (forall a b, In a (Rules cfg) -> In b (Rules cfg) ->
               ruleMatches (recoverHost inputURL u) a = true ->
               ruleMatches (recoverHost inputURL u) b = true ->
               patternLen a = patternLen b -> a = b) ->
  ApplyRules (Some cfg') inputURL = ApplyRules (Some cfg) inputURL.
Proof.
  intros C E Hprof Hdef Hsame Hdist.
  destruct (C (Rules cfg)) as [P _]. destruct (C (Rules cfg')) as [P' _].
  destruct (find (ruleMatches (recoverHost inputURL u))
                 (Slice lessRule (Rules cfg))) as [q|] eqn:F.
  - destruct (find_some _ _ F) as [Hin Hm].
    assert (Hq : In q (Rules cfg)) by exact (Permutation_in _ P Hin).
    assert (Hq' : In q (Rules cfg')) by (now apply Hsame).
    destruct (ApplyRules_winner cfg inputURL u q C E Hq Hm)
      as (r & Hr & Mr & Maxr & Rr).
    destruct (ApplyRules_winner cfg' inputURL u q C E Hq' Hm)
      as (r' & Hr' & Mr' & Maxr' & Rr').
    assert (Hr'' : In r' (Rules cfg)) by (now apply Hsame).
    assert (L1 := Maxr r' Hr'' Mr').
    assert (L2 := Maxr' r (proj2 (Hsame r Mr) Hr) Mr).
    assert (r = r') by (apply Hdist; auto; lia). subst r'.
    rewrite Rr, Rr'. unfold ruleOutcome. now rewrite Hprof.
  - assert (F' : find (ruleMatches (recoverHost inputURL u))
                      (Slice lessRule (Rules cfg')) = None).
    { apply find_none_of_all. intros x Hx.
      destruct (ruleMatches (recoverHost inputURL u) x) eqn:Mx;
        [|reflexivity].
      assert (Hx' : In x (Rules cfg))
        by (apply (Hsame x Mx); exact (Permutation_in _ P' Hx)).
      rewrite <- Mx. apply (find_none _ _ F).
      exact (Permutation_in _ (Permutation_sym P) Hx'). }
    rewrite (ApplyRules_find cfg inputURL u E), F.
    rewrite (ApplyRules_find cfg' inputURL u E), F'.
    unfold defaultProfile, FindProfileByID. now rewrite Hprof, Hdef.
Qed.

(** X20. When [runRuleAddCmd] saves, the config has one more rule, at
    the end, made of the four answers, with no id and never incognito.
    For a URL the new rule does not match, [ApplyRules] returns what it
    returned before, as long as no two old rules that match have patterns
    of the same length; for a URL it matches with a longer pattern than
    every old rule that matches, the new rule decides the result. *)
Theorem runRuleAddCmd_saves
        (cfg : Config) (name pattern scope profileID : Answer)
        (cfg' : Config) :
  SliceContract lessRule ->
  runRuleAddCmd (Ok cfg) name pattern scope profileID = Save cfg' ->
  exists r,
    cfg' = withRules cfg (Rules cfg ++ [r])%list
    /\ name = Chosen (config.Name r) /\ pattern = Chosen (Pattern r)
    /\ scope = Chosen (Scope r) /\ profileID = Chosen (config.ProfileID r)
    /\ RuleID r = "" /\ config.Incognito r = false
    /\ forall inputURL u,
         Parse inputURL = Ok u ->
         (ruleMatches (recoverHost inputURL u) r = false ->
          (forall a b, In a (Rules cfg) -> In b (Rules cfg) ->
                       ruleMatches (recoverHost inputURL u) a = true ->
                       ruleMatches (recoverHost inputURL u) b = true ->
                       patternLen a = patternLen b -> a = b) ->
          ApplyRules (Some cfg') inputURL = ApplyRules (Some cfg) inputURL)
         /\ (ruleMatches (recoverHost inputURL u) r = true ->
             (forall q, In q (Rules cfg) ->
                        ruleMatches (recoverHost inputURL u) q = true ->
                        patternLen q < patternLen r) ->
             ApplyRules (Some cfg') inputURL = ruleOutcome cfg r).
Proof.
  intros C. unfold runRuleAddCmd.
  destruct name as [n|q e]; [|discriminate].
  destruct pattern as [p|q e]; [|discriminate].
  destruct scope as [s|q e]; [|discriminate].
  destruct profileID as [id|q e]; [|discriminate].
  intros X.
  assert (E : cfg' = withRules cfg (Rules cfg ++ [mkRule "" n p s id false])%list)
    by congruence.
  subst cfg'. clear X.
  exists (mkRule "" n p s id false).
  split; [reflexivity|]. split; [reflexivity|]. split; [reflexivity|].
  split; [reflexivity|]. split; [reflexivity|]. split; [reflexivity|].
  split; [reflexivity|].
  intros inputURL u P. split.
  - intros NM Hdist.
    apply (ApplyRules_same_matching _ _ inputURL u C P);
      [reflexivity | reflexivity | | exact Hdist].
    intros q Mq. unfold withRules. cbn [Rules]. rewrite in_app_iff. split.
    + intros [Hq|[<-|[]]]; [exact Hq | congruence].
    + intros Hq. now left.
  - intros M Hlong.
    set (r := mkRule "" n p s id false) in *.
    assert (Hin : In r (Rules (withRules cfg (Rules cfg ++ [r])%list)))
      by (unfold withRules; cbn [Rules]; apply in_or_app; right; now left).
    destruct (ApplyRules_winner _ inputURL u r C P Hin M)
      as (w & Hw & Mw & Maxw & Rw).
    rewrite Rw.
    unfold withRules in Hw. cbn [Rules] in Hw.
    apply in_app_or in Hw as [Hw|[<-|[]]]; [|reflexivity].
    specialize (Hlong w Hw Mw). specialize (Maxw r Hin M). lia.
Qed.

End RuleAdd.

Section RuleAddRuns.
Import Ref Examples configcmd.

(** A rule for the admin pages, added at the prompt, takes them over. *)
Lemma runRuleAddCmd_run :
  runRuleAddCmd (Ok desktop) (Chosen "Admin")
                (Chosen "^https://example\.com/work/admin") (Chosen "url")
                (Chosen "firefox-dev")
  = Save (withRules
            desktop
            [exampleRule; workRule;
             mkRule "" "Admin" "^https://example\.com/work/admin" "url"
                    "firefox-dev" false]) /\
  rules.ApplyRules
    (Some (withRules
             desktop
             [exampleRule; workRule;
              mkRule "" "Admin" "^https://example\.com/work/admin" "url"
                     "firefox-dev" false]))
    "https://example.com/work/board"
  = rules.ApplyRules (Some desktop) "https://example.com/work/board".
Proof.
  split; [reflexivity|].
  destruct (runRuleAddCmd_saves (U:=netURL) (RE:=regexp) (S:=sort)
              desktop (Chosen "Admin")
              (Chosen "^https://example\.com/work/admin") (Chosen "url")
              (Chosen "firefox-dev")
              (withRules
                 desktop
                 [exampleRule; workRule;
                  mkRule "" "Admin" "^https://example\.com/work/admin" "url"
                         "firefox-dev" false])
              lessRule_contract eq_refl)
    as (r & _ & En & Ep & Es & Ei & Eid & Einc & Happly).
  assert (Er : r = mkRule "" "Admin" "^https://example\.com/work/admin" "url"
                          "firefox-dev" false).
  { destruct r as [rid rn rp rs ri rinc]. simpl in *.
    injection En as <-. injection Ep as <-. injection Es as <-.
    injection Ei as <-. now subst. }
  subst r.
  apply (proj1 (Happly "https://example.com/work/board"
                       (mkURL "https" "" "example.com" "/work/board" "" "")
                       eq_refl)); [reflexivity|].
  intros a b [<-|[<-|[]]] [<-|[<-|[]]] _ _ L;
    first [reflexivity | discriminate L].
Defined.

End RuleAddRuns.

(** ** The config that detection proposes *)

Section Detection.
Context {UC : Unicode}.
Import configcmd detectcmd.

Lemma inSet_In (key : string) (set : list string) :
  inSet key set = true <-> In key set.
Proof.
  unfold inSet. rewrite existsb_exists. split.
  - intros (k & Hk & E). apply String.eqb_eq in E. now subst.
  - intros Hk. exists key. split; [exact Hk | apply String.eqb_refl].
Qed.

Lemma lookup_In (key : string) (assignments : list (string * string))
      (v : string) :
  lookup key assignments = Some v -> In (key, v) assignments.
Proof.
  induction assignments as [|[k w] rest IH]; simpl; [discriminate|].
  destruct (String.eqb_spec k key) as [->|N].
  - intros X. injection X as <-. now left.
  - intros X. right. now apply IH.
Qed.

Lemma lookup_None (key : string) (assignments : list (string * string)) :
  lookup key assignments = None <->
  forall v, ~ In (key, v) assignments.
Proof.
  induction assignments as [|[k w] rest IH]; simpl; [tauto|].
  destruct (String.eqb_spec k key) as [->|N].
  - split; [discriminate|]. intros Hall. destruct (Hall w). now left.
  - rewrite IH. split.
    + intros Hall v [E|Hv]; [congruence | exact (Hall v Hv)].
    + intros Hall v Hv. apply (Hall v). now right.
Qed.

(** What [promptSelectProfileOrDelete] selects is the id of one of the
    profiles it was given. *)
Lemma promptSelectProfileOrDelete_selected
      (answer : Answer) (input : string) (availableProfiles : list Profile)
      (selectedID : string) (deleteItem : bool) (err : option string) :
  promptSelectProfileOrDelete answer input availableProfiles
    = (selectedID, deleteItem, err) ->
  selectedID = ""
  \/ exists p, In p availableProfiles /\ ID p = selectedID.
Proof.
  unfold promptSelectProfileOrDelete.
  destruct availableProfiles as [|a l].
  - destruct (EqualFold _ _); intros X; injection X as <- _ _; now left.
  - destruct answer as [result|[|] cause];
      try (intros X; injection X as <- _ _; now left).
    destruct (result =? "Delete this item")%string;
      [intros X; injection X as <- _ _; now left|].
    destruct (find _ (a :: l)) as [p|] eqn:F;
      intros X; injection X as <- _ _; [|now left].
    right. exists p. split; [|reflexivity].
    exact (proj1 (find_some _ _ F)).
Qed.

(** The state of the two maps of [handleOrphanedRules] after the loop. *)
Lemma orphanLoop_spec (prompts : nat -> Answer * string)
      (removed : list string) (keep : list Profile) :
  forall (rules : list config.Rule) (i : nat)
         (upd : list (string * string)) (del : list string),
    let out := orphanLoop prompts i rules removed keep upd del in
    (forall n id, In (n, id) (fst out) ->
                  In (n, id) upd
                  \/ (exists r, In r rules
                                /\ inSet (config.ProfileID r) removed = true
                                /\ config.Name r = n)
                     /\ exists p, In p keep /\ ID p = id)
    /\ (forall n, In n (snd out) ->
                  In n del
                  \/ exists r, In r rules
                               /\ inSet (config.ProfileID r) removed = true
                               /\ config.Name r = n)
    /\ (forall n id, In (n, id) upd -> exists id', lookup n (fst out) = Some id')
    /\ (forall n, In n del -> In n (snd out))
    /\ (forall r, In r rules -> inSet (config.ProfileID r) removed = true ->
                  In (config.Name r) (snd out)
                  \/ exists id, lookup (config.Name r) (fst out) = Some id)
    /\ (keep = [] -> fst out = upd).
Proof.
  induction rules as [|rule rest IH]; intros i upd del; cbn zeta.
  - cbn [orphanLoop fst snd]. split; [auto|]. split; [auto|].
    split.
    { intros n id Hin. destruct (lookup n upd) as [id'|] eqn:L;
        [now exists id'|].
      destruct (proj1 (lookup_None _ _) L id Hin). }
    split; [auto|]. split; [intros r []|reflexivity].
  - cbn [orphanLoop].
    set (step := if inSet (config.ProfileID rule) removed
                 then _ else (upd, del)).
    assert (St : (forall n id, In (n, id) (fst step) ->
                      In (n, id) upd
                      \/ (inSet (config.ProfileID rule) removed = true
                          /\ config.Name rule = n
                          /\ exists p, In p keep /\ ID p = id))
                 /\ (forall n, In n (snd step) ->
                       In n del
                       \/ (inSet (config.ProfileID rule) removed = true
                           /\ config.Name rule = n))
                 /\ (forall n id, In (n, id) upd -> In (n, id) (fst step))
                 /\ (forall n, In n del -> In n (snd step))
                 /\ (inSet (config.ProfileID rule) removed = true ->
                     In (config.Name rule) (snd step)
                     \/ exists id, In (config.Name rule, id) (fst step))
                 /\ (keep = [] -> fst step = upd)).
    { subst step.
      destruct (inSet (config.ProfileID rule) removed) eqn:Orph.
      2:{ cbn [fst snd]. split; [auto|]. split; [auto|]. split; [auto|].
          split; [auto|]. split; [discriminate | reflexivity]. }
      destruct keep as [|p1 [|p2 ps]].
      - cbn [fst snd]. split; [auto|].
        split; [intros n [<-|Hn]; auto|]. split; [auto|].
        split; [intros n Hn; now right|].
        split; [intros _; left; now left | reflexivity].
      - cbn [fst snd]. split.
        { intros n id [X|Hin]; [|now left]. injection X as <- <-.
          right. split; [reflexivity|]. split; [reflexivity|].
          exists p1. split; [now left | reflexivity]. }
        split; [auto|]. split; [intros n id Hin; now right|].
        split; [auto|].
        split; [intros _; right; exists (ID p1); now left | discriminate].
      - destruct (promptSelectProfileOrDelete (fst (prompts i))
                    (snd (prompts i)) (p1 :: p2 :: ps))
          as [[selectedID deleteRule] err] eqn:Pr.
        pose proof (promptSelectProfileOrDelete_selected _ _ _ _ _ _ Pr)
          as Sel.
        assert (Del : let out := (upd, config.Name rule :: del) in
                  (forall n id, In (n, id) (fst out) ->
                      In (n, id) upd
                      \/ (true = true /\ config.Name rule = n
                          /\ exists p, In p (p1 :: p2 :: ps) /\ ID p = id))
                  /\ (forall n, In n (snd out) ->
                        In n del \/ (true = true /\ config.Name rule = n))
                  /\ (forall n id, In (n, id) upd -> In (n, id) (fst out))
                  /\ (forall n, In n del -> In n (snd out))
                  /\ (true = true ->
                      In (config.Name rule) (snd out)
                      \/ exists id, In (config.Name rule, id) (fst out))
                  /\ (p1 :: p2 :: ps = [] -> fst out = upd)).
        { cbn zeta. cbn [fst snd]. split; [auto|].
          split; [intros n [<-|Hn]; auto|]. split; [auto|].
          split; [intros n Hn; now right|].
          split; [intros _; left; now left | reflexivity]. }
        destruct err as [e|]; [exact Del|].
        destruct deleteRule; [exact Del|].
        destruct (String.eqb_spec selectedID "") as [E|NE]; cbn [negb];
          [exact Del|].
        destruct Sel as [E|(p & Hp & Hid)]; [contradiction|].
        cbn [fst snd]. split.
        { intros n id [X|Hin]; [|now left]. injection X as <- <-.
          right. split; [reflexivity|]. split; [reflexivity|].
          now exists p. }
        split; [auto|]. split; [intros n id Hin; now right|].
        split; [auto|].
        split; [intros _; right; exists selectedID; now left | discriminate]. }
    clearbody step. destruct step as [upd1 del1]. cbn [fst snd] in St.
    destruct St as (S1 & S2 & S3 & S4 & S5 & S6).
    specialize (IH (S i) upd1 del1). cbn zeta in IH.
    destruct IH as (I1 & I2 & I3 & I4 & I5 & I6).
    split; [|split; [|split; [|split; [|split]]]].
    + intros n id Hin. destruct (I1 n id Hin) as [H1|[(r & Hr & Ho & Hn) Hp]].
      * destruct (S1 n id H1) as [H0|(Ho & Hn & Hp)]; [now left|].
        right. split; [|exact Hp]. exists rule. split; [now left|]. auto.
      * right. split; [|exact Hp]. exists r. split; [now right|]. auto.
    + intros n Hin. destruct (I2 n Hin) as [H1|(r & Hr & Ho & Hn)].
      * destruct (S2 n H1) as [H0|(Ho & Hn)]; [now left|].
        right. exists rule. split; [now left|]. auto.
      * right. exists r. split; [now right|]. auto.
    + intros n id Hin. exact (I3 n id (S3 n id Hin)).
    + intros n Hin. exact (I4 n (S4 n Hin)).
    + intros r [<-|Hr] Ho.
      * destruct (S5 Ho) as [Hd|[id Hu]].
        -- left. exact (I4 _ Hd).
        -- right. exact (I3 _ id Hu).
      * exact (I5 r Hr Ho).
    + intros K. rewrite (I6 K). exact (S6 K).
Qed.

Lemma finalRules_spec (upd : list (string * string)) (del : list string) :
  forall (rules : list config.Rule) (r' : config.Rule),
    In r' (finalRules rules upd del) <->
    exists r, In r rules /\ ~ In (config.Name r) del
              /\ r' = match lookup (config.Name r) upd with
                      | Some id =>
                          mkRule (RuleID r) (config.Name r) (Pattern r)
                                 (Scope r) id (config.Incognito r)
                      | None => r
                      end.
Proof.
  induction rules as [|a rules IH]; intros r'; cbn [finalRules].
  - split; [intros [] | intros (r & [] & _)].
  - destruct (inSet (config.Name a) del) eqn:D.
    + rewrite IH. apply inSet_In in D. split.
      * intros (r & Hr & Hd & E). exists r. split; [now right|]. auto.
      * intros (r & [<-|Hr] & Hd & E); [contradiction|]. now exists r.
    + assert (ND : ~ In (config.Name a) del)
        by (rewrite <- inSet_In; congruence).
      cbn [In]. rewrite IH. split.
      * intros [<-|(r & Hr & Hd & E)].
        -- exists a. split; [now left|]. auto.
        -- exists r. split; [now right|]. auto.
      * intros (r & [<-|Hr] & Hd & E); [left; now symmetry|].
        right. now exists r.
Qed.

Lemma finalRules_length (upd : list (string * string)) (del : list string)
      (rules : list config.Rule) :
  length (finalRules rules upd del) <= length rules.
Proof.
  induction rules as [|a rules IH]; cbn [finalRules]; [simpl; lia|].
  destruct (inSet (config.Name a) del); simpl; lia.
Qed.

(** The new default profile id: the current one, none, the id of a kept
    profile, or the original one. *)
Lemma handleOrphanedDefaultProfile_cases
      (answer : Answer) (originalDefaultID currentDefaultID : string)
      (profileIDsToRemove : list string) (profilesToKeep : list Profile) :
  handleOrphanedDefaultProfile answer originalDefaultID currentDefaultID
                               profileIDsToRemove profilesToKeep
  = currentDefaultID
  \/ handleOrphanedDefaultProfile answer originalDefaultID currentDefaultID
                                  profileIDsToRemove profilesToKeep = ""
  \/ (exists p, In p profilesToKeep
                /\ ID p = handleOrphanedDefaultProfile
                            answer originalDefaultID currentDefaultID
                            profileIDsToRemove profilesToKeep)
  \/ handleOrphanedDefaultProfile answer originalDefaultID currentDefaultID
                                  profileIDsToRemove profilesToKeep
     = originalDefaultID.
Proof.
  unfold handleOrphanedDefaultProfile.
  destruct (inSet originalDefaultID profileIDsToRemove
            && negb (originalDefaultID =? "")%string); [|now left].
  destruct profilesToKeep as [|p1 [|p2 ps]].
  - right. now left.
  - right. right. left. exists p1. split; [now left | reflexivity].
  - unfold promptSelectProfile.
    destruct answer as [result|[|] cause];
      [|right; now left|right; now left].
    destruct ((result =? "")%string && negb (originalDefaultID =? "")%string).
    + destruct (originalDefaultID =? "")%string; [right; now left|].
      right. right. now right.
    + destruct (find _ (p1 :: p2 :: ps)) as [p|] eqn:F; [|right; now left].
      destruct (ID p =? "")%string; [right; now left|].
      right. right. left. exists p. split; [|reflexivity].
      exact (proj1 (find_some _ _ F)).
Qed.

(** X21. [handleOrphanedDefaultProfile] leaves the default profile id
    alone unless it is not empty and among the removed ones.  Then the
    new default is empty when no profile is kept, the id of the kept
    profile when there is one, and with more of them empty, the id of a
    kept profile, or, when the user answers with the empty text, the
    removed id again. *)
Theorem handleOrphanedDefaultProfile_result
        (answer : Answer) (originalDefaultID currentDefaultID : string)
        (profileIDsToRemove : list string) (profilesToKeep : list Profile) :
  (inSet originalDefaultID profileIDsToRemove = false
   \/ originalDefaultID = "" ->
   handleOrphanedDefaultProfile answer originalDefaultID currentDefaultID
                                profileIDsToRemove profilesToKeep
   = currentDefaultID) /\
  (inSet originalDefaultID profileIDsToRemove = true ->
   originalDefaultID <> "" ->
   (profilesToKeep = [] ->
    handleOrphanedDefaultProfile answer originalDefaultID currentDefaultID
                                 profileIDsToRemove profilesToKeep = "")
   /\ (forall p, profilesToKeep = [p] ->
                 handleOrphanedDefaultProfile
                   answer originalDefaultID currentDefaultID
                   profileIDsToRemove profilesToKeep = ID p)
   /\ (handleOrphanedDefaultProfile answer originalDefaultID currentDefaultID
                                    profileIDsToRemove profilesToKeep = ""
       \/ (exists p, In p profilesToKeep
                     /\ ID p = handleOrphanedDefaultProfile
                                 answer originalDefaultID currentDefaultID
                                 profileIDsToRemove profilesToKeep)
       \/ (handleOrphanedDefaultProfile answer originalDefaultID
                                        currentDefaultID profileIDsToRemove
                                        profilesToKeep = originalDefaultID
           /\ answer = Chosen "" /\ 2 <= length profilesToKeep))).
Proof.
  unfold handleOrphanedDefaultProfile. split.
  - intros [-> | ->]; [reflexivity|]. now rewrite andb_false_r.
  - intros -> NE. apply String.eqb_neq in NE. rewrite NE. cbn [negb andb].
    split; [intros ->; reflexivity|]. split; [intros p ->; reflexivity|].
    destruct profilesToKeep as [|p1 [|p2 ps]].
    + now left.
    + right. left. exists p1. split; [now left | reflexivity].
    + unfold promptSelectProfile.
      destruct answer as [result|[|] cause]; [|now left|now left].
      destruct (String.eqb_spec result "") as [->|NR]; cbn [andb].
      * rewrite NE. cbn [negb]. rewrite NE. right. right.
        split; [reflexivity|]. split; [reflexivity | simpl; lia].
      * destruct (find _ (p1 :: p2 :: ps)) as [p|] eqn:F; [|now left].
        destruct (String.eqb_spec (ID p) "") as [E|NI]; [now left|].
        right. left. exists p. split; [|reflexivity].
        exact (proj1 (find_some _ _ F)).
Qed.

(** A rule that is left after the repair. *)
Lemma finalRules_kept
      (prompts : nat -> Answer * string) (rules : list config.Rule)
      (profileIDsToRemove : list string) (profilesToKeep : list Profile) :
  forall r',
    In r' (finalRules
             rules
             (fst (handleOrphanedRules prompts rules profileIDsToRemove
                                       profilesToKeep))
             (snd (handleOrphanedRules prompts rules profileIDsToRemove
                                       profilesToKeep))) ->
    (exists r,
        In r rules
        /\ RuleID r' = RuleID r /\ config.Name r' = config.Name r
        /\ Pattern r' = Pattern r /\ Scope r' = Scope r
        /\ config.Incognito r' = config.Incognito r
        /\ (r' = r
            \/ exists p, In p profilesToKeep
                         /\ ID p = config.ProfileID r'))
    /\ (forall o, In o rules ->
                  inSet (config.ProfileID o) profileIDsToRemove = true ->
                  config.Name o = config.Name r' ->
                  exists p, In p profilesToKeep
                            /\ ID p = config.ProfileID r')
    /\ (profilesToKeep = [] ->
        inSet (config.ProfileID r') profileIDsToRemove = false).
Proof.
  unfold handleOrphanedRules.
  pose proof (orphanLoop_spec prompts profileIDsToRemove profilesToKeep
                              rules 0 [] []) as Sp.
  cbn zeta in Sp.
  destruct (orphanLoop prompts 0 rules profileIDsToRemove profilesToKeep [] [])
    as [upd del].
  cbn [fst snd] in *. destruct Sp as (S1 & _ & _ & _ & S5 & S6).
  intros r' Hr'. apply finalRules_spec in Hr' as (r & Hr & Hd & E).
  assert (Upd : forall id, lookup (config.Name r) upd = Some id ->
                           exists p, In p profilesToKeep /\ ID p = id).
  { intros id L. apply lookup_In in L.
    destruct (S1 _ _ L) as [[]|[_ Hp]]. exact Hp. }
  split; [|split].
  - exists r. split; [exact Hr|].
    destruct (lookup (config.Name r) upd) as [id|] eqn:L; subst r'.
    + cbn. repeat (split; [reflexivity|]). right. now apply Upd.
    + repeat (split; [reflexivity|]). now left.
  - intros o Ho Orph En.
    assert (Enr : config.Name r' = config.Name r)
      by (subst r'; now destruct (lookup (config.Name r) upd)).
    rewrite Enr in En.
    destruct (S5 o Ho Orph) as [Hdel|[id L]].
    + rewrite En in Hdel. contradiction.
    + rewrite En in L. rewrite L in E. subst r'. cbn. now apply Upd.
  - intros K. rewrite (S6 K) in E. cbn [lookup] in E. subst r'.
    destruct (inSet (config.ProfileID r) profileIDsToRemove) eqn:Orph;
      [|reflexivity].
    destruct (S5 r Hr Orph) as [Hdel|[id L]]; [contradiction|].
    rewrite (S6 K) in L. discriminate L.
Qed.

(** X22. The rules that [runDetectBrowsersCmd] keeps after
    [handleOrphanedRules]: each is a rule of the config, with at most its
    profile id changed, and then to the id of a kept profile; a rule that
    has the name of a rule with a removed profile is gone or points to a
    kept profile; a rule whose name no such rule has stays as it is; and
    with no kept profile no rule with a removed profile is left. *)
Theorem handleOrphanedRules_repairs
        (prompts : nat -> Answer * string) (rules : list config.Rule)
        (profileIDsToRemove : list string) (profilesToKeep : list Profile) :
  (forall r',
      In r' (finalRules
               rules
               (fst (handleOrphanedRules prompts rules profileIDsToRemove
                                         profilesToKeep))
               (snd (handleOrphanedRules prompts rules profileIDsToRemove
                                         profilesToKeep))) ->
      (exists r,
          In r rules
          /\ RuleID r' = RuleID r /\ config.Name r' = config.Name r
          /\ Pattern r' = Pattern r /\ Scope r' = Scope r
          /\ config.Incognito r' = config.Incognito r
          /\ (r' = r
              \/ exists p, In p profilesToKeep
                           /\ ID p = config.ProfileID r'))
      /\ (forall o, In o rules ->
                    inSet (config.ProfileID o) profileIDsToRemove = true ->
                    config.Name o = config.Name r' ->
                    exists p, In p profilesToKeep
                              /\ ID p = config.ProfileID r')
      /\ (profilesToKeep = [] ->
          inSet (config.ProfileID r') profileIDsToRemove = false)) /\
  (forall r,
      In r rules ->
      (forall o, In o rules ->
                 inSet (config.ProfileID o) profileIDsToRemove = true ->
                 config.Name o <> config.Name r) ->
      In r (finalRules
              rules
              (fst (handleOrphanedRules prompts rules profileIDsToRemove
                                        profilesToKeep))
              (snd (handleOrphanedRules prompts rules profileIDsToRemove
                                        profilesToKeep)))) /\
  length (finalRules
            rules
            (fst (handleOrphanedRules prompts rules profileIDsToRemove
                                      profilesToKeep))
            (snd (handleOrphanedRules prompts rules profileIDsToRemove
                                      profilesToKeep)))
  <= length rules.
Proof.
  split; [apply finalRules_kept|].
  unfold handleOrphanedRules.
  pose proof (orphanLoop_spec prompts profileIDsToRemove profilesToKeep
                              rules 0 [] []) as Sp.
  cbn zeta in Sp.
  destruct (orphanLoop prompts 0 rules profileIDsToRemove profilesToKeep [] [])
    as [upd del].
  cbn [fst snd] in *. destruct Sp as (S1 & S2 & _).
  split; [|apply finalRules_length].
  intros r Hr Hno. apply finalRules_spec. exists r.
  split; [exact Hr|]. split.
  - intros Hd. destruct (S2 _ Hd) as [[]|(o & Ho & Orph & En)].
    exact (Hno o Ho Orph En).
  - destruct (lookup (config.Name r) upd) as [id|] eqn:L; [|reflexivity].
    apply lookup_In in L.
    destruct (S1 _ _ L) as [[]|[(o & Ho & Orph & En) _]].
    destruct (Hno o Ho Orph En).
Qed.


Section DetectionRouting.
Context {U : NetURL} {RE : Regexp} {S : Sort}.
Import rules.

(** X23. The config that [runDetectBrowsersCmd] proposes has the
    discovered profiles and the built-in shorteners and no manual
    shortener, so the preprocessor finds built-in domains only.  On it
    [ApplyRules] fails for the profile of a rule only when that rule is a
    rule of the old config, unchanged, whose profile was not among the
    removed ones and no rule with a removed profile has its name; and it
    fails for a default profile that is not there only with the old
    default profile id. *)
Theorem finalCfg_routing
        (cfg : Config) (profileIDsToRemove : list string)
        (discoveredProfiles : list Profile) (answer : Answer)
        (prompts : nat -> Answer * string) :
  SliceContract lessRule ->
  Profiles (finalCfg cfg profileIDsToRemove discoveredProfiles answer prompts)
  = discoveredProfiles /\
  (forall hostname,
      urlhandler.matchedShortener
        (finalCfg cfg profileIDsToRemove discoveredProfiles answer prompts)
        hostname
      = urlhandler.matchDomain (Shorteners cfg) hostname) /\
  (forall inputURL profileID ruleName,
      ApplyRules
        (Some (finalCfg cfg profileIDsToRemove discoveredProfiles answer
                        prompts)) inputURL
      = Err (ErrRuleProfileNotFound profileID ruleName) ->
      (exists r, In r (Rules cfg) /\ config.Name r = ruleName
                 /\ config.ProfileID r = profileID)
      /\ inSet profileID profileIDsToRemove = false
      /\ (forall p, In p discoveredProfiles -> ID p <> profileID)
      /\ (forall o, In o (Rules cfg) ->
                    inSet (config.ProfileID o) profileIDsToRemove = true ->
                    config.Name o <> ruleName)) /\
  (forall inputURL id,
      ApplyRules
        (Some (finalCfg cfg profileIDsToRemove discoveredProfiles answer
                        prompts)) inputURL
      = Err (ErrDefaultProfileNotFound id) ->
      id = DefaultProfileID cfg
      /\ forall p, In p discoveredProfiles -> ID p <> id).
Proof.
  intros C.
  pose proof (finalRules_kept prompts (Rules cfg) profileIDsToRemove
                              discoveredProfiles) as R1.
  pose proof (handleOrphanedDefaultProfile_cases
                answer (DefaultProfileID cfg) (DefaultProfileID cfg)
                profileIDsToRemove discoveredProfiles) as D.
  unfold finalCfg in *.
  destruct (handleOrphanedRules prompts (Rules cfg) profileIDsToRemove
                                discoveredProfiles) as [upd del].
  cbn [fst snd] in R1.
  set (new := handleOrphanedDefaultProfile _ _ _ _ _) in *.
  set (final := finalRules (Rules cfg) upd del) in *.
  split; [reflexivity|]. split; [reflexivity|]. split.
  - intros inputURL profileID ruleName X.
    destruct (Parse inputURL) as [u|e] eqn:P;
      [|unfold ApplyRules in X; rewrite P in X; discriminate].
    rewrite (ApplyRules_find _ inputURL u P) in X. cbn [Rules] in X.
    destruct (C final) as [Perm _].
    destruct (find _ _) as [r'|] eqn:F.
    2:{ unfold defaultProfile, FindProfileByID in X.
        destruct (_ =? _)%string; [discriminate|].
        destruct (findProfile _ _); discriminate. }
    destruct (find_some _ _ F) as [Hin _].
    apply (Permutation_in _ Perm) in Hin.
    unfold ruleOutcome in X. cbn [Profiles] in X.
    destruct (findProfile discoveredProfiles (config.ProfileID r')) eqn:Fp;
      [discriminate|].
    injection X as <- <-.
    pose proof (proj1 (findProfile_In _ _) Fp) as Hnone.
    destruct (R1 r' Hin) as ((r & Hr & _ & En & _ & _ & _ & Hsame) & Horph & _).
    destruct Hsame as [->|(p & Hp & Hid)]; [|destruct (Hnone p Hp Hid)].
    assert (Hno : forall o, In o (Rules cfg) ->
                    inSet (config.ProfileID o) profileIDsToRemove = true ->
                    config.Name o <> config.Name r).
    { intros o Ho Orph Eo.
      destruct (Horph o Ho Orph Eo) as (p & Hp & Hid).
      exact (Hnone p Hp Hid). }
    split; [now exists r|]. split; [|split; [exact Hnone | exact Hno]].
    destruct (inSet (config.ProfileID r) profileIDsToRemove) eqn:Orph;
      [|reflexivity].
    destruct (Hno r Hr Orph eq_refl).
  - intros inputURL id X.
    destruct (Parse inputURL) as [u|e] eqn:P;
      [|unfold ApplyRules in X; rewrite P in X; discriminate].
    rewrite (ApplyRules_find _ inputURL u P) in X. cbn [Rules] in X.
    destruct (find _ _) as [r'|].
    { unfold ruleOutcome in X. destruct (findProfile _ _); discriminate. }
    unfold defaultProfile, FindProfileByID in X.
    cbn [DefaultProfileID Profiles] in X.
    destruct (String.eqb_spec new "") as [|NE]; [discriminate|].
    destruct (findProfile discoveredProfiles new) eqn:Fp; [discriminate|].
    injection X as <-.
    pose proof (proj1 (findProfile_In _ _) Fp) as Hnone.
    split; [|exact Hnone].
    destruct D as [E|[E|[(p & Hp & Hid)|E]]]; auto.
    + contradiction.
    + destruct (Hnone p Hp Hid).
Qed.

End DetectionRouting.

End Detection.

Section DetectionRuns.
Import Ref RefUnicode Examples configcmd detectcmd.

(** The developer profile is not found again: the manual shorteners are
    not in the proposed config either. *)
Lemma finalCfg_routing_run :
  Profiles (finalCfg (UC:=unicode) desktop ["firefox-dev"]
                     [mkProfile "chrome-default" "Chrome (Default)" "chrome"
                                "Default";
                      mkProfile "chrome-work" "Chrome (Work)" "chrome"
                                "Profile 1"]
                     (Chosen "") (fun _ => (Chosen "", "")))
  = [mkProfile "chrome-default" "Chrome (Default)" "chrome" "Default";
     mkProfile "chrome-work" "Chrome (Work)" "chrome" "Profile 1"] /\
  urlhandler.matchedShortener
    (finalCfg (UC:=unicode) desktop ["firefox-dev"]
              [mkProfile "chrome-default" "Chrome (Default)" "chrome"
                         "Default";
               mkProfile "chrome-work" "Chrome (Work)" "chrome" "Profile 1"]
              (Chosen "") (fun _ => (Chosen "", "")))
    "sho.rt"
  = None.
Proof.
  destruct (finalCfg_routing (UC:=unicode) (U:=netURL) (RE:=regexp) (S:=sort)
              desktop ["firefox-dev"]
              [mkProfile "chrome-default" "Chrome (Default)" "chrome"
                         "Default";
               mkProfile "chrome-work" "Chrome (Work)" "chrome" "Profile 1"]
              (Chosen "") (fun _ => (Chosen "", "")) lessRule_contract)
    as (Hp & Hm & _).
  split; [exact Hp|]. rewrite Hm. reflexivity.
Defined.

End DetectionRuns.
